(** * The REST translation layer of the LINSTOR Python client

    A shallow embedding of [linstor/linstorapi.py]: the response
    classifier ([__convert_rest_response]), the request dispatcher
    ([_rest_request]), the connection manager ([Linstor.connect]), the
    failover wrapper ([MultiLinstor.connect]) and the volume-size parser
    ([parse_volume_size_to_kib]).

    Python values are modelled as follows.
    - [str] and [bytes] are [string] (ASCII text only);
    - [int] is [Z]; [None]-able values are [option];
    - what [json.loads] returns is a [json] tree, a [dict] being the list
      of its items in insertion order;
    - a call either returns or raises: [outcome]; the third outcome,
      [Diverge], is the unbounded recursion of [_rest_request] and
      [connect] through each other, cut off by fuel;
    - the object [self] and the calls made on [HTTPConnection] objects are
      threaded through every method in a state-and-exception monad [M];
      the peer's answers are given by a [network] oracle over the history
      of calls. *)

From Stdlib Require Import ZArith String Ascii List Bool Lia.
From stdpp Require Import base option list gmap strings pretty.

Import ListNotations.
Set Warnings "-register-all,-notation-for-abbreviation".
Local Open Scope string_scope.
Local Open Scope Z_scope.

(** ** Python values *)

Inductive json : Type :=
| JNull
| JBool (b : bool)
| JInt (n : Z)
| JFloat (literal : string)
| JStr (s : string)
| JList (l : list json)
| JDict (items : list (string * json)).

(** The exceptions that travel through the modelled code.  The [Linstor*]
    classes come from [linstor/errors.py]; the others are built in or come
    from [socket], [http.client] and [zlib].  [more_errors] is empty
    where the source passes a message only. *)
Inductive exn : Type :=
| LinstorError (msg : string)
| LinstorNetworkError (msg : string) (more_errors : list exn)
| LinstorTimeoutError (msg : string)
| LinstorApiCallError (msg : string)
| LinstorArgumentError (msg : string)
| socket_error (err : string)
| socket_timeout
| BadStatusLine
| ValueError (msg : string)
| TypeError
| AttributeError
| IndexError
| zlib_error.

Inductive outcome (A : Type) : Type :=
| Ok (a : A)
| Raise (e : exn)
| Diverge.
Arguments Ok {A} a.
Arguments Raise {A} e.
Arguments Diverge {A}.

Definition obind {A B} (o : outcome A) (k : A -> outcome B) : outcome B :=
  match o with
  | Ok a => k a
  | Raise e => Raise e
  | Diverge => Diverge
  end.

Notation "'let?' x ':=' o 'in' k" := (obind o (fun x => k))
  (at level 10, x name, o at level 100, k at level 200).

(** [socket.timeout] is a subclass of [socket.error]. *)
Definition is_socket_error (e : exn) : bool :=
  match e with
  | socket_error _ | socket_timeout => true
  | _ => false
  end.

(** [except LinstorNetworkError]. *)
Definition is_LinstorNetworkError (e : exn) : bool :=
  match e with
  | LinstorNetworkError _ _ => true
  | _ => false
  end.

(** [str(err)] of a socket-level exception. *)
Definition str_exn (e : exn) : string :=
  match e with
  | socket_error err => err
  | socket_timeout => "timed out"
  | LinstorError m | LinstorNetworkError m _ | LinstorTimeoutError m
  | LinstorApiCallError m | LinstorArgumentError m | ValueError m => m
  | _ => ""
  end.

Definition str_int (n : Z) : string := pretty n.

Definition nl : string := String (ascii_of_nat 10) EmptyString.
Definition dquote : string := String (ascii_of_nat 34) EmptyString.

(** Truth value of an optional string, and of an optional integer. *)
Definition truthy_str (s : option string) : bool :=
  match s with
  | Some (String _ _) => true
  | _ => false
  end.

Definition truthy_int (n : option Z) : bool :=
  match n with
  | Some n => negb (n =? 0)
  | None => false
  end.

(** ** Text helpers: what the regular expressions and [str] methods do *)

Definition is_digit (c : ascii) : bool :=
  ((48 <=? nat_of_ascii c) && (nat_of_ascii c <=? 57))%nat.

(** The longest prefix whose characters satisfy [p], and the rest. *)
Fixpoint span (p : ascii -> bool) (s : string) : string * string :=
  match s with
  | EmptyString => (EmptyString, EmptyString)
  | String c r =>
      if p c then let '(a, b) := span p r in (String c a, b)
      else (EmptyString, s)
  end.

(** Every character of [s] satisfies [p]. *)
Fixpoint all_chars (p : ascii -> bool) (s : string) : bool :=
  match s with
  | EmptyString => true
  | String c r => p c && all_chars p r
  end.

Definition not_digit (c : ascii) : bool := negb (is_digit c).

(** [int(s)] for a string of decimal digits. *)
Definition int_of_digits (s : string) : Z :=
  fold_left (fun acc c => 10 * acc + (Z.of_nat (nat_of_ascii c) - 48))
            (list_ascii_of_string s) 0.

Definition lower_ascii (c : ascii) : ascii :=
  let n := nat_of_ascii c in
  if ((65 <=? n) && (n <=? 90))%nat then ascii_of_nat (n + 32) else c.

Fixpoint lower (s : string) : string :=
  match s with
  | EmptyString => EmptyString
  | String c r => String (lower_ascii c) (lower r)
  end.

Definition startswith (s p : string) : bool := String.prefix p s.

(** [sub in s] for two strings. *)
Definition str_contains (sub s : string) : bool :=
  match String.index 0 sub s with
  | Some _ => true
  | None => false
  end.

(** [needle == x] for a string [needle]. *)
Definition eq_str (needle : string) (x : json) : bool :=
  match x with
  | JStr s => String.eqb needle s
  | _ => false
  end.

(** [needle in data] for a string [needle]: membership in a list, key
    lookup in a dict, substring test in a string; other JSON values do not
    support [in]. *)
Definition py_in (needle : string) (data : json) : outcome bool :=
  match data with
  | JList l => Ok (existsb (eq_str needle) l)
  | JDict items => Ok (existsb (fun kv => String.eqb needle (fst kv)) items)
  | JStr s => Ok (str_contains needle s)
  | _ => Raise TypeError
  end.

(** [for x in data]: the elements of a list, the keys of a dict, the
    characters of a string. *)
Definition py_iter (data : json) : outcome (list json) :=
  match data with
  | JList l => Ok l
  | JDict items => Ok (map (fun kv => JStr (fst kv)) items)
  | JStr s =>
      Ok (map (fun c => JStr (String c EmptyString)) (list_ascii_of_string s))
  | _ => Raise TypeError
  end.

(** ** [distutils.version.StrictVersion] *)

Module StrictVersion.

Record t := mk {
  version : Z * Z * Z;
  prerelease : option (ascii * Z)
}.

(** The optional group [(\. (\d+))?]. *)
Definition opt_patch (s : string) : option string * string :=
  match s with
  | String "."%char r =>
      match span is_digit r with
      | (EmptyString, _) => (None, s)
      | (p, r') => (Some p, r')
      end
  | _ => (None, s)
  end.

(** The optional group [([ab](\d+))?]. *)
Definition opt_prerelease (s : string) : option (ascii * string) * string :=
  match s with
  | String c r =>
      if (Ascii.eqb c "a" || Ascii.eqb c "b")%char then
        match span is_digit r with
        | (EmptyString, _) => (None, s)
        | (n, r') => (Some (c, n), r')
        end
      else (None, s)
  | _ => (None, s)
  end.

(** [$] matches at the end and before a final newline. *)
Definition at_end (s : string) : bool :=
  String.eqb s EmptyString || String.eqb s nl.

(** [StrictVersion(vstring)]: the pattern
    [^(\d+) \. (\d+) (\. (\d+))? ([ab](\d+))?$]. *)
Definition parse (vstring : string) : outcome t :=
  match span is_digit vstring with
  | (EmptyString, _) => Raise (ValueError ("invalid version number '" +:+ vstring +:+ "'"))
  | (major, String "."%char r1) =>
      match span is_digit r1 with
      | (EmptyString, _) => Raise (ValueError ("invalid version number '" +:+ vstring +:+ "'"))
      | (minor, r2) =>
          let '(patch, r3) := opt_patch r2 in
          let '(pre, r4) := opt_prerelease r3 in
          if at_end r4 then
            Ok {| version := (int_of_digits major, int_of_digits minor,
                              match patch with
                              | Some p => int_of_digits p
                              | None => 0
                              end);
                  prerelease := match pre with
                                | Some (c, n) => Some (c, int_of_digits n)
                                | None => None
                                end |}
          else Raise (ValueError ("invalid version number '" +:+ vstring +:+ "'"))
      end
  | _ => Raise (ValueError ("invalid version number '" +:+ vstring +:+ "'"))
  end.

Definition cmp_tuple (a b : Z * Z * Z) : comparison :=
  let '(a1, a2, a3) := a in
  let '(b1, b2, b3) := b in
  match a1 ?= b1 with
  | Eq => match a2 ?= b2 with
          | Eq => a3 ?= b3
          | c => c
          end
  | c => c
  end.

Definition cmp_prerelease (a b : ascii * Z) : comparison :=
  match (nat_of_ascii (fst a) ?= nat_of_ascii (fst b))%nat with
  | Eq => snd a ?= snd b
  | c => c
  end.

(** [_cmp]. *)
Definition cmp (a b : t) : comparison :=
  match cmp_tuple (version a) (version b) with
  | Eq =>
      match prerelease a, prerelease b with
      | None, None => Eq
      | Some _, None => Lt
      | None, Some _ => Gt
      | Some p, Some q => cmp_prerelease p q
      end
  | c => c
  end.

(** [StrictVersion(a) > StrictVersion(b)], the operands built left to
    right. *)
Definition gt (a b : string) : outcome bool :=
  let? va := parse a in
  let? vb := parse b in
  Ok (match cmp va vb with Gt => true | _ => false end).

End StrictVersion.

(** ** Response objects ([linstor/responses.py])

    The response classes are passive holders of the JSON they were built
    from; an instance is its class and its [_rest_data]. *)

Inductive response_class : Type :=
| ApiCallResponse
| ErrorReport
| NodeListResponse
| StoragePoolListResponse
| ResourceDefinitionResponse
| ResourceGroupResponse
| VolumeGroupResponse
| VolumeDefinitionResponse
| ResourceResponse
| VolumeResponse
| SnapshotResponse
| ControllerProperties
| ResourceConnectionsResponse
| StoragePoolDefinitionResponse
| MaxVolumeSizeResponse
| KeyValueStoresResponse
| ControllerVersion.

#[global] Instance response_class_eq_dec : EqDecision response_class.
Proof. solve_decision. Defined.

Record RESTMessageResponse := new {
  py_class : response_class;
  _rest_data : json
}.

(** The API call identifiers of [linstor/sharedconsts.py] that the
    dispatch table uses; their values are not part of the modelled file. *)
Record sharedconsts := {
  API_LST_NODE : string;
  API_LST_STOR_POOL : string;
  API_LST_RSC_DFN : string;
  API_LST_RSC_GRP : string;
  API_LST_VLM_GRP : string;
  API_LST_VLM_DFN : string;
  API_LST_RSC : string;
  API_LST_VLM : string;
  API_LST_SNAPSHOT_DFN : string;
  API_REQ_ERROR_REPORTS : string;
  API_LST_CTRL_PROPS : string;
  API_REQ_RSC_CONN_LIST : string;
  API_LST_STOR_POOL_DFN : string;
  API_QRY_MAX_VLM_SIZE : string;
  API_LST_KVS : string;
  API_VERSION : string
}.

(** The functions of Python's standard library that the client calls and
    whose results it only passes on. *)
Record pylib := {
  urlparse_scheme : string -> string;
  urlparse_hostname : string -> option string;
  urlparse_port : string -> option Z;
  (** [json.loads]: the value, or the message of the [ValueError]. *)
  json_loads : string -> string + json;
  json_dumps : json -> string;
  (** [zlib.decompress(data, zlib.MAX_WBITS | 16)]; [None] is [zlib.error]. *)
  zlib_decompress : string -> option string;
  b64encode : string -> string
}.

(** What [getresponse()] hands back: the status line, the two headers the
    client looks at, and what [read()] will do. *)
Record HTTPResponse := {
  status : Z;
  header_Content_Encoding : option string;
  header_Location : option string;
  read : outcome string
}.

Definition VERSION : string := "1.0.0".
Definition API_VERSION_MIN : string := "1.0.4".
Definition REST_PORT : Z := 3370.
Definition REST_HTTPS_PORT : Z := 3371.

Section Classifier.

Variable apiconsts : sharedconsts.
Variable py : pylib.

(** The dict literal [APICALL2RESPONSE]: a later item replaces an earlier
    one with an equal key. *)
Definition APICALL2RESPONSE : gmap string response_class :=
  <[API_VERSION apiconsts := ControllerVersion]>
  (<[API_LST_KVS apiconsts := KeyValueStoresResponse]>
  (<[API_QRY_MAX_VLM_SIZE apiconsts := MaxVolumeSizeResponse]>
  (<[API_LST_STOR_POOL_DFN apiconsts := StoragePoolDefinitionResponse]>
  (<[API_REQ_RSC_CONN_LIST apiconsts := ResourceConnectionsResponse]>
  (<[API_LST_CTRL_PROPS apiconsts := ControllerProperties]>
  (<[API_REQ_ERROR_REPORTS apiconsts := ErrorReport]>
  (<[API_LST_SNAPSHOT_DFN apiconsts := SnapshotResponse]>
  (<[API_LST_VLM apiconsts := VolumeResponse]>
  (<[API_LST_RSC apiconsts := ResourceResponse]>
  (<[API_LST_VLM_DFN apiconsts := VolumeDefinitionResponse]>
  (<[API_LST_VLM_GRP apiconsts := VolumeGroupResponse]>
  (<[API_LST_RSC_GRP apiconsts := ResourceGroupResponse]>
  (<[API_LST_RSC_DFN apiconsts := ResourceDefinitionResponse]>
  (<[API_LST_STOR_POOL apiconsts := StoragePoolListResponse]>
  (<[API_LST_NODE apiconsts := NodeListResponse]> ∅))))))))))))))).

(** [APICALL2RESPONSE.get(apicall, ApiCallResponse)]. *)
Definition response_class_of (apicall : string) : response_class :=
  default ApiCallResponse (APICALL2RESPONSE !! apicall).

(** [response_class in [ApiCallResponse, ErrorReport]]. *)
Definition is_generic (c : response_class) : bool :=
  bool_decide (c ∈ [ApiCallResponse; ErrorReport]).

Definition _decode_response_data (response : HTTPResponse) : outcome string :=
  let? data := read response in
  if bool_decide (default "text" (header_Content_Encoding response) = "gzip") then
    match zlib_decompress py data with
    | Some d => Ok d
    | None => Raise zlib_error
    end
  else Ok data.

Definition __convert_rest_response (apicall : string) (response : HTTPResponse)
    (path : string) : outcome (list RESTMessageResponse) :=
  let? resp_data := _decode_response_data response in
  match json_loads py resp_data with
  | inl ve =>
      Raise (LinstorError
               ("Unable to parse REST json data: " +:+ ve +:+ nl +:+
                "Request-Uri: " +:+ path +:+ "; Status: " +:+
                str_int (status response)))
  | inr data =>
      let response_class := response_class_of apicall in
      if is_generic response_class then
        let? xs := py_iter data in
        Ok (map (new response_class) xs)
      else
        let? has_ret_code := py_in "ret_code" data in
        if has_ret_code then
          let? xs := py_iter data in
          Ok ([] ++ map (new ApiCallResponse) xs)%list
        else
          Ok ([] ++ [new response_class data])%list
  end.

End Classifier.

(** ** The volume-size parser *)

(** What [parse_volume_size_to_kib] uses of the class [SizeCalc]
    ([linstor/size_calc.py]). *)
Record SizeCalc := {
  UNITS_MAP : gmap string (string * Z);
  UNITS_LIST_STR : string;
  UNIT_KiB : Z;
  convert_round_up : Z -> Z -> Z -> Z
}.

(** [re.match] with the pattern of the source, a group of one or more
    digits followed by a group of non-digits: the two groups, or [None]
    when the string does not start with a digit.  Whatever follows the
    second group is not looked at. *)
Definition match_size (size_str : string) : option (string * string) :=
  match span is_digit size_str with
  | (EmptyString, _) => None
  | (digits, rest) => Some (digits, fst (span (fun c => negb (is_digit c)) rest))
  end.

Definition parse_volume_size_to_kib (sc : SizeCalc) (size_str : string) : outcome Z :=
  match match_size size_str with
  | None =>
      Raise (LinstorArgumentError ("Size '" +:+ size_str +:+ "' is not a valid number"))
  | Some (group1, group2) =>
      let size := int_of_digits group1 in
      let unit_str := if String.eqb group2 "" then "GiB" else group2 in
      match UNITS_MAP sc !! lower unit_str with
      | None =>
          Raise (LinstorArgumentError
                   (dquote +:+ unit_str +:+ dquote +:+ " is not a valid unit!" +:+ nl +:+
                    "Valid units: " +:+ UNITS_LIST_STR sc))
      | Some (_, unit) =>
          if negb (unit =? UNIT_KiB sc) then
            Ok (convert_round_up sc size unit (UNIT_KiB sc))
          else Ok size
      end
  end.

(** Modelled from the spec: [SizeCalc] ([linstor/size_calc.py]) is not
    among the sources.  The spec has sizes scaled by their unit suffix and
    converted to KiB rounding up, [TiB] and the default [GiB] known and
    [x] unknown.  A unit is modelled by its size in bytes. *)
Module SizeCalcModel.

Definition UNIT_B : Z := 1.
Definition UNIT_KiB : Z := 2 ^ 10.
Definition UNIT_MiB : Z := 2 ^ 20.
Definition UNIT_GiB : Z := 2 ^ 30.
Definition UNIT_TiB : Z := 2 ^ 40.
Definition UNIT_PiB : Z := 2 ^ 50.

Definition UNITS_MAP : gmap string (string * Z) :=
  list_to_map
    [("b", ("B", UNIT_B));
     ("kib", ("KiB", UNIT_KiB)); ("k", ("KiB", UNIT_KiB));
     ("mib", ("MiB", UNIT_MiB)); ("m", ("MiB", UNIT_MiB));
     ("gib", ("GiB", UNIT_GiB)); ("g", ("GiB", UNIT_GiB));
     ("tib", ("TiB", UNIT_TiB)); ("t", ("TiB", UNIT_TiB));
     ("pib", ("PiB", UNIT_PiB)); ("p", ("PiB", UNIT_PiB))].

Definition UNITS_LIST_STR : string := "B, KiB, MiB, GiB, TiB, PiB".

(** The quotient rounded up. *)
Definition cdiv (a b : Z) : Z :=
  if a mod b =? 0 then a / b else a / b + 1.

Definition convert_round_up (size unit_in unit_out : Z) : Z :=
  cdiv (size * unit_in) unit_out.

Definition model : SizeCalc :=
  Build_SizeCalc UNITS_MAP UNITS_LIST_STR UNIT_KiB convert_round_up.

End SizeCalcModel.

(** ** The client object, the calls it makes, and the monad *)

(** An [HTTPConnection] or [HTTPSConnection] object, as constructed. *)
Record HTTPConnection := {
  is_HTTPSConnection : bool;
  host : option string;
  port : Z;
  timeout : Z
}.

(** The calls the client makes on connection objects, and [print]. *)
Inductive event : Type :=
| call_connect (c : HTTPConnection)
| call_request (c : HTTPConnection) (method url : string)
               (body : option string) (headers : list (string * string))
| call_getresponse (c : HTTPConnection)
| call_close (c : HTTPConnection)
| call_print (line : string).

(** The peer.  Each function sees the history of calls, the newest first
    and the call being answered included. *)
Record network := {
  connect_raises : list event -> option exn;
  request_raises : list event -> option exn;
  getresponse_does : list event -> exn + HTTPResponse
}.

Inductive pyclass : Type := class_Linstor | class_MultiLinstor.

Record Linstor := {
  __class__ : pyclass;
  _ctrl_host : string;
  _timeout : Z;
  _keep_alive : bool;
  _rest_conn : option HTTPConnection;
  _connected : bool;
  _mode_curl : bool;
  _ctrl_version : option RESTMessageResponse;
  _username : option string;
  _password : option string;
  _allow_insecure : bool;
  (** only in a [MultiLinstor] *)
  _ctrl_host_list : list string
}.

Definition set_ctrl_host (v : string) (o : Linstor) : Linstor :=
  {| __class__ := __class__ o; _ctrl_host := v; _timeout := _timeout o;
     _keep_alive := _keep_alive o; _rest_conn := _rest_conn o;
     _connected := _connected o; _mode_curl := _mode_curl o;
     _ctrl_version := _ctrl_version o; _username := _username o;
     _password := _password o; _allow_insecure := _allow_insecure o;
     _ctrl_host_list := _ctrl_host_list o |}.

Definition set_rest_conn (v : option HTTPConnection) (o : Linstor) : Linstor :=
  {| __class__ := __class__ o; _ctrl_host := _ctrl_host o; _timeout := _timeout o;
     _keep_alive := _keep_alive o; _rest_conn := v;
     _connected := _connected o; _mode_curl := _mode_curl o;
     _ctrl_version := _ctrl_version o; _username := _username o;
     _password := _password o; _allow_insecure := _allow_insecure o;
     _ctrl_host_list := _ctrl_host_list o |}.

Definition set_connected (v : bool) (o : Linstor) : Linstor :=
  {| __class__ := __class__ o; _ctrl_host := _ctrl_host o; _timeout := _timeout o;
     _keep_alive := _keep_alive o; _rest_conn := _rest_conn o;
     _connected := v; _mode_curl := _mode_curl o;
     _ctrl_version := _ctrl_version o; _username := _username o;
     _password := _password o; _allow_insecure := _allow_insecure o;
     _ctrl_host_list := _ctrl_host_list o |}.

Definition set_ctrl_version (v : option RESTMessageResponse) (o : Linstor) : Linstor :=
  {| __class__ := __class__ o; _ctrl_host := _ctrl_host o; _timeout := _timeout o;
     _keep_alive := _keep_alive o; _rest_conn := _rest_conn o;
     _connected := _connected o; _mode_curl := _mode_curl o;
     _ctrl_version := v; _username := _username o;
     _password := _password o; _allow_insecure := _allow_insecure o;
     _ctrl_host_list := _ctrl_host_list o |}.

(** The object and the history of calls, the newest first. *)
Record world := {
  self : Linstor;
  history : list event
}.

Definition M (A : Type) : Type := world -> outcome A * world.

#[global] Instance M_ret : MRet M := fun A a w => (Ok a, w).
#[global] Instance M_bind : MBind M := fun A B k m w =>
  match m w with
  | (Ok a, w') => k a w'
  | (Raise e, w') => (Raise e, w')
  | (Diverge, w') => (Diverge, w')
  end.

Definition raise {A} (e : exn) : M A := fun w => (Raise e, w).
Definition diverge {A} : M A := fun w => (Diverge, w).
Definition lift {A} (o : outcome A) : M A := fun w => (o, w).

(** [try: body except Exception as e: handler(e)]; a handler that does not
    apply re-raises. *)
Definition try_except {A} (body : M A) (handler : exn -> M A) : M A := fun w =>
  match body w with
  | (Raise e, w') => handler e w'
  | r => r
  end.

Definition get_self : M Linstor := fun w => (Ok (self w), w).

Definition modify_self (f : Linstor -> Linstor) : M unit := fun w =>
  (Ok tt, {| self := f (self w); history := history w |}).

Definition log (e : event) (w : world) : world :=
  {| self := self w; history := e :: history w |}.

Section Client.

Variable apiconsts : sharedconsts.
Variable py : pylib.
Variable net : network.
(** The property [rest_api_version] of the object that
    [controller_version()] returned ([linstor/responses.py]). *)
Variable rest_api_version : RESTMessageResponse -> outcome string.

(** *** Calls on connection objects *)

Definition conn_connect (c : HTTPConnection) : M unit := fun w =>
  let w' := log (call_connect c) w in
  match connect_raises net (history w') with
  | Some e => (Raise e, w')
  | None => (Ok tt, w')
  end.

Definition conn_request (c : HTTPConnection) (method url : string)
    (body : option string) (headers : list (string * string)) : M unit := fun w =>
  let w' := log (call_request c method url body headers) w in
  match request_raises net (history w') with
  | Some e => (Raise e, w')
  | None => (Ok tt, w')
  end.

Definition conn_getresponse (c : HTTPConnection) : M HTTPResponse := fun w =>
  let w' := log (call_getresponse c) w in
  match getresponse_does net (history w') with
  | inl e => (Raise e, w')
  | inr r => (Ok r, w')
  end.

Definition conn_close (c : HTTPConnection) : M unit := fun w =>
  (Ok tt, log (call_close c) w).

Definition print (line : string) : M unit := fun w =>
  (Ok tt, log (call_print line) w).

(** [self._rest_conn.<method>]: an [AttributeError] on [None]. *)
Definition the_rest_conn : M HTTPConnection :=
  s ← get_self;
  match _rest_conn s with
  | Some c => mret c
  | None => raise AttributeError
  end.

(** *** The dispatcher *)

Definition _http_headers : list (string * string) :=
  [("User-Agent", "PythonLinstor/" +:+ VERSION +:+ " (API" +:+ API_VERSION_MIN +:+ ")");
   ("Connection", "keep-alive");
   ("Accept-Encoding", "gzip")].

Definition __output_curl_command (method path : string) (body : option json) : M unit :=
  s ← get_self;
  let url := _ctrl_host s in
  let cmd := ["curl"; "-X"; method] in
  let cmd := match body with
             | Some b =>
                 (cmd ++ ["-H " +:+ dquote +:+ "Content-Type: application/json" +:+ dquote]
                      ++ ["-d '" +:+ json_dumps py b +:+ "'"])%list
             | None => cmd
             end in
  let port := if truthy_int (urlparse_port py url)
              then default 0 (urlparse_port py url) else REST_PORT in
  let is_https := String.eqb (urlparse_scheme py url) "linstor+ssl" in
  let port := if negb is_https then port else REST_HTTPS_PORT in
  let scheme := if is_https then "https" else "http" in
  match urlparse_hostname py url with
  | None => raise TypeError
  | Some hostname =>
      let cmd := (cmd ++ [scheme +:+ "://" +:+ hostname +:+ ":" +:+ str_int port +:+ path])%list in
      print (String.concat " " cmd)
  end.

(** The first [try] statement of [_rest_request]: build the headers and
    send the request. *)
Definition send_request (method path : string) (body : option json) : M unit :=
  try_except
    (s ← get_self;
     auth ← (if truthy_str (_username s) then
               match _username s, _password s with
               | Some u, Some p =>
                   mret [("Authorization", "Basic " +:+ b64encode py (u +:+ ":" +:+ p))]
               | _, _ => raise TypeError
               end
             else mret []);
     c ← the_rest_conn;
     conn_request c method path (json_dumps py <$> body) (_http_headers ++ auth)%list)
    (fun err =>
       if is_socket_error err then
         s ← get_self;
         raise (LinstorNetworkError
                  ("Unable to connect to " +:+ _ctrl_host s +:+ ": " +:+ str_exn err) [])
       else raise err).

(** The body of the second [try] statement of [_rest_request]: read the
    response and classify it. *)
Definition receive_response (apicall method path : string) : M (list RESTMessageResponse) :=
  c ← the_rest_conn;
  response ← conn_getresponse c;
  if status response <? 400 then
    lift (__convert_rest_response apiconsts py apicall response path)
  else
    error_data_raw ← lift (_decode_response_data py response);
    if negb (String.eqb error_data_raw "") then
      match json_loads py error_data_raw with
      | inl ve =>
          raise (LinstorError
                   ("Unable to parse REST json data: " +:+ ve +:+ nl +:+
                    "Request-Uri: " +:+ path))
      | inr error_data =>
          xs ← lift (py_iter error_data);
          mret (map (new ApiCallResponse) xs)
      end
    else
      raise (LinstorError
               ("REST api call method '" +:+ method +:+ "' to resource '" +:+ path +:+
                "' returned status " +:+ str_int (status response) +:+ " with no data.")).

Definition rest_request_t : Type :=
  string -> string -> string -> option json -> bool -> M (list RESTMessageResponse).

(** One activation of [_rest_request]; [connect] is [self.connect] and
    [retry] is the method itself, for the recursive call. *)
Definition _rest_request_body (connect : M (option bool)) (retry : rest_request_t)
    (apicall method path : string) (body : option json) (reconnect : bool)
    : M (list RESTMessageResponse) :=
  s ← get_self;
  if _mode_curl s then
    __output_curl_command method path body;;
    mret []
  else
    send_request method path body;;
    try_except (receive_response apicall method path)
      (fun e =>
         match e with
         | socket_timeout =>
             s ← get_self;
             raise (LinstorTimeoutError
                      ("Socket timeout, no data received for more than " +:+
                       str_int (_timeout s) +:+ "s."))
         | socket_error err =>
             s ← get_self;
             if _keep_alive s && reconnect then
               connect;;
               retry apicall method path body false
             else
               raise (LinstorNetworkError
                        ("Error reading response from " +:+ _ctrl_host s +:+ ": " +:+ err) [])
         | BadStatusLine =>
             s ← get_self;
             if _keep_alive s && reconnect then
               connect;;
               retry apicall method path body false
             else raise BadStatusLine
         | _ => raise e
         end).

(** *** The connection manager *)

(** A redirect without a [Location] header has no port ([urlparse] of
    [None] in Python 3). *)
Definition has_linstor_https (hostname : option string) (port : Z) : M (option Z) :=
  let conn := {| is_HTTPSConnection := false; host := hostname;
                 port := port; timeout := 3 |} in
  try_except
    (conn_connect conn;;
     conn_request conn "GET" "/v1/controller/version" None [];;
     response ← conn_getresponse conn;
     if status response =? 302 then
       mret (header_Location response ≫= urlparse_port py)
     else mret (Some 0))
    (fun e => if is_socket_error e then mret (Some 0) else raise e).

Definition controller_version (_rest_request : rest_request_t) : M RESTMessageResponse :=
  l ← _rest_request (API_VERSION apiconsts) "GET" "/v1/controller/version" None true;
  match l with
  | x :: _ => mret x
  | [] => raise IndexError
  end.

(** [self._ctrl_version.rest_api_version]. *)
Definition ctrl_rest_api_version : M string :=
  s ← get_self;
  match _ctrl_version s with
  | Some v => lift (rest_api_version v)
  | None => raise AttributeError
  end.

(** The statements of [Linstor.connect] between the [curl] shortcut and
    the [try]: choose between TLS and plaintext and construct the
    connection object. *)
Definition select_transport : M unit :=
  s ← get_self;
  let url := _ctrl_host s in
  let port := if truthy_int (urlparse_port py url)
              then default 0 (urlparse_port py url) else REST_PORT in
  transport ←
    (if String.eqb (urlparse_scheme py url) "linstor+ssl"
        || String.eqb (urlparse_scheme py url) "https" then
       mret (true, match urlparse_port py url with
                   | None => REST_HTTPS_PORT
                   | Some _ => port
                   end)
     else
       https_port ← has_linstor_https (urlparse_hostname py url) port;
       if truthy_int https_port then mret (true, default 0 https_port)
       else mret (false, port)) : M (bool * Z);
  let is_https : bool := fst transport in
  let port := snd transport in
  s ← get_self;
  if is_https then
    modify_self (set_rest_conn
                   (Some {| is_HTTPSConnection := true; host := urlparse_hostname py url;
                            port := port; timeout := _timeout s |}))
  else
    if truthy_str (_username s) && negb (_allow_insecure s) then
      raise (LinstorNetworkError
               "Password authentication with HTTP not allowed, until explicitly enabled." [])
    else
      modify_self (set_rest_conn
                     (Some {| is_HTTPSConnection := false; host := urlparse_hostname py url;
                              port := port; timeout := _timeout s |})).

(** The version test of [Linstor.connect], the second operand evaluated
    only when the first is false. *)
Definition version_unsupported (ver : string) : outcome bool :=
  if negb (startswith ver "1") then Ok true
  else StrictVersion.gt API_VERSION_MIN ver.

(** The body of the [try] of [Linstor.connect]: open the connection,
    ask for the version of the controller and check it. *)
Definition handshake (_rest_request : rest_request_t) : M unit :=
  c ← the_rest_conn;
  conn_connect c;;
  v ← controller_version _rest_request;
  modify_self (set_ctrl_version (Some v));;
  ver ← ctrl_rest_api_version;
  unsupported ← lift (version_unsupported ver);
  if unsupported : bool then
    c ← the_rest_conn;
    conn_close c;;
    ver ← ctrl_rest_api_version;
    raise (LinstorApiCallError
             ("Client doesn't support Controller rest api version: " +:+ ver +:+
              "; Minimal version needed: " +:+ API_VERSION_MIN))
  else modify_self (set_connected true).

(** [Linstor.connect]; [_rest_request] is the method that
    [controller_version] calls. *)
Definition Linstor_connect (_rest_request : rest_request_t) : M (option bool) :=
  s ← get_self;
  if _mode_curl s then
    modify_self (set_connected true);;
    mret (Some true)
  else
    select_transport;;
    try_except (handshake _rest_request)
      (fun err =>
         if is_socket_error err then
           s ← get_self;
           raise (LinstorNetworkError
                    ("Unable to connect to " +:+ _ctrl_host s +:+ ": " +:+ str_exn err) [])
         else raise err);;
    mret (Some true).

(** *** The failover wrapper *)

(** How the [for] loop of [MultiLinstor.connect] is left, with the value
    of [conn_errors] at that point. *)
Inductive loop_exit : Type :=
| Returned (value : option bool) (conn_errors : list exn)
| Completed (conn_errors : list exn).

Fixpoint MultiLinstor_connect_loop (super_connect : M (option bool))
    (hosts : list string) (conn_errors : list exn) : M loop_exit :=
  match hosts with
  | [] => mret (Completed conn_errors)
  | ctrl_host :: hosts' =>
      modify_self (set_ctrl_host ctrl_host);;
      r ← try_except (v ← super_connect; mret (inl v))
                     (fun lne => if is_LinstorNetworkError lne then mret (inr lne)
                                 else raise lne);
      match r with
      | inl v => mret (Returned v conn_errors)
      | inr lne => MultiLinstor_connect_loop super_connect hosts' (conn_errors ++ [lne])%list
      end
  end.

Definition MultiLinstor_connect (_rest_request : rest_request_t) : M (option bool) :=
  s ← get_self;
  e ← MultiLinstor_connect_loop (Linstor_connect _rest_request) (_ctrl_host_list s) [];
  match e with
  | Returned v _ => mret v
  | Completed conn_errors =>
      s ← get_self;
      if (length conn_errors =? length (_ctrl_host_list s))%nat then
        raise (LinstorNetworkError
                 "Unable to connect to any of the given controller hosts." conn_errors)
      else mret None
  end.

(** *** Tying the knot *)

(** [self.connect()], resolved on the class of [self]. *)
Definition self_connect (_rest_request : rest_request_t) : M (option bool) :=
  s ← get_self;
  match __class__ s with
  | class_Linstor => Linstor_connect _rest_request
  | class_MultiLinstor => MultiLinstor_connect _rest_request
  end.

(** [_rest_request] calls [connect], which calls [_rest_request] for the
    version of the controller: [fuel] bounds the depth of that nesting. *)
Fixpoint _rest_request (fuel : nat) (apicall method path : string)
    (body : option json) (reconnect : bool) : M (list RESTMessageResponse) :=
  match fuel with
  | O => diverge
  | S fuel' =>
      _rest_request_body (self_connect (_rest_request fuel')) (_rest_request fuel')
                         apicall method path body reconnect
  end.

Definition connect (fuel : nat) : M (option bool) :=
  self_connect (_rest_request fuel).

End Client.

(** ** More of the client *)

(** [s.split(sep)] for a separator of one character. *)
Fixpoint split_on (sep : ascii) (s : string) : list string :=
  match s with
  | EmptyString => [EmptyString]
  | String c r =>
      if Ascii.eqb c sep then EmptyString :: split_on sep r
      else match split_on sep r with
           | hp :: hps => String c hp :: hps
           | [] => [String c EmptyString]
           end
  end.

(** The [for] loop of [MultiLinstor.controller_uri_list], [servers] being
    the list built so far. *)
Fixpoint controller_uri_list_loop (hps servers : list string) : list string :=
  match hps with
  | [] => servers
  | hp :: hps' =>
      controller_uri_list_loop hps'
        (if negb (String.eqb hp "") then
           if str_contains "://" hp then (servers ++ [hp])%list
           else (servers ++ ["linstor://" +:+ hp])%list
         else servers)
  end.

Definition controller_uri_list (controller_list : string) : list string :=
  controller_uri_list_loop (split_on "," controller_list) [].

(** The last position of [c] in [s]. *)
Fixpoint rfind_char (c : ascii) (s : string) : option nat :=
  match s with
  | EmptyString => None
  | String a r =>
      match rfind_char c r with
      | Some j => Some (S j)
      | None => if Ascii.eqb a c then Some O else None
      end
  end.

(** [s.rfind(c)] for a character [c]: -1 when [c] does not occur. *)
Definition rfind (c : ascii) (s : string) : Z :=
  match rfind_char c s with
  | Some n => Z.of_nat n
  | None => -1
  end.

(** The slices [s[:n]] and [s[n:]] for a position [n] that is not negative. *)
Definition slice_to (n : Z) (s : string) : string :=
  String.substring 0 (Z.to_nat n) s.

Definition slice_from (n : Z) (s : string) : string :=
  String.substring (Z.to_nat n) (String.length s - Z.to_nat n) s.

(** The pair [(key, namespace)]. *)
Definition _split_prop_key (fkey : string) : string * option string :=
  let ns_pos := rfind "/" fkey in
  if 0 <=? ns_pos then (slice_from (ns_pos + 1) fkey, Some (slice_to ns_pos fkey))
  else (fkey, None).

(** The dict comprehension of [_filter_props]. *)
Definition _filter_props {A} (props : gmap string A) (namespace : string) : gmap string A :=
  filter (fun kv => startswith (fst kv) namespace = true) props.

(** [StrictVersion(a) < StrictVersion(b)] and [StrictVersion(a) >=
    StrictVersion(b)]. *)
Definition StrictVersion_lt (a b : string) : outcome bool :=
  let? va := StrictVersion.parse a in
  let? vb := StrictVersion.parse b in
  Ok (match StrictVersion.cmp va vb with Lt => true | _ => false end).

Definition StrictVersion_ge (a b : string) : outcome bool :=
  let? va := StrictVersion.parse a in
  let? vb := StrictVersion.parse b in
  Ok (match StrictVersion.cmp va vb with Lt => false | _ => true end).

(** More identifiers and defaults of [linstor/sharedconsts.py]. *)
Record nodeconsts := {
  VAL_NODE_TYPE_CTRL : string;
  VAL_NODE_TYPE_AUX : string;
  VAL_NODE_TYPE_CMBD : string;
  VAL_NODE_TYPE_STLT : string;
  VAL_NETCOM_TYPE_PLAIN : string;
  VAL_NETCOM_TYPE_SSL : string;
  DFLT_CTRL_PORT_PLAIN : Z;
  DFLT_STLT_PORT_PLAIN : Z;
  DFLT_CTRL_PORT_SSL : Z;
  DFLT_STLT_PORT_SSL : Z;
  API_CRT_NODE : string;
  API_NODE_RECONNECT : string
}.

Section MoreClient.

Variable apiconsts : sharedconsts.
Variable consts : nodeconsts.
Variable py : pylib.
Variable net : network.
Variable rest_api_version : RESTMessageResponse -> outcome string.
(** The truth value of a response object ([linstor/responses.py]). *)
Variable response_truthy : RESTMessageResponse -> bool.
(** [self._rest_request]. *)
Variable _rest_request : rest_request_t.

Definition disconnect : M unit :=
  modify_self (set_connected false);;
  s ← get_self;
  match _rest_conn s with
  | Some c => conn_close c
  | None => mret tt
  end.

(** [self._ctrl_version and <test>(...rest_api_version)]: the test is
    made only on a version object that is there and true. *)
Definition ctrl_version_test (test : string -> outcome bool) : M bool :=
  s ← get_self;
  match _ctrl_version s with
  | None => mret false
  | Some v =>
      if response_truthy v then
        ver ← lift (rest_api_version v);
        lift (test ver)
      else mret false
  end.

Definition _require_version (required_version : string) : M unit :=
  too_old ← ctrl_version_test (fun ver => StrictVersion_lt ver required_version);
  if too_old : bool then
    ver ← ctrl_rest_api_version rest_api_version;
    raise (LinstorError
             ("Volume modify not supported by server, REST-API-VERSION: " +:+ ver +:+
              "; needed " +:+ required_version))
  else mret tt.

(** The dict [net_interface] after the call. *)
Definition _require_node_is_active (net_interface : list (string * json)) (value : bool)
    : M (list (string * json)) :=
  supported ← ctrl_version_test (fun ver => StrictVersion_ge ver "1.0.7");
  if supported : bool then mret (net_interface ++ [("is_active", JBool value)])%list
  else mret net_interface.

Definition _node_types : list string :=
  [VAL_NODE_TYPE_CTRL consts; VAL_NODE_TYPE_AUX consts;
   VAL_NODE_TYPE_CMBD consts; VAL_NODE_TYPE_STLT consts].

Definition node_create (node_name node_type ip com_type : string) (port : option Z)
    (netif_name : string) : M (list RESTMessageResponse) :=
  if negb (existsb (String.eqb node_type) _node_types) then
    raise (LinstorError
             ("Unknown node type '" +:+ node_type +:+ "'. Known types are: " +:+
              String.concat ", " _node_types))
  else
    port ← match port with
           | Some p => mret p
           | None =>
               if String.eqb com_type (VAL_NETCOM_TYPE_PLAIN consts) then
                 mret (if String.eqb node_type (VAL_NODE_TYPE_CTRL consts)
                       then DFLT_CTRL_PORT_PLAIN consts else DFLT_STLT_PORT_PLAIN consts)
               else if String.eqb com_type (VAL_NETCOM_TYPE_SSL consts) then
                 mret (if String.eqb node_type (VAL_NODE_TYPE_STLT consts)
                       then DFLT_STLT_PORT_SSL consts else DFLT_CTRL_PORT_SSL consts)
               else
                 raise (LinstorError
                          ("Communication type " +:+ com_type +:+ " has no default port"))
           end;
    net_interface ← _require_node_is_active
                      [("name", JStr netif_name); ("address", JStr ip);
                       ("satellite_port", JInt port);
                       ("satellite_encryption_type", JStr com_type)] true;
    _rest_request (API_CRT_NODE consts) "POST" "/v1/nodes"
      (Some (JDict [("name", JStr node_name); ("type", JStr node_type);
                    ("net_interfaces", JList [JDict net_interface])])) true.

(** The [for] loop of [node_reconnect], [replies] being the list built so
    far. *)
Fixpoint node_reconnect_loop (node_names : list string)
    (replies : list RESTMessageResponse) : M (list RESTMessageResponse) :=
  match node_names with
  | [] => mret replies
  | node_name :: node_names' =>
      l ← _rest_request (API_NODE_RECONNECT consts) "PUT"
            ("/v1/nodes/" +:+ node_name +:+ "/reconnect") None true;
      node_reconnect_loop node_names' (replies ++ l)%list
  end.

Definition node_reconnect (node_names : list string) : M (list RESTMessageResponse) :=
  node_reconnect_loop node_names [].

(** An optional list argument counts when it is there and not empty. *)
Definition given (l : option (list string)) : list string := default [] l.

Definition storage_pool_list (filter_by_nodes filter_by_stor_pools : option (list string))
    : M (list RESTMessageResponse) :=
  let query_params := [] in
  let query_params :=
    match given filter_by_nodes with
    | [] => query_params
    | _ => (query_params ++ map (fun x => "nodes=" +:+ x) (given filter_by_nodes))%list
    end in
  let query_params :=
    match given filter_by_stor_pools with
    | [] => query_params
    | _ => (query_params
            ++ map (fun x => "storage_pools=" +:+ x) (given filter_by_stor_pools))%list
    end in
  let path := "/v1/view/storage-pools" in
  let path := match query_params with
              | [] => path
              | _ => path +:+ "?" +:+ String.concat "&" query_params
              end in
  storage_pool_res ← _rest_request (API_LST_STOR_POOL apiconsts) "GET" path None true;
  let typed := match storage_pool_res with
               | x :: _ => bool_decide (py_class x = StoragePoolListResponse)
               | [] => false
               end in
  let result := if typed then ([] ++ storage_pool_res)%list else [] in
  let errors := if typed then [] else ([] ++ storage_pool_res)%list in
  mret (result ++ errors)%list.

End MoreClient.

(** ** A concrete environment

    Stand-ins for the library functions and a scripted peer, to run the
    client on concrete inputs. *)
Module Sample.

Definition apiconsts : sharedconsts :=
  {| API_LST_NODE := "LstNode"; API_LST_STOR_POOL := "LstStorPool";
     API_LST_RSC_DFN := "LstRscDfn"; API_LST_RSC_GRP := "LstRscGrp";
     API_LST_VLM_GRP := "LstVlmGrp"; API_LST_VLM_DFN := "LstVlmDfn";
     API_LST_RSC := "LstRsc"; API_LST_VLM := "LstVlm";
     API_LST_SNAPSHOT_DFN := "LstSnapshotDfn";
     API_REQ_ERROR_REPORTS := "ReqErrorReport";
     API_LST_CTRL_PROPS := "LstCtrlProps";
     API_REQ_RSC_CONN_LIST := "ReqRscConnList";
     API_LST_STOR_POOL_DFN := "LstStorPoolDfn";
     API_QRY_MAX_VLM_SIZE := "QryMaxVlmSize";
     API_LST_KVS := "LstKvs"; API_VERSION := "Version" |}.

(** [scheme://host[:port]] split at the separators. *)
Definition netloc (url : string) : string :=
  match String.index 0 "://" url with
  | Some i => String.substring (i + 3) (String.length url - (i + 3)) url
  | None => url
  end.

Definition scheme (url : string) : string :=
  match String.index 0 "://" url with
  | Some i => String.substring 0 i url
  | None => ""
  end.

Definition hostname (url : string) : option string :=
  let n := netloc url in
  let h := match String.index 0 ":" n with
           | Some i => String.substring 0 i n
           | None => n
           end in
  if String.eqb h "" then None else Some (lower h).

Definition url_port (url : string) : option Z :=
  let n := netloc url in
  match String.index 0 ":" n with
  | Some i =>
      let d := String.substring (i + 1) (String.length n - (i + 1)) n in
      if String.eqb d "" then None else Some (int_of_digits d)
  | None => None
  end.

(** The documents the scripted peer sends, with what [json.loads] makes
    of them; any other text is not JSON. *)
Definition documents : list (string * json) :=
  [("[]", JList []);
   ("[{'ret_code': 3}]", JList [JDict [("ret_code", JInt 3)]]);
   ("[{'ret_code': 3}, {'ret_code': 4}]",
    JList [JDict [("ret_code", JInt 3)]; JDict [("ret_code", JInt 4)]]);
   ("[{'name': 'alpha'}, {'name': 'beta'}]",
    JList [JDict [("name", JStr "alpha")]; JDict [("name", JStr "beta")]]);
   ("{'rest_api_version': '1.0.7'}", JDict [("rest_api_version", JStr "1.0.7")]);
   ("{'rest_api_version': '1.0.3'}", JDict [("rest_api_version", JStr "1.0.3")]);
   ("{'rest_api_version': '2.0.0'}", JDict [("rest_api_version", JStr "2.0.0")])].

Fixpoint assoc {A} (k : string) (l : list (string * A)) : option A :=
  match l with
  | [] => None
  | (k', v) :: l' => if String.eqb k k' then Some v else assoc k l'
  end.

Definition py : pylib :=
  {| urlparse_scheme := scheme;
     urlparse_hostname := hostname;
     urlparse_port := url_port;
     json_loads := fun s => match assoc s documents with
                            | Some j => inr j
                            | None => inl "No JSON object could be decoded"
                            end;
     json_dumps := fun _ => "{}";
     zlib_decompress := fun _ => None;
     b64encode := fun s => "base64(" +:+ s +:+ ")" |}.

(** [ControllerVersion.rest_api_version]: the item of that name. *)
Definition rest_api_version (v : RESTMessageResponse) : outcome string :=
  match py_class v, _rest_data v with
  | ControllerVersion, JDict items =>
      match assoc "rest_api_version" items with
      | Some (JStr s) => Ok s
      | _ => Raise AttributeError
      end
  | _, _ => Raise AttributeError
  end.

(** A scripted peer: the n-th call made gets the n-th answer of the
    script; past its end every connection is refused. *)
Inductive answer : Type :=
| fine
| fails (e : exn)
| responds (r : HTTPResponse).

Definition answer_to (script : list answer) (h : list event) : answer :=
  nth (length h - 1) script (fails (socket_error "Connection refused")).

Definition scripted (script : list answer) : network :=
  {| connect_raises := fun h => match answer_to script h with
                                | fails e => Some e
                                | _ => None
                                end;
     request_raises := fun h => match answer_to script h with
                                | fails e => Some e
                                | _ => None
                                end;
     getresponse_does := fun h => match answer_to script h with
                                  | responds r => inr r
                                  | fails e => inl e
                                  | fine => inl socket_timeout
                                  end |}.

Definition http (code : Z) (text : string) : HTTPResponse :=
  {| status := code; header_Content_Encoding := None;
     header_Location := None; read := Ok text |}.

Definition client (cls : pyclass) (hosts : list string) (keep_alive : bool)
    (username : option string) : Linstor :=
  {| __class__ := cls; _ctrl_host := hd "" hosts; _timeout := 300;
     _keep_alive := keep_alive; _rest_conn := None; _connected := false;
     _mode_curl := false; _ctrl_version := None; _username := username;
     _password := username; _allow_insecure := false;
     _ctrl_host_list := hosts |}.

Definition start (o : Linstor) : world := {| self := o; history := [] |}.

Definition plain (h : string) : HTTPConnection :=
  {| is_HTTPSConnection := false; host := Some h; port := 3370; timeout := 300 |}.

(** A client of [linstor://alpha] with an open plaintext connection. *)
Definition connected_client (keep_alive : bool) : Linstor :=
  set_connected true
    (set_rest_conn (Some (plain "alpha"))
       (client class_Linstor ["linstor://alpha"] keep_alive None)).

(** The answers to an undisturbed [connect()] to a plaintext endpoint
    that advertises [doc]: the probe (connect, request, response 200),
    then connect, version request and version response. *)
Definition connect_script (doc : string) : list answer :=
  [fine; fine; responds (http 200 ""); fine; fine; responds (http 200 doc)].

(** The connection object of the TLS-discovery probe. *)
Definition probe (h : string) : HTTPConnection :=
  {| is_HTTPSConnection := false; host := Some h; port := 3370; timeout := 3 |}.

(** A request answered by [e] at reading, an undisturbed reconnect, and
    the request answered by [e] again. *)
Definition retry_script (e : exn) : list answer :=
  ([fine; fails e] ++ connect_script "{'rest_api_version': '1.0.7'}" ++ [fine; fails e])%list.

Definition version_request (c : HTTPConnection) : event :=
  call_request c "GET" "/v1/controller/version" None (_http_headers ++ [])%list.

Definition refused : answer := fails (socket_error "Connection refused").

(** A peer that accepts every connection and every request and resets
    the connection whenever a response is read. *)
Definition resetting : network :=
  {| connect_raises := fun _ => None;
     request_raises := fun _ => None;
     getresponse_does := fun _ => inl (socket_error "Connection reset by peer") |}.

(** An endpoint that refuses the probe and the connection. *)
Definition refusal_script : list answer := [refused; refused].

(** For a keep-alive client of two plaintext endpoints: the first accepts
    the connection and resets it when asked for its version; asked again
    it refuses connections; the second is undisturbed. *)
Definition reset_script : list answer :=
  ([fine; fine; responds (http 200 ""); fine; fine;
    fails (socket_error "Connection reset by peer")]
   ++ refusal_script
   ++ connect_script "{'rest_api_version': '1.0.7'}"
   ++ [fine; responds (http 200 "{'rest_api_version': '1.0.7'}")])%list.

End Sample.

(** Further stand-ins, for the rest of the client. *)
Module Sample2.

Definition consts : nodeconsts :=
  {| VAL_NODE_TYPE_CTRL := "CONTROLLER"; VAL_NODE_TYPE_AUX := "AUXILIARY";
     VAL_NODE_TYPE_CMBD := "COMBINED"; VAL_NODE_TYPE_STLT := "SATELLITE";
     VAL_NETCOM_TYPE_PLAIN := "PLAIN"; VAL_NETCOM_TYPE_SSL := "SSL";
     DFLT_CTRL_PORT_PLAIN := 3376; DFLT_STLT_PORT_PLAIN := 3366;
     DFLT_CTRL_PORT_SSL := 3377; DFLT_STLT_PORT_SSL := 3367;
     API_CRT_NODE := "CrtNode"; API_NODE_RECONNECT := "NodeReconnect" |}.

(** A decompressor for bodies marked [gzip:]. *)
Definition gunzip (data : string) : option string :=
  if String.prefix "gzip:" data
  then Some (String.substring 5 (String.length data - 5) data)
  else None.

Definition py : pylib :=
  {| urlparse_scheme := Sample.scheme;
     urlparse_hostname := Sample.hostname;
     urlparse_port := Sample.url_port;
     json_loads := json_loads Sample.py;
     json_dumps := json_dumps Sample.py;
     zlib_decompress := gunzip;
     b64encode := b64encode Sample.py |}.

Definition response_truthy (v : RESTMessageResponse) : bool := true.

(** A peer that answers every request with the same response. *)
Definition answering (r : HTTPResponse) : network :=
  {| connect_raises := fun _ => None;
     request_raises := fun _ => None;
     getresponse_does := fun _ => inr r |}.

Definition gzipped (code : Z) (data : string) : HTTPResponse :=
  {| status := code; header_Content_Encoding := Some "gzip";
     header_Location := None; read := Ok data |}.

End Sample2.


(** ** Notions used in the statements *)

(** [preserves R m]: whenever [m] stops, with a value, an exception or
    out of fuel, the object it leaves is related by [R] to the object it
    found. *)
Definition preserves (R : Linstor -> Linstor -> Prop) {A} (m : M A) : Prop :=
  forall w r w', m w = (r, w') -> R (self w) (self w').

(** The settings of the client, which no method assigns. *)
Definition same_settings (s s' : Linstor) : Prop :=
  __class__ s' = __class__ s /\ _timeout s' = _timeout s /\
  _keep_alive s' = _keep_alive s /\ _mode_curl s' = _mode_curl s /\
  _username s' = _username s /\ _password s' = _password s /\
  _allow_insecure s' = _allow_insecure s /\
  _ctrl_host_list s' = _ctrl_host_list s.

(** A keep-alive client of the plaintext endpoint [linstor://alpha], with
    a transport and without credentials. *)
Definition keep_alive_client (s : Linstor) : Prop :=
  __class__ s = class_Linstor /\ _keep_alive s = true /\ _mode_curl s = false /\
  _username s = None /\ _ctrl_host s = "linstor://alpha" /\
  exists c, _rest_conn s = Some c.

(** The calls of the TLS-discovery probe: on its own connection object,
    with no header and no body. *)
Definition probe_call (c : HTTPConnection) (e : event) : Prop :=
  e = call_connect c \/
  e = call_request c "GET" "/v1/controller/version" None [] \/
  e = call_getresponse c.

(** What [connect] assigns before the handshake keeps the connected flag
    and the keep-alive setting. *)
Definition same_flags (s s' : Linstor) : Prop :=
  _connected s' = _connected s /\ _keep_alive s' = _keep_alive s.

(** [ensures Q m]: when [m] returns, the object satisfies [Q]. *)
Definition ensures {A} (Q : Linstor -> Prop) (m : M A) : Prop :=
  forall w a w', m w = (Ok a, w') -> Q (self w').

(** The assignment [self._ctrl_host = ctrl_host]. *)
Definition with_ctrl_host (h : string) (w : world) : world :=
  {| self := set_ctrl_host h (self w); history := history w |}.

(** [all_refused super_connect hosts w errs w']: from [w], the endpoints
    of [hosts] are tried one after the other, each attempt ends in a
    [LinstorNetworkError], [errs] lists these errors in order and [w'] is
    the world after the last attempt. *)
Inductive all_refused (super_connect : M (option bool)) :
  list string -> world -> list exn -> world -> Prop :=
| refused_nil (w : world) : all_refused super_connect [] w [] w
| refused_cons (h : string) (hosts : list string) (w w1 w2 : world)
               (msg : string) (causes errs : list exn) :
    super_connect (with_ctrl_host h w) = (Raise (LinstorNetworkError msg causes), w1) ->
    all_refused super_connect hosts w1 errs w2 ->
    all_refused super_connect (h :: hosts) w (LinstorNetworkError msg causes :: errs) w2.

(** A string without a comma. *)
Definition comma_free (s : string) : Prop :=
  all_chars (fun c => negb (Ascii.eqb c ",")) s = true.

(** A host as the docstring of [controller_uri_list] has them: not empty,
    without a comma and without a scheme. *)
Definition plain_host (hp : string) : Prop :=
  hp <> EmptyString /\ comma_free hp /\ str_contains "://" hp = false.

(** A peer on which no connection and no request fails and every reading
    of a response fails with a socket error. *)
Definition resets_every_read (net : network) : Prop :=
  (forall h, connect_raises net h = None) /\
  (forall h, request_raises net h = None) /\
  (forall h, exists err, getresponse_does net h = inl (socket_error err)).

(** What one segment of the split string contributes to the list of
    [controller_uri_list]. *)
Definition uri_of_segment (hp : string) : list string :=
  if negb (String.eqb hp "") then
    if str_contains "://" hp then [hp] else ["linstor://" +:+ hp]
  else [].

(** An entry of the list [controller_uri_list] returns. *)
Definition uri_entry (u : string) : Prop :=
  u <> EmptyString /\ comma_free u /\ str_contains "://" u = true.

(** A request that carries an [Authorization] header. *)
Definition carries_credentials (e : event) : bool :=
  match e with
  | call_request _ _ _ _ headers =>
      existsb (fun h => String.eqb (fst h) "Authorization") headers
  | _ => false
  end.

(** A call on an [HTTPSConnection] object. *)
Definition on_tls (e : event) : bool :=
  match e with
  | call_connect c | call_request c _ _ _ _ | call_getresponse c | call_close c =>
      is_HTTPSConnection c
  | call_print _ => false
  end.

(** A client with a user name that was not allowed insecure connections,
    whose transport, if it has one, is a TLS connection, and in whose
    history every request with an [Authorization] header went to a TLS
    connection. *)
Definition credentials_protected (w : world) : Prop :=
  truthy_str (_username (self w)) = true /\
  _allow_insecure (self w) = false /\
  (forall c, _rest_conn (self w) = Some c -> is_HTTPSConnection c = true) /\
  Forall (fun e => carries_credentials e = true -> on_tls e = true) (history w).

(** [keeps_protected m]: however [m] stops, it leaves a protected client
    protected. *)
Definition keeps_protected {A} (m : M A) : Prop :=
  forall w r w', credentials_protected w -> m w = (r, w') -> credentials_protected w'.

(** A keep-alive client of class [Linstor] outside curl mode, without a
    user name and with a transport. *)
Definition reconnecting_client (s : Linstor) : Prop :=
  __class__ s = class_Linstor /\ _keep_alive s = true /\ _mode_curl s = false /\
  truthy_str (_username s) = false /\ exists c, _rest_conn s = Some c.

(** * Properties *)

(** ** The response classifier *)

Section ClassifierFacts.

Variable apiconsts : sharedconsts.
Variable py : pylib.

Lemma is_generic_true (c : response_class) :
  is_generic c = true <-> c = ApiCallResponse \/ c = ErrorReport.
Proof.
  unfold is_generic. rewrite bool_decide_eq_true.
  rewrite !elem_of_cons, elem_of_nil. tauto.
Qed.

Lemma is_generic_false (c : response_class) :
  is_generic c = false <-> c <> ApiCallResponse /\ c <> ErrorReport.
Proof.
  unfold is_generic. rewrite bool_decide_eq_false.
  rewrite !elem_of_cons, elem_of_nil. tauto.
Qed.

(** An array of JSON objects does not contain the string [ret_code],
    whatever the keys of the objects. *)
Lemma py_in_objects (needle : string) (items : list (list (string * json))) :
  existsb (eq_str needle) (map JDict items) = false.
Proof.
  induction items as [|d items IH]; [reflexivity | exact IH].
Qed.

(** What the classifier does with a parsed array when the registered
    class is a structured one. *)
Lemma convert_structured_array (apicall path : string) (response : HTTPResponse)
    (raw : string) (l : list json) :
  is_generic (response_class_of apiconsts apicall) = false ->
  _decode_response_data py response = Ok raw ->
  json_loads py raw = inr (JList l) ->
  __convert_rest_response apiconsts py apicall response path =
    if existsb (eq_str "ret_code") l
    then Ok (map (new ApiCallResponse) l)
    else Ok [new (response_class_of apiconsts apicall) (JList l)].
Proof.
  intros Hg Hd Hj. unfold __convert_rest_response.
  rewrite Hd. cbn [obind]. rewrite Hj, Hg. unfold py_in, py_iter, obind.
  destruct (existsb _ l); reflexivity.
Qed.

End ClassifierFacts.

(** C8: when the operation identifier is not in the dispatch table, or is
    registered with the generic status-reply class or the diagnostic-report
    class, decoding a payload that parses as a JSON array gives one wrapper
    of that class (status replies for an unregistered identifier) per
    element of the array, in the order of the array. *)
Theorem generic_response_wraps_each_element :
  forall (apiconsts : sharedconsts) (py : pylib) (apicall path : string)
         (response : HTTPResponse) (raw : string) (l : list json),
    (APICALL2RESPONSE apiconsts !! apicall = None \/
     APICALL2RESPONSE apiconsts !! apicall = Some ApiCallResponse \/
     APICALL2RESPONSE apiconsts !! apicall = Some ErrorReport) ->
    _decode_response_data py response = Ok raw ->
    json_loads py raw = inr (JList l) ->
    exists rs : list RESTMessageResponse,
      __convert_rest_response apiconsts py apicall response path = Ok rs /\
      rs = map (new (match APICALL2RESPONSE apiconsts !! apicall with
                     | Some c => c
                     | None => ApiCallResponse
                     end)) l /\
      length rs = length l /\
      (forall (i : nat) (x : json),
          l !! i = Some x ->
          exists r, rs !! i = Some r /\ _rest_data r = x /\
                    py_class r = response_class_of apiconsts apicall).
Proof.
  intros apiconsts py apicall path response raw l Hcls Hd Hj.
  assert (Hg : is_generic (response_class_of apiconsts apicall) = true).
  { apply is_generic_true. unfold response_class_of.
    destruct Hcls as [-> | [-> | ->]]; simpl; auto. }
  exists (map (new (response_class_of apiconsts apicall)) l).
  split; [|split; [|split]].
  - unfold __convert_rest_response. rewrite Hd. cbn [obind]. rewrite Hj, Hg. reflexivity.
  - unfold response_class_of. destruct (APICALL2RESPONSE apiconsts !! apicall); reflexivity.
  - apply length_map.
  - intros i x Hi. exists (new (response_class_of apiconsts apicall) x).
    split; [|split]; try reflexivity.
    change (map ?f l) with (f <$> l). rewrite list_lookup_fmap, Hi. reflexivity.
Qed.

Lemma generic_response_wraps_each_element_witness :
  exists rs : list RESTMessageResponse,
    __convert_rest_response Sample.apiconsts Sample.py "CrtNode"
      (Sample.http 200 "[{'ret_code': 3}, {'ret_code': 4}]") "/v1/nodes" = Ok rs /\
    rs = map (new (match APICALL2RESPONSE Sample.apiconsts !! "CrtNode" with
                   | Some c => c
                   | None => ApiCallResponse
                   end))
             [JDict [("ret_code", JInt 3)]; JDict [("ret_code", JInt 4)]] /\
    length rs = 2%nat /\
    (forall (i : nat) (x : json),
        [JDict [("ret_code", JInt 3)]; JDict [("ret_code", JInt 4)]] !! i = Some x ->
        exists r, rs !! i = Some r /\ _rest_data r = x /\
                  py_class r = response_class_of Sample.apiconsts "CrtNode").
Proof.
  apply (generic_response_wraps_each_element Sample.apiconsts Sample.py "CrtNode"
           "/v1/nodes" (Sample.http 200 "[{'ret_code': 3}, {'ret_code': 4}]")
           "[{'ret_code': 3}, {'ret_code': 4}]").
  - left. vm_compute. reflexivity.
  - reflexivity.
  - reflexivity.
Defined.

(** C1, what the code does: for an operation registered with a structured
    class, a payload that parses as an array of JSON objects is wrapped
    whole in one instance of that class, whether or not the objects carry
    a [ret_code] field: the test [''ret_code'' in data] asks whether the
    array has the string itself as an element. *)
Theorem structured_response_wraps_array_of_replies_whole :
  forall (apiconsts : sharedconsts) (py : pylib) (apicall path : string)
         (response : HTTPResponse) (raw : string)
         (objects : list (list (string * json))),
    is_generic (response_class_of apiconsts apicall) = false ->
    _decode_response_data py response = Ok raw ->
    json_loads py raw = inr (JList (map JDict objects)) ->
    __convert_rest_response apiconsts py apicall response path =
      Ok [new (response_class_of apiconsts apicall) (JList (map JDict objects))].
Proof.
  intros apiconsts py apicall path response raw objects Hg Hd Hj.
  rewrite (convert_structured_array apiconsts py apicall path response raw _ Hg Hd Hj).
  rewrite py_in_objects. reflexivity.
Qed.

Lemma structured_response_wraps_array_of_replies_whole_witness :
  __convert_rest_response Sample.apiconsts Sample.py "LstNode"
    (Sample.http 200 "[{'ret_code': 3}, {'ret_code': 4}]") "/v1/nodes" =
  Ok [new NodeListResponse
          (JList [JDict [("ret_code", JInt 3)]; JDict [("ret_code", JInt 4)]])].
Proof.
  apply (structured_response_wraps_array_of_replies_whole Sample.apiconsts Sample.py
           "LstNode" "/v1/nodes" (Sample.http 200 "[{'ret_code': 3}, {'ret_code': 4}]")
           "[{'ret_code': 3}, {'ret_code': 4}]"
           [[("ret_code", JInt 3)]; [("ret_code", JInt 4)]]).
  - vm_compute. reflexivity.
  - reflexivity.
  - reflexivity.
Defined.

(** ** The volume-size parser *)

Lemma span_all (p : ascii -> bool) (a : string) :
  all_chars p a = true -> span p a = (a, EmptyString).
Proof.
  induction a as [|c a IH]; simpl; intros H; [reflexivity|].
  apply andb_true_iff in H as [Hc Ha]. rewrite Hc, (IH Ha). reflexivity.
Qed.

Lemma span_app (p q : ascii -> bool) (a b : string) :
  all_chars p a = true ->
  all_chars q b = true ->
  (forall c, q c = true -> p c = false) ->
  span p (a +:+ b) = (a, b).
Proof.
  intros Ha Hb Hpq. induction a as [|c a IH]; simpl in *.
  - destruct b as [|c b]; simpl in *; [reflexivity|].
    apply andb_true_iff in Hb as [Hc _]. rewrite (Hpq c Hc). reflexivity.
  - apply andb_true_iff in Ha as [Hc Ha]. rewrite Hc, (IH Ha). reflexivity.
Qed.

Lemma match_size_split (digits suffix : string) :
  digits <> EmptyString ->
  all_chars is_digit digits = true ->
  all_chars not_digit suffix = true ->
  match_size (digits +:+ suffix) = Some (digits, suffix).
Proof.
  intros Hne Hd Hs. unfold match_size.
  rewrite (span_app is_digit not_digit digits suffix Hd Hs).
  - destruct digits; [congruence|].
    change (fun c => negb (is_digit c)) with not_digit.
    rewrite (span_all not_digit suffix Hs). reflexivity.
  - intros c Hc. unfold not_digit in Hc. destruct (is_digit c); [discriminate|reflexivity].
Qed.

(** The parser on a number followed by a unit, for any [SizeCalc]. *)
Lemma parse_volume_size_split (sc : SizeCalc) (digits suffix : string) :
  digits <> EmptyString ->
  all_chars is_digit digits = true ->
  all_chars not_digit suffix = true ->
  parse_volume_size_to_kib sc (digits +:+ suffix) =
    let unit_str := if String.eqb suffix "" then "GiB" else suffix in
    match UNITS_MAP sc !! lower unit_str with
    | None =>
        Raise (LinstorArgumentError
                 (dquote +:+ unit_str +:+ dquote +:+ " is not a valid unit!" +:+ nl +:+
                  "Valid units: " +:+ UNITS_LIST_STR sc))
    | Some (_, unit) =>
        Ok (if unit =? UNIT_KiB sc then int_of_digits digits
            else convert_round_up sc (int_of_digits digits) unit (UNIT_KiB sc))
    end.
Proof.
  intros Hne Hd Hs. unfold parse_volume_size_to_kib.
  rewrite (match_size_split digits suffix Hne Hd Hs). cbv zeta.
  destruct (UNITS_MAP sc !! lower _) as [[name unit]|]; [|reflexivity].
  destruct (unit =? UNIT_KiB sc); reflexivity.
Qed.

(** [cdiv a b] is the least integer whose multiple by [b] reaches [a]. *)
Lemma cdiv_round_up (a b : Z) :
  0 < b ->
  a <= SizeCalcModel.cdiv a b * b /\ (SizeCalcModel.cdiv a b - 1) * b < a.
Proof.
  intros Hb. unfold SizeCalcModel.cdiv.
  pose proof (Z.div_mod a b ltac:(lia)) as Hdm.
  pose proof (Z.mod_pos_bound a b Hb) as Hmod.
  destruct (a mod b =? 0) eqn:E.
  - apply Z.eqb_eq in E. nia.
  - apply Z.eqb_neq in E. nia.
Qed.

Lemma cdiv_exact (n b : Z) : 0 < b -> SizeCalcModel.cdiv (n * b) b = n.
Proof.
  intros Hb. unfold SizeCalcModel.cdiv.
  rewrite Z.mod_mul, Z.div_mul by lia. reflexivity.
Qed.

(** C9: [2TiB] parses to 2 * 1024^3 KiB; [5x] is rejected with an argument
    error that names the unit; and a string made of a decimal number and a
    unit suffix parses to the number times the size of its unit ([GiB]
    when there is no suffix), divided by the size of a KiB and rounded up,
    an unknown suffix giving the argument error. *)
Theorem parse_volume_size_to_kib_scales_and_rounds_up :
  forall digits suffix : string,
    digits <> EmptyString ->
    all_chars is_digit digits = true ->
    all_chars not_digit suffix = true ->
    parse_volume_size_to_kib SizeCalcModel.model "2TiB" = Ok (2 * 1024 ^ 3) /\
    parse_volume_size_to_kib SizeCalcModel.model "5x" =
      Raise (LinstorArgumentError
               (dquote +:+ "x" +:+ dquote +:+ " is not a valid unit!" +:+ nl +:+
                "Valid units: " +:+ SizeCalcModel.UNITS_LIST_STR)) /\
    parse_volume_size_to_kib SizeCalcModel.model (digits +:+ suffix) =
      let unit_str := if String.eqb suffix "" then "GiB" else suffix in
      match SizeCalcModel.UNITS_MAP !! lower unit_str with
      | Some (_, unit) =>
          Ok (SizeCalcModel.cdiv (int_of_digits digits * unit) SizeCalcModel.UNIT_KiB)
      | None =>
          Raise (LinstorArgumentError
                   (dquote +:+ unit_str +:+ dquote +:+ " is not a valid unit!" +:+ nl +:+
                    "Valid units: " +:+ SizeCalcModel.UNITS_LIST_STR))
      end.
Proof.
  intros digits suffix Hne Hd Hs.
  split; [vm_compute; reflexivity|].
  split; [vm_compute; reflexivity|].
  rewrite (parse_volume_size_split SizeCalcModel.model digits suffix Hne Hd Hs).
  cbv zeta. simpl UNITS_MAP. simpl UNITS_LIST_STR. simpl UNIT_KiB. simpl convert_round_up.
  destruct (SizeCalcModel.UNITS_MAP !! lower _) as [[name unit]|]; [|reflexivity].
  f_equal. destruct (unit =? SizeCalcModel.UNIT_KiB) eqn:E; [|reflexivity].
  apply Z.eqb_eq in E. subst unit. symmetry. apply cdiv_exact. reflexivity.
Qed.

Lemma parse_volume_size_to_kib_scales_and_rounds_up_witness :
  parse_volume_size_to_kib SizeCalcModel.model "2TiB" = Ok (2 * 1024 ^ 3) /\
  parse_volume_size_to_kib SizeCalcModel.model "5x" =
    Raise (LinstorArgumentError
             (dquote +:+ "x" +:+ dquote +:+ " is not a valid unit!" +:+ nl +:+
              "Valid units: " +:+ SizeCalcModel.UNITS_LIST_STR)) /\
  parse_volume_size_to_kib SizeCalcModel.model ("1025" +:+ "b") =
    let unit_str := if String.eqb "b" "" then "GiB" else "b" in
    match SizeCalcModel.UNITS_MAP !! lower unit_str with
    | Some (_, unit) =>
        Ok (SizeCalcModel.cdiv (int_of_digits "1025" * unit) SizeCalcModel.UNIT_KiB)
    | None =>
        Raise (LinstorArgumentError
                 (dquote +:+ unit_str +:+ dquote +:+ " is not a valid unit!" +:+ nl +:+
                  "Valid units: " +:+ SizeCalcModel.UNITS_LIST_STR))
    end.
Proof.
  apply (parse_volume_size_to_kib_scales_and_rounds_up "1025" "b").
  - discriminate.
  - reflexivity.
  - reflexivity.
Defined.

(** ** The monad *)

Section MonadFacts.

Context {A B : Type}.

Lemma bind_ok (m : M A) (k : A -> M B) (w w' : world) (a : A) :
  m w = (Ok a, w') -> (m ≫= k) w = k a w'.
Proof. intros H. unfold mbind, M_bind. rewrite H. reflexivity. Qed.

Lemma bind_raise (m : M A) (k : A -> M B) (w w' : world) (e : exn) :
  m w = (Raise e, w') -> (m ≫= k) w = (Raise e, w').
Proof. intros H. unfold mbind, M_bind. rewrite H. reflexivity. Qed.

Lemma bind_diverge (m : M A) (k : A -> M B) (w w' : world) :
  m w = (Diverge, w') -> (m ≫= k) w = (Diverge, w').
Proof. intros H. unfold mbind, M_bind. rewrite H. reflexivity. Qed.

Lemma try_except_ok (m : M A) (h : exn -> M A) (w w' : world) (a : A) :
  m w = (Ok a, w') -> try_except m h w = (Ok a, w').
Proof. intros H. unfold try_except. rewrite H. reflexivity. Qed.

Lemma try_except_raise (m : M A) (h : exn -> M A) (w w' : world) (e : exn) :
  m w = (Raise e, w') -> try_except m h w = h e w'.
Proof. intros H. unfold try_except. rewrite H. reflexivity. Qed.

Lemma try_except_diverge (m : M A) (h : exn -> M A) (w w' : world) :
  m w = (Diverge, w') -> try_except m h w = (Diverge, w').
Proof. intros H. unfold try_except. rewrite H. reflexivity. Qed.

End MonadFacts.

(** ** The dispatcher on a response with an error status *)

Section DispatcherFacts.

Variable apiconsts : sharedconsts.
Variable py : pylib.
Variable net : network.
Variable rest_api_version : RESTMessageResponse -> outcome string.

Notation dispatch := (_rest_request apiconsts py net rest_api_version).
Notation reconnect_ := (connect apiconsts py net rest_api_version).
Notation receive := (receive_response apiconsts py net).
Notation send := (send_request py net).

Lemma the_rest_conn_some (w : world) (c : HTTPConnection) :
  _rest_conn (self w) = Some c -> the_rest_conn w = (Ok c, w).
Proof. intros H. unfold the_rest_conn, mbind, M_bind, get_self. rewrite H. reflexivity. Qed.

Lemma the_rest_conn_none (w : world) :
  _rest_conn (self w) = None -> the_rest_conn w = (Raise AttributeError, w).
Proof. intros H. unfold the_rest_conn, mbind, M_bind, get_self. rewrite H. reflexivity. Qed.

Lemma conn_getresponse_returns (c : HTTPConnection) (w : world) (r : HTTPResponse) :
  getresponse_does net (call_getresponse c :: history w) = inr r ->
  conn_getresponse net c w = (Ok r, log (call_getresponse c) w).
Proof. intros H. unfold conn_getresponse. simpl. rewrite H. reflexivity. Qed.

Lemma conn_getresponse_raises (c : HTTPConnection) (w : world) (e : exn) :
  getresponse_does net (call_getresponse c :: history w) = inl e ->
  conn_getresponse net c w = (Raise e, log (call_getresponse c) w).
Proof. intros H. unfold conn_getresponse. simpl. rewrite H. reflexivity. Qed.

(** One activation of the dispatcher, outside curl mode, once the
    request is sent: the outcome of reading the response decides. *)
Lemma rest_request_after_send (fuel : nat) (apicall method path : string)
    (body : option json) (reconnect : bool) (w w1 : world) :
  _mode_curl (self w) = false ->
  send method path body w = (Ok tt, w1) ->
  dispatch (S fuel) apicall method path body reconnect w =
    match receive apicall method path w1 with
    | (Raise socket_timeout, w2) =>
        (Raise (LinstorTimeoutError
                  ("Socket timeout, no data received for more than " +:+
                   str_int (_timeout (self w2)) +:+ "s.")), w2)
    | (Raise (socket_error err), w2) =>
        if _keep_alive (self w2) && reconnect then
          (reconnect_ fuel ≫= fun _ => dispatch fuel apicall method path body false) w2
        else
          (Raise (LinstorNetworkError
                    ("Error reading response from " +:+ _ctrl_host (self w2) +:+ ": " +:+ err)
                    []), w2)
    | (Raise BadStatusLine, w2) =>
        if _keep_alive (self w2) && reconnect then
          (reconnect_ fuel ≫= fun _ => dispatch fuel apicall method path body false) w2
        else (Raise BadStatusLine, w2)
    | r => r
    end.
Proof.
  intros Hcurl Hsend. simpl. unfold _rest_request_body.
  erewrite bind_ok by (unfold get_self; reflexivity). rewrite Hcurl.
  erewrite bind_ok by exact Hsend.
  unfold try_except at 1.
  destruct (receive apicall method path w1) as [[l|e|] w2]; try reflexivity.
  destruct e; try reflexivity;
    (erewrite bind_ok by (unfold get_self; reflexivity);
     destruct (_keep_alive (self w2) && reconnect); reflexivity).
Qed.

(** Reading a response with an error status. *)
Lemma receive_error_status (apicall method path : string) (w : world)
    (c : HTTPConnection) (response : HTTPResponse) (raw : string) :
  _rest_conn (self w) = Some c ->
  getresponse_does net (call_getresponse c :: history w) = inr response ->
  400 <= status response ->
  _decode_response_data py response = Ok raw ->
  receive apicall method path w =
    (if String.eqb raw "" then
       Raise (LinstorError
                ("REST api call method '" +:+ method +:+ "' to resource '" +:+ path +:+
                 "' returned status " +:+ str_int (status response) +:+ " with no data."))
     else
       match json_loads py raw with
       | inl ve =>
           Raise (LinstorError
                    ("Unable to parse REST json data: " +:+ ve +:+ nl +:+
                     "Request-Uri: " +:+ path))
       | inr error_data =>
           let? xs := py_iter error_data in Ok (map (new ApiCallResponse) xs)
       end,
     log (call_getresponse c) w).
Proof.
  intros Hc Hresp Hst Hraw. unfold receive_response.
  erewrite bind_ok by (apply the_rest_conn_some; exact Hc).
  erewrite bind_ok by (apply conn_getresponse_returns; exact Hresp).
  replace (status response <? 400) with false by (symmetry; apply Z.ltb_ge; lia).
  erewrite bind_ok by (unfold lift; rewrite Hraw; reflexivity).
  destruct (String.eqb raw ""); simpl; [reflexivity|].
  destruct (json_loads py raw) as [ve|data]; [reflexivity|].
  unfold mbind, M_bind, lift, mret, M_ret.
  destruct (py_iter data); reflexivity.
Qed.

End DispatcherFacts.

(** C7: a request that is sent and answered with a status of 400 or more
    gives, when the decoded body is not empty and parses as a JSON array,
    one status reply per element of the array; when the body is not empty
    and does not parse, a [LinstorError] whose text names the path of the
    request; when the body is empty, a [LinstorError] whose text has the
    method, the path and the status.  Nothing is called on the connection
    after the response is read. *)
Theorem error_status_gives_replies_or_error :
  forall (apiconsts : sharedconsts) (py : pylib) (net : network)
         (rest_api_version : RESTMessageResponse -> outcome string)
         (fuel : nat) (apicall method path : string) (body : option json)
         (reconnect : bool) (w w1 : world) (c : HTTPConnection)
         (response : HTTPResponse) (raw : string),
    _mode_curl (self w) = false ->
    send_request py net method path body w = (Ok tt, w1) ->
    _rest_conn (self w1) = Some c ->
    getresponse_does net (call_getresponse c :: history w1) = inr response ->
    400 <= status response ->
    _decode_response_data py response = Ok raw ->
    _rest_request apiconsts py net rest_api_version (S fuel)
                  apicall method path body reconnect w =
      (match raw, json_loads py raw with
       | EmptyString, _ =>
           Raise (LinstorError
                    ("REST api call method '" +:+ method +:+ "' to resource '" +:+ path +:+
                     "' returned status " +:+ str_int (status response) +:+ " with no data."))
       | _, inl ve =>
           Raise (LinstorError
                    ("Unable to parse REST json data: " +:+ ve +:+ nl +:+
                     "Request-Uri: " +:+ path))
       | _, inr (JList l) => Ok (map (new ApiCallResponse) l)
       | _, inr data => let? xs := py_iter data in Ok (map (new ApiCallResponse) xs)
       end,
       log (call_getresponse c) w1).
Proof.
  intros apiconsts py net rav fuel apicall method path body reconnect
         w w1 c response raw Hcurl Hsend Hc Hresp Hst Hraw.
  rewrite (rest_request_after_send apiconsts py net rav fuel apicall method path
             body reconnect w w1 Hcurl Hsend).
  rewrite (receive_error_status apiconsts py net apicall method path w1 c response raw
             Hc Hresp Hst Hraw).
  destruct raw as [|ch raw]; [reflexivity|].
  cbn [String.eqb].
  destruct (json_loads py (String ch raw)) as [ve|data]; [reflexivity|].
  destruct data; reflexivity.
Qed.

Lemma error_status_gives_replies_or_error_witness :
  _rest_request Sample.apiconsts Sample.py
    (Sample.scripted [Sample.fine; Sample.responds (Sample.http 404 "[{'ret_code': 3}, {'ret_code': 4}]")])
    Sample.rest_api_version 1 "LstNode" "GET" "/v1/nodes" None true
    (Sample.start (Sample.connected_client false)) =
  (Ok [new ApiCallResponse (JDict [("ret_code", JInt 3)]);
       new ApiCallResponse (JDict [("ret_code", JInt 4)])],
   log (call_getresponse (Sample.plain "alpha"))
       (log (call_request (Sample.plain "alpha") "GET" "/v1/nodes" None
                          (_http_headers ++ [])%list)
            (Sample.start (Sample.connected_client false)))) /\
  _rest_request Sample.apiconsts Sample.py
    (Sample.scripted [Sample.fine; Sample.responds (Sample.http 500 "<html>")])
    Sample.rest_api_version 1 "LstNode" "GET" "/v1/nodes" None true
    (Sample.start (Sample.connected_client false)) =
  (Raise (LinstorError
            ("Unable to parse REST json data: " +:+ "No JSON object could be decoded"
             +:+ nl +:+ "Request-Uri: " +:+ "/v1/nodes")),
   log (call_getresponse (Sample.plain "alpha"))
       (log (call_request (Sample.plain "alpha") "GET" "/v1/nodes" None
                          (_http_headers ++ [])%list)
            (Sample.start (Sample.connected_client false)))) /\
  _rest_request Sample.apiconsts Sample.py
    (Sample.scripted [Sample.fine; Sample.responds (Sample.http 500 "")])
    Sample.rest_api_version 1 "LstNode" "DELETE" "/v1/nodes/alpha" None true
    (Sample.start (Sample.connected_client false)) =
  (Raise (LinstorError
            "REST api call method 'DELETE' to resource '/v1/nodes/alpha' returned status 500 with no data."),
   log (call_getresponse (Sample.plain "alpha"))
       (log (call_request (Sample.plain "alpha") "DELETE" "/v1/nodes/alpha" None
                          (_http_headers ++ [])%list)
            (Sample.start (Sample.connected_client false)))).
Proof.
  split; [|split].
  - apply (error_status_gives_replies_or_error Sample.apiconsts Sample.py _
             Sample.rest_api_version 0 "LstNode" "GET" "/v1/nodes" None true
             (Sample.start (Sample.connected_client false)) _
             (Sample.plain "alpha")
             (Sample.http 404 "[{'ret_code': 3}, {'ret_code': 4}]")
             "[{'ret_code': 3}, {'ret_code': 4}]");
      try reflexivity; vm_compute; discriminate.
  - apply (error_status_gives_replies_or_error Sample.apiconsts Sample.py _
             Sample.rest_api_version 0 "LstNode" "GET" "/v1/nodes" None true
             (Sample.start (Sample.connected_client false)) _
             (Sample.plain "alpha") (Sample.http 500 "<html>") "<html>");
      try reflexivity; vm_compute; discriminate.
  - apply (error_status_gives_replies_or_error Sample.apiconsts Sample.py _
             Sample.rest_api_version 0 "LstNode" "DELETE" "/v1/nodes/alpha" None true
             (Sample.start (Sample.connected_client false)) _
             (Sample.plain "alpha") (Sample.http 500 "") "");
      try reflexivity; vm_compute; discriminate.
Defined.

(** ** What the methods leave alone

    For a reflexive and transitive [R], [preserves R] goes through
    sequencing and exception handling, so that it can be established
    method by method. *)

Section Frame.

Variable apiconsts : sharedconsts.
Variable py : pylib.
Variable net : network.
Variable rest_api_version : RESTMessageResponse -> outcome string.

Variable R : Linstor -> Linstor -> Prop.
Hypothesis R_refl : forall s, R s s.
Hypothesis R_trans : forall a b c, R a b -> R b c -> R a c.

Local Notation preserves := (preserves R).

Lemma preserves_ret {A} (a : A) : preserves (mret a).
Proof. intros w r w' H. injection H as _ <-. apply R_refl. Qed.

Lemma preserves_raise {A} (e : exn) : preserves (@raise A e).
Proof. intros w r w' H. injection H as _ <-. apply R_refl. Qed.

Lemma preserves_diverge {A} : preserves (@diverge A).
Proof. intros w r w' H. injection H as _ <-. apply R_refl. Qed.

Lemma preserves_lift {A} (o : outcome A) : preserves (lift o).
Proof. intros w r w' H. injection H as _ <-. apply R_refl. Qed.

Lemma preserves_get_self : preserves get_self.
Proof. intros w r w' H. injection H as _ <-. apply R_refl. Qed.

Lemma preserves_modify_self (f : Linstor -> Linstor) :
  (forall s, R s (f s)) -> preserves (modify_self f).
Proof. intros Hf w r w' H. injection H as _ <-. apply Hf. Qed.

Lemma preserves_bind {A B} (m : M A) (k : A -> M B) :
  preserves m -> (forall a, preserves (k a)) -> preserves (m ≫= k).
Proof.
  intros Hm Hk w r w' H. unfold mbind, M_bind in H.
  destruct (m w) as [[a|e|] w1] eqn:E.
  - eapply R_trans; [exact (Hm _ _ _ E) | exact (Hk a _ _ _ H)].
  - injection H as _ <-. exact (Hm _ _ _ E).
  - injection H as _ <-. exact (Hm _ _ _ E).
Qed.

Lemma preserves_try_except {A} (m : M A) (h : exn -> M A) :
  preserves m -> (forall e, preserves (h e)) -> preserves (try_except m h).
Proof.
  intros Hm Hh w r w' H. unfold try_except in H.
  destruct (m w) as [[a|e|] w1] eqn:E.
  - injection H as _ <-. exact (Hm _ _ _ E).
  - eapply R_trans; [exact (Hm _ _ _ E) | exact (Hh e _ _ _ H)].
  - injection H as _ <-. exact (Hm _ _ _ E).
Qed.

Lemma preserves_conn_connect (c : HTTPConnection) : preserves (conn_connect net c).
Proof.
  intros w r w' H. unfold conn_connect in H.
  destruct (connect_raises net _); injection H as _ <-; apply R_refl.
Qed.

Lemma preserves_conn_request (c : HTTPConnection) (method url : string)
    (body : option string) (headers : list (string * string)) :
  preserves (conn_request net c method url body headers).
Proof.
  intros w r w' H. unfold conn_request in H.
  destruct (request_raises net _); injection H as _ <-; apply R_refl.
Qed.

Lemma preserves_conn_getresponse (c : HTTPConnection) : preserves (conn_getresponse net c).
Proof.
  intros w r w' H. unfold conn_getresponse in H.
  destruct (getresponse_does net _); injection H as _ <-; apply R_refl.
Qed.

Lemma preserves_conn_close (c : HTTPConnection) : preserves (conn_close c).
Proof. intros w r w' H. injection H as _ <-. apply R_refl. Qed.

Lemma preserves_print (line : string) : preserves (print line).
Proof. intros w r w' H. injection H as _ <-. apply R_refl. Qed.

Ltac frame :=
  repeat first
    [ assumption
    | apply preserves_ret | apply preserves_raise | apply preserves_diverge
    | apply preserves_lift | apply preserves_get_self
    | apply preserves_conn_connect | apply preserves_conn_request
    | apply preserves_conn_getresponse | apply preserves_conn_close
    | apply preserves_print
    | apply preserves_modify_self; solve [auto]
    | apply preserves_bind; [|intros ?]
    | apply preserves_try_except; [|intros ?]
    | match goal with
      | |- preserves (if ?b then _ else _) => destruct b
      | |- preserves (match ?x with _ => _ end) => destruct x
      end ].

Lemma preserves_the_rest_conn : preserves the_rest_conn.
Proof. unfold the_rest_conn. frame. Qed.

Lemma preserves_output_curl_command (method path : string) (body : option json) :
  preserves (__output_curl_command py method path body).
Proof. unfold __output_curl_command. frame. Qed.

Lemma preserves_send_request (method path : string) (body : option json) :
  preserves (send_request py net method path body).
Proof. unfold send_request. pose proof preserves_the_rest_conn. frame. Qed.

Lemma preserves_receive_response (apicall method path : string) :
  preserves (receive_response apiconsts py net apicall method path).
Proof. unfold receive_response. pose proof preserves_the_rest_conn. frame. Qed.

Lemma preserves_has_linstor_https (hostname : option string) (p : Z) :
  preserves (has_linstor_https py net hostname p).
Proof. unfold has_linstor_https. frame. Qed.

Lemma preserves_rest_request_body (connect : M (option bool)) (retry : rest_request_t)
    (apicall method path : string) (body : option json) (reconnect : bool) :
  preserves connect ->
  (forall a m p b r, preserves (retry a m p b r)) ->
  preserves (_rest_request_body apiconsts py net connect retry
                                apicall method path body reconnect).
Proof.
  intros Hc Hr. unfold _rest_request_body.
  pose proof (preserves_output_curl_command method path body).
  pose proof (preserves_send_request method path body).
  pose proof (preserves_receive_response apicall method path).
  pose proof (Hr apicall method path body false).
  frame.
Qed.

(** The assignments of [connect] are compatible with [R]. *)
Hypothesis R_set_rest_conn : forall v s, R s (set_rest_conn v s).
Hypothesis R_set_ctrl_version : forall v s, R s (set_ctrl_version v s).
Hypothesis R_set_connected : forall v s, R s (set_connected v s).

Lemma preserves_select_transport : preserves (select_transport py net).
Proof.
  unfold select_transport.
  apply preserves_bind; [frame|intros s].
  apply preserves_bind.
  - destruct (_ || _); [frame|].
    apply preserves_bind; [apply preserves_has_linstor_https|intros hp]. frame.
  - intros t. apply preserves_bind; [frame|intros s'].
    destruct (fst t : bool); [apply preserves_modify_self, R_set_rest_conn|].
    destruct (_ && _); [frame|apply preserves_modify_self, R_set_rest_conn].
Qed.

Lemma preserves_handshake (rr : rest_request_t) :
  (forall a m p b r, preserves (rr a m p b r)) ->
  preserves (handshake apiconsts net rest_api_version rr).
Proof.
  intros Hr. unfold handshake, controller_version, ctrl_rest_api_version.
  pose proof preserves_the_rest_conn.
  pose proof (Hr (API_VERSION apiconsts) "GET" "/v1/controller/version" None true).
  frame.
Qed.

Lemma preserves_Linstor_connect (rr : rest_request_t) :
  (forall a m p b r, preserves (rr a m p b r)) ->
  preserves (Linstor_connect apiconsts py net rest_api_version rr).
Proof.
  intros Hr. unfold Linstor_connect.
  pose proof preserves_select_transport.
  pose proof (preserves_handshake rr Hr).
  pose proof (preserves_modify_self _ (R_set_connected true)).
  frame.
Qed.

(** The assignment of [MultiLinstor.connect] is compatible with [R]. *)
Hypothesis R_set_ctrl_host : forall v s, R s (set_ctrl_host v s).

Lemma preserves_MultiLinstor_connect_loop (super_connect : M (option bool))
    (hosts : list string) (conn_errors : list exn) :
  preserves super_connect ->
  preserves (MultiLinstor_connect_loop super_connect hosts conn_errors).
Proof.
  intros Hs. revert conn_errors.
  induction hosts as [|h hosts IH]; intros conn_errors; simpl; [frame|].
  pose proof (preserves_modify_self _ (R_set_ctrl_host h)).
  apply preserves_bind; [assumption|intros _].
  apply preserves_bind; [frame|intros [v|lne]]; [frame|apply IH].
Qed.

Lemma preserves_self_connect (rr : rest_request_t) :
  (forall a m p b r, preserves (rr a m p b r)) ->
  preserves (self_connect apiconsts py net rest_api_version rr).
Proof.
  intros Hr. unfold self_connect, MultiLinstor_connect.
  pose proof (preserves_Linstor_connect rr Hr).
  apply preserves_bind; [frame|intros s].
  destruct (__class__ s); [assumption|].
  apply preserves_bind; [frame|intros s'].
  apply preserves_bind; [apply preserves_MultiLinstor_connect_loop; assumption|].
  intros e. frame.
Qed.

Lemma preserves_rest_request (fuel : nat) :
  forall a m p b r,
    preserves (_rest_request apiconsts py net rest_api_version fuel a m p b r).
Proof.
  induction fuel as [|fuel IH]; intros a m p b r; simpl.
  - apply preserves_diverge.
  - apply preserves_rest_request_body; [|exact IH].
    apply preserves_self_connect. exact IH.
Qed.

Lemma preserves_connect (fuel : nat) :
  preserves (connect apiconsts py net rest_api_version fuel).
Proof. apply preserves_self_connect, preserves_rest_request. Qed.

End Frame.

Lemma same_settings_refl (s : Linstor) : same_settings s s.
Proof. unfold same_settings. tauto. Qed.

Lemma same_settings_trans (a b c : Linstor) :
  same_settings a b -> same_settings b c -> same_settings a c.
Proof. unfold same_settings. intuition congruence. Qed.

Section Settings.

Variable apiconsts : sharedconsts.
Variable py : pylib.
Variable net : network.
Variable rest_api_version : RESTMessageResponse -> outcome string.

(** Sending a request and reading a response assign nothing. *)
Lemma send_request_keeps_self (method path : string) (body : option json)
    (w w' : world) (r : outcome unit) :
  send_request py net method path body w = (r, w') -> self w' = self w.
Proof.
  intros H. symmetry.
  exact (preserves_send_request py net eq (fun s => eq_refl) (@eq_trans _)
           method path body w r w' H).
Qed.

Lemma receive_response_keeps_self (apicall method path : string)
    (w w' : world) (r : outcome (list RESTMessageResponse)) :
  receive_response apiconsts py net apicall method path w = (r, w') -> self w' = self w.
Proof.
  intros H. symmetry.
  exact (preserves_receive_response apiconsts py net eq (fun s => eq_refl) (@eq_trans _)
           apicall method path w r w' H).
Qed.

Lemma has_linstor_https_keeps_self (hostname : option string) (p : Z)
    (w w' : world) (r : outcome (option Z)) :
  has_linstor_https py net hostname p w = (r, w') -> self w' = self w.
Proof.
  intros H. symmetry.
  exact (preserves_has_linstor_https py net eq (fun s => eq_refl) (@eq_trans _)
           hostname p w r w' H).
Qed.

Lemma output_curl_command_keeps_self (method path : string) (body : option json)
    (w w' : world) (r : outcome unit) :
  __output_curl_command py method path body w = (r, w') -> self w' = self w.
Proof.
  intros H. symmetry.
  exact (preserves_output_curl_command py eq (fun s => eq_refl) (@eq_trans _)
           method path body w r w' H).
Qed.

(** Connecting and dispatching, however deeply nested, keep the settings. *)
Lemma connect_keeps_settings (fuel : nat) (w w' : world) (r : outcome (option bool)) :
  connect apiconsts py net rest_api_version fuel w = (r, w') ->
  same_settings (self w) (self w').
Proof.
  apply (preserves_connect apiconsts py net rest_api_version same_settings
           same_settings_refl same_settings_trans);
    intros; unfold same_settings; simpl; tauto.
Qed.

Lemma rest_request_keeps_settings (fuel : nat) (a m p : string) (b : option json)
    (rc : bool) (w w' : world) (r : outcome (list RESTMessageResponse)) :
  _rest_request apiconsts py net rest_api_version fuel a m p b rc w = (r, w') ->
  same_settings (self w) (self w').
Proof.
  apply (preserves_rest_request apiconsts py net rest_api_version same_settings
           same_settings_refl same_settings_trans);
    intros; unfold same_settings; simpl; tauto.
Qed.

(** A dispatch that may not reconnect assigns nothing. *)
Lemma rest_request_without_reconnect_keeps_self (fuel : nat) (a m p : string)
    (b : option json) (rc : bool) (w w' : world) (r : outcome (list RESTMessageResponse)) :
  _keep_alive (self w) && rc = false ->
  _rest_request apiconsts py net rest_api_version fuel a m p b rc w = (r, w') ->
  self w' = self w.
Proof.
  intros Hk H. destruct fuel as [|fuel]; [injection H as _ <-; reflexivity|].
  simpl in H. unfold _rest_request_body in H.
  unfold mbind at 1, M_bind at 1, get_self at 1 in H.
  destruct (_mode_curl (self w)).
  - unfold mbind, M_bind, mret, M_ret in H.
    destruct (__output_curl_command py m p b w) as [[[]|e|] w1] eqn:Ec;
      injection H as _ <-;
      exact (output_curl_command_keeps_self _ _ _ _ _ _ Ec).
  - unfold mbind, M_bind in H.
    destruct (send_request py net m p b w) as [[[]|e|] w1] eqn:Es;
      pose proof (send_request_keeps_self _ _ _ _ _ _ Es) as Hs;
      try (injection H as _ <-; exact Hs).
    unfold try_except in H.
    destruct (receive_response apiconsts py net a m p w1) as [[l|e|] w2] eqn:Er;
      pose proof (receive_response_keeps_self _ _ _ _ _ _ Er) as Hr;
      try (injection H as _ <-; congruence).
    assert (Hk2 : _keep_alive (self w2) && rc = false) by (rewrite Hr, Hs; exact Hk).
    destruct e; unfold get_self, raise in H; try rewrite Hk2 in H;
      injection H as _ <-; congruence.
Qed.

End Settings.

(** ** Reconnect and retry *)

(** C2, as amended: with keep-alive on, when the first attempt of a
    dispatched call fails while the response is read, with a socket error
    or with [BadStatusLine], and the reconnect that follows returns, the
    request is sent once more and its outcome is final: a socket error
    while reading becomes a [LinstorNetworkError], a timeout a
    [LinstorTimeoutError], and [BadStatusLine] propagates as it is.  The
    world the call leaves is the one the second reading left: nothing is
    connected or sent after it. *)
Theorem read_failure_reconnects_and_retries_once :
  forall (apiconsts : sharedconsts) (py : pylib) (net : network)
         (rest_api_version : RESTMessageResponse -> outcome string)
         (fuel : nat) (apicall method path : string) (body : option json)
         (w w1 w2 w3 w4 w5 : world) (e : exn) (v : option bool)
         (r : outcome (list RESTMessageResponse)),
    _mode_curl (self w) = false ->
    _keep_alive (self w) = true ->
    send_request py net method path body w = (Ok tt, w1) ->
    receive_response apiconsts py net apicall method path w1 = (Raise e, w2) ->
    (e = BadStatusLine \/ exists err, e = socket_error err) ->
    connect apiconsts py net rest_api_version (S fuel) w2 = (Ok v, w3) ->
    send_request py net method path body w3 = (Ok tt, w4) ->
    receive_response apiconsts py net apicall method path w4 = (r, w5) ->
    _rest_request apiconsts py net rest_api_version (S (S fuel))
                  apicall method path body true w =
      (match r with
       | Raise (socket_error err) =>
           Raise (LinstorNetworkError
                    ("Error reading response from " +:+ _ctrl_host (self w5) +:+ ": " +:+ err)
                    [])
       | Raise socket_timeout =>
           Raise (LinstorTimeoutError
                    ("Socket timeout, no data received for more than " +:+
                     str_int (_timeout (self w5)) +:+ "s."))
       | Raise BadStatusLine => Raise BadStatusLine
       | _ => r
       end, w5).
Proof.
  intros apiconsts py net rav fuel apicall method path body w w1 w2 w3 w4 w5 e v r
         Hcurl Hka Hsend Hrecv He Hconn Hsend' Hrecv'.
  rewrite (rest_request_after_send apiconsts py net rav (S fuel) apicall method path
             body true w w1 Hcurl Hsend).
  rewrite Hrecv.
  assert (Hka2 : _keep_alive (self w2) = true).
  { rewrite (receive_response_keeps_self _ _ _ _ _ _ _ _ _ Hrecv).
    rewrite (send_request_keeps_self _ _ _ _ _ _ _ _ Hsend). exact Hka. }
  assert (Hcurl3 : _mode_curl (self w3) = false).
  { destruct (connect_keeps_settings _ _ _ _ _ _ _ _ Hconn) as (_ & _ & _ & Hm & _).
    rewrite Hm.
    rewrite (receive_response_keeps_self _ _ _ _ _ _ _ _ _ Hrecv).
    rewrite (send_request_keeps_self _ _ _ _ _ _ _ _ Hsend). exact Hcurl. }
  assert (Hretry :
    (connect apiconsts py net rav (S fuel) ≫=
       fun _ => _rest_request apiconsts py net rav (S fuel) apicall method path body false) w2 =
    (match r with
     | Raise (socket_error err) =>
         Raise (LinstorNetworkError
                  ("Error reading response from " +:+ _ctrl_host (self w5) +:+ ": " +:+ err)
                  [])
     | Raise socket_timeout =>
         Raise (LinstorTimeoutError
                  ("Socket timeout, no data received for more than " +:+
                   str_int (_timeout (self w5)) +:+ "s."))
     | Raise BadStatusLine => Raise BadStatusLine
     | _ => r
     end, w5)).
  { erewrite bind_ok by exact Hconn.
    rewrite (rest_request_after_send apiconsts py net rav fuel apicall method path
               body false w3 w4 Hcurl3 Hsend').
    rewrite Hrecv'. rewrite andb_false_r.
    destruct r as [l|e'|]; try reflexivity. destruct e'; reflexivity. }
  destruct He as [-> | [err ->]]; rewrite Hka2; simpl andb; exact Hretry.
Qed.

Lemma read_failure_reconnects_and_retries_once_witness :
  let net := Sample.scripted (Sample.retry_script (socket_error "Connection reset by peer")) in
  let w := Sample.start (Sample.connected_client true) in
  let w1 := snd (send_request Sample.py net "GET" "/v1/nodes" None w) in
  let w2 := snd (receive_response Sample.apiconsts Sample.py net "LstNode" "GET" "/v1/nodes" w1) in
  let w3 := snd (connect Sample.apiconsts Sample.py net Sample.rest_api_version 1 w2) in
  let w4 := snd (send_request Sample.py net "GET" "/v1/nodes" None w3) in
  let w5 := snd (receive_response Sample.apiconsts Sample.py net "LstNode" "GET" "/v1/nodes" w4) in
  _rest_request Sample.apiconsts Sample.py net Sample.rest_api_version 2
                "LstNode" "GET" "/v1/nodes" None true w =
  (Raise (LinstorNetworkError
            "Error reading response from linstor://alpha: Connection reset by peer" []),
   w5).
Proof.
  intros net w w1 w2 w3 w4 w5.
  apply (read_failure_reconnects_and_retries_once Sample.apiconsts Sample.py net
           Sample.rest_api_version 0 "LstNode" "GET" "/v1/nodes" None
           w w1 w2 w3 w4 w5 (socket_error "Connection reset by peer") (Some true)
           (Raise (socket_error "Connection reset by peer")));
    try (vm_compute; reflexivity).
  right. exists "Connection reset by peer". reflexivity.
Defined.

(** C2, as stated, fails: when both readings end in [BadStatusLine], the
    call reconnects once, sends the request once more, and then raises
    [BadStatusLine] itself, which is not a [LinstorNetworkError]. *)
Lemma second_BadStatusLine_is_not_a_network_error :
  let run := _rest_request Sample.apiconsts Sample.py
               (Sample.scripted (Sample.retry_script BadStatusLine))
               Sample.rest_api_version 2 "LstNode" "GET" "/v1/nodes" None true
               (Sample.start (Sample.connected_client true)) in
  fst run = Raise BadStatusLine /\
  (forall msg causes, fst run <> Raise (LinstorNetworkError msg causes)) /\
  rev (history (snd run)) =
    [call_request (Sample.plain "alpha") "GET" "/v1/nodes" None (_http_headers ++ [])%list;
     call_getresponse (Sample.plain "alpha");
     call_connect (Sample.probe "alpha");
     call_request (Sample.probe "alpha") "GET" "/v1/controller/version" None [];
     call_getresponse (Sample.probe "alpha");
     call_connect (Sample.plain "alpha");
     Sample.version_request (Sample.plain "alpha");
     call_getresponse (Sample.plain "alpha");
     call_request (Sample.plain "alpha") "GET" "/v1/nodes" None (_http_headers ++ [])%list;
     call_getresponse (Sample.plain "alpha")].
Proof.
  intros run.
  assert (E : fst run = Raise BadStatusLine) by (vm_compute; reflexivity).
  split; [exact E|]. split.
  - intros msg causes. rewrite E. discriminate.
  - vm_compute. reflexivity.
Qed.

(** ** The connection manager *)

Section ConnectFacts.

Variable apiconsts : sharedconsts.
Variable py : pylib.
Variable net : network.
Variable rest_api_version : RESTMessageResponse -> outcome string.

Lemma Linstor_connect_not_curl (rr : rest_request_t) (w : world) :
  _mode_curl (self w) = false ->
  Linstor_connect apiconsts py net rest_api_version rr w =
    (select_transport py net;;
     try_except (handshake apiconsts net rest_api_version rr)
       (fun err =>
          if is_socket_error err then
            s ← get_self;
            raise (LinstorNetworkError
                     ("Unable to connect to " +:+ _ctrl_host s +:+ ": " +:+ str_exn err) [])
          else raise err);;
     mret (Some true)) w.
Proof.
  intros H. unfold Linstor_connect.
  erewrite bind_ok by (unfold get_self; reflexivity). rewrite H. reflexivity.
Qed.

Lemma select_transport_keeps_flags (w w' : world) (r : outcome unit) :
  select_transport py net w = (r, w') -> same_flags (self w) (self w').
Proof.
  apply (preserves_select_transport py net same_flags).
  - intros s. split; reflexivity.
  - intros a b c [H1 H2] [H3 H4]. split; congruence.
  - intros v s. split; reflexivity.
Qed.

(** The probe makes only probe calls. *)
Lemma has_linstor_https_calls (hostname : option string) (p : Z)
    (w w' : world) (r : outcome (option Z)) :
  has_linstor_https py net hostname p w = (r, w') ->
  exists calls,
    history w' = (calls ++ history w)%list /\
    Forall (probe_call {| is_HTTPSConnection := false; host := hostname;
                          port := p; timeout := 3 |}) calls.
Proof.
  set (c := {| is_HTTPSConnection := false; host := hostname; port := p; timeout := 3 |}).
  intros H. unfold has_linstor_https in H. fold c in H.
  unfold try_except, mbind, M_bind, conn_connect, conn_request, conn_getresponse,
         mret, M_ret, raise, log in H.
  simpl in H.
  assert (P1 : probe_call c (call_connect c)) by (left; reflexivity).
  assert (P2 : probe_call c (call_request c "GET" "/v1/controller/version" None []))
    by (right; left; reflexivity).
  assert (P3 : probe_call c (call_getresponse c)) by (right; right; reflexivity).
  destruct (connect_raises net _) as [e1|].
  { exists [call_connect c]. destruct (is_socket_error e1); injection H as _ <-;
      (split; [reflexivity|repeat constructor; assumption]). }
  destruct (request_raises net _) as [e2|].
  { exists [call_request c "GET" "/v1/controller/version" None []; call_connect c].
    destruct (is_socket_error e2); injection H as _ <-;
      (split; [reflexivity|repeat constructor; assumption]). }
  exists [call_getresponse c; call_request c "GET" "/v1/controller/version" None [];
          call_connect c].
  destruct (getresponse_does net _) as [e3|resp].
  - destruct (is_socket_error e3); injection H as _ <-;
      (split; [reflexivity|repeat constructor; assumption]).
  - destruct (status resp =? 302); injection H as _ <-;
      (split; [reflexivity|repeat constructor; assumption]).
Qed.

(** The transport selection when the scheme is not a TLS scheme and the
    probe finds no TLS port. *)
Lemma select_transport_plaintext (w w1 : world) (https_port : option Z) :
  String.eqb (urlparse_scheme py (_ctrl_host (self w))) "linstor+ssl"
    || String.eqb (urlparse_scheme py (_ctrl_host (self w))) "https" = false ->
  has_linstor_https py net (urlparse_hostname py (_ctrl_host (self w)))
    (if truthy_int (urlparse_port py (_ctrl_host (self w)))
     then default 0 (urlparse_port py (_ctrl_host (self w))) else REST_PORT) w
    = (Ok https_port, w1) ->
  truthy_int https_port = false ->
  select_transport py net w =
    if truthy_str (_username (self w)) && negb (_allow_insecure (self w)) then
      (Raise (LinstorNetworkError
                "Password authentication with HTTP not allowed, until explicitly enabled." []),
       w1)
    else
      (Ok tt,
       {| self := set_rest_conn
                    (Some {| is_HTTPSConnection := false;
                             host := urlparse_hostname py (_ctrl_host (self w));
                             port := if truthy_int (urlparse_port py (_ctrl_host (self w)))
                                     then default 0 (urlparse_port py (_ctrl_host (self w)))
                                     else REST_PORT;
                             timeout := _timeout (self w) |})
                    (self w);
          history := history w1 |}).
Proof.
  intros Hscheme Hprobe Hport.
  pose proof (has_linstor_https_keeps_self _ _ _ _ _ _ _ Hprobe) as Hself.
  unfold select_transport.
  erewrite bind_ok by (unfold get_self; reflexivity).
  rewrite Hscheme.
  erewrite bind_ok.
  2:{ erewrite bind_ok by exact Hprobe. rewrite Hport. reflexivity. }
  erewrite bind_ok by (unfold get_self; reflexivity).
  cbn [fst snd]. rewrite Hself.
  destruct (truthy_str (_username (self w)) && negb (_allow_insecure (self w)));
    [reflexivity|].
  unfold modify_self. cbv beta. rewrite Hself. reflexivity.
Qed.

(** The handshake once the connection is open and the version reply is
    in: the version test decides. *)
Lemma handshake_after_version_reply (rr : rest_request_t) (w0 w2 : world)
    (c : HTTPConnection) (v : RESTMessageResponse) (ver : string) :
  _rest_conn (self w0) = Some c ->
  connect_raises net (call_connect c :: history w0) = None ->
  controller_version apiconsts rr (log (call_connect c) w0) = (Ok v, w2) ->
  rest_api_version v = Ok ver ->
  let w2' := {| self := set_ctrl_version (Some v) (self w2); history := history w2 |} in
  handshake apiconsts net rest_api_version rr w0 =
    match version_unsupported ver with
    | Ok true =>
        match _rest_conn (self w2) with
        | Some c2 =>
            (Raise (LinstorApiCallError
                      ("Client doesn't support Controller rest api version: " +:+ ver +:+
                       "; Minimal version needed: " +:+ API_VERSION_MIN)),
             log (call_close c2) w2')
        | None => (Raise AttributeError, w2')
        end
    | Ok false =>
        (Ok tt, {| self := set_connected true (self w2'); history := history w2' |})
    | Raise e => (Raise e, w2')
    | Diverge => (Diverge, w2')
    end.
Proof.
  intros Hc Hconn Hv Hver w2'. unfold handshake.
  erewrite bind_ok by (apply the_rest_conn_some; exact Hc).
  erewrite bind_ok by (unfold conn_connect; simpl; rewrite Hconn; reflexivity).
  erewrite bind_ok by exact Hv.
  erewrite bind_ok by (unfold modify_self; reflexivity). fold w2'.
  assert (Hcv : ctrl_rest_api_version rest_api_version w2' = (Ok ver, w2')).
  { unfold ctrl_rest_api_version, mbind, M_bind, get_self, lift. simpl.
    rewrite Hver. reflexivity. }
  erewrite bind_ok by exact Hcv.
  destruct (version_unsupported ver) as [[|]|e|] eqn:E.
  - erewrite bind_ok by (unfold lift; reflexivity).
    destruct (_rest_conn (self w2)) as [c2|] eqn:Ec2.
    + erewrite bind_ok by (apply the_rest_conn_some; simpl; exact Ec2).
      erewrite bind_ok by (unfold conn_close; reflexivity).
      erewrite bind_ok.
      2:{ unfold ctrl_rest_api_version, mbind, M_bind, get_self, lift. simpl.
          rewrite Hver. reflexivity. }
      reflexivity.
    + erewrite bind_raise by (apply the_rest_conn_none; simpl; exact Ec2). reflexivity.
  - erewrite bind_ok by (unfold lift; reflexivity). reflexivity.
  - erewrite bind_raise by (unfold lift; reflexivity). reflexivity.
  - erewrite bind_diverge by (unfold lift; reflexivity). reflexivity.
Qed.

(** [connect] when the handshake raises an exception that is not a
    socket error. *)
Lemma Linstor_connect_handshake_raises (rr : rest_request_t) (w w0 w3 : world) (e : exn) :
  _mode_curl (self w) = false ->
  select_transport py net w = (Ok tt, w0) ->
  handshake apiconsts net rest_api_version rr w0 = (Raise e, w3) ->
  is_socket_error e = false ->
  Linstor_connect apiconsts py net rest_api_version rr w = (Raise e, w3).
Proof.
  intros Hcurl Hsel Hh He. rewrite (Linstor_connect_not_curl rr w Hcurl).
  erewrite bind_ok by exact Hsel.
  erewrite bind_raise; [reflexivity|].
  erewrite try_except_raise by exact Hh. rewrite He. reflexivity.
Qed.

End ConnectFacts.

Lemma controller_version_keeps_self (apiconsts : sharedconsts) (py : pylib) (net : network)
    (rest_api_version : RESTMessageResponse -> outcome string) (fuel : nat)
    (w w' : world) (r : outcome RESTMessageResponse) :
  _keep_alive (self w) = false ->
  controller_version apiconsts (_rest_request apiconsts py net rest_api_version fuel) w
    = (r, w') ->
  self w' = self w.
Proof.
  intros Hk H. unfold controller_version, mbind, M_bind in H.
  destruct (_rest_request _ _ _ _ _ _ _ _ _ _ w) as [[l|e|] w1] eqn:E;
    assert (Hs : self w1 = self w)
      by (eapply rest_request_without_reconnect_keeps_self; [|exact E];
          rewrite Hk; reflexivity).
  - destruct l; injection H as _ <-; exact Hs.
  - injection H as _ <-; exact Hs.
  - injection H as _ <-; exact Hs.
Qed.

Lemma lower_version_unsupported (ver : string) :
  StrictVersion.gt API_VERSION_MIN ver = Ok true -> version_unsupported ver = Ok true.
Proof.
  intros H. unfold version_unsupported.
  destruct (negb (startswith ver "1")); [reflexivity|exact H].
Qed.

Lemma other_leading_digit_unsupported (ver : string) :
  String.get 0 ver <> String.get 0 API_VERSION_MIN -> version_unsupported ver = Ok true.
Proof.
  intros H. unfold version_unsupported, startswith.
  destruct ver as [|c ver]; [reflexivity|].
  simpl in H.
  assert (E : String.prefix "1" (String c ver) = false).
  { cbn [String.prefix]. destruct (ascii_dec "1"%char c) as [<-|Hne]; [congruence|reflexivity]. }
  rewrite E. reflexivity.
Qed.

(** C3, as amended: when the controller advertises a version lower than
    the minimum the client supports, [connect] raises the
    version-incompatibility error ([LinstorApiCallError]) after calling
    [close()] on the transport the client holds, and does not assign the
    connected flag, which keeps the value it had when the version reply
    came in.  With keep-alive off that transport is the one this call
    opened and the flag is the one from before the call: False for a
    client that was not connected. *)
Theorem lower_version_is_refused_and_transport_closed :
  forall (apiconsts : sharedconsts) (py : pylib) (net : network)
         (rest_api_version : RESTMessageResponse -> outcome string)
         (fuel : nat) (w w0 w2 : world) (c c2 : HTTPConnection)
         (v : RESTMessageResponse) (ver : string),
    _mode_curl (self w) = false ->
    select_transport py net w = (Ok tt, w0) ->
    _rest_conn (self w0) = Some c ->
    connect_raises net (call_connect c :: history w0) = None ->
    controller_version apiconsts (_rest_request apiconsts py net rest_api_version fuel)
                       (log (call_connect c) w0) = (Ok v, w2) ->
    rest_api_version v = Ok ver ->
    StrictVersion.gt API_VERSION_MIN ver = Ok true ->
    _rest_conn (self w2) = Some c2 ->
    let w3 := log (call_close c2)
                {| self := set_ctrl_version (Some v) (self w2); history := history w2 |} in
    Linstor_connect apiconsts py net rest_api_version
                    (_rest_request apiconsts py net rest_api_version fuel) w =
      (Raise (LinstorApiCallError
                ("Client doesn't support Controller rest api version: " +:+ ver +:+
                 "; Minimal version needed: " +:+ API_VERSION_MIN)), w3) /\
    _connected (self w3) = _connected (self w2) /\
    (_keep_alive (self w) = false ->
     c2 = c /\ _connected (self w3) = _connected (self w)).
Proof.
  intros apiconsts py net rav fuel w w0 w2 c c2 v ver
         Hcurl Hsel Hc Hconn Hv Hver Hlow Hc2 w3.
  split; [|split].
  - apply (Linstor_connect_handshake_raises apiconsts py net rav _ w w0 w3 _ Hcurl Hsel);
      [|reflexivity].
    rewrite (handshake_after_version_reply apiconsts net rav _ w0 w2 c v ver Hc Hconn Hv Hver).
    rewrite (lower_version_unsupported ver Hlow), Hc2. reflexivity.
  - reflexivity.
  - intros Hk.
    destruct (select_transport_keeps_flags py net w w0 _ Hsel) as [Hconn0 Hk0].
    assert (Hself : self w2 = self w0).
    { apply (controller_version_keeps_self apiconsts py net rav fuel
               (log (call_connect c) w0) w2 (Ok v)); [|exact Hv].
      simpl. rewrite Hk0. exact Hk. }
    split.
    + rewrite Hself, Hc in Hc2. congruence.
    + simpl. rewrite Hself. exact Hconn0.
Qed.

(** C4: when the version string the controller advertises does not begin
    with the digit the client's own version begins with, [connect] raises
    the version-incompatibility error and closes the transport; the
    comparison with the minimum version plays no part. *)
Theorem other_major_version_is_refused :
  forall (apiconsts : sharedconsts) (py : pylib) (net : network)
         (rest_api_version : RESTMessageResponse -> outcome string)
         (fuel : nat) (w w0 w2 : world) (c c2 : HTTPConnection)
         (v : RESTMessageResponse) (ver : string),
    _mode_curl (self w) = false ->
    select_transport py net w = (Ok tt, w0) ->
    _rest_conn (self w0) = Some c ->
    connect_raises net (call_connect c :: history w0) = None ->
    controller_version apiconsts (_rest_request apiconsts py net rest_api_version fuel)
                       (log (call_connect c) w0) = (Ok v, w2) ->
    rest_api_version v = Ok ver ->
    String.get 0 ver <> String.get 0 API_VERSION_MIN ->
    _rest_conn (self w2) = Some c2 ->
    Linstor_connect apiconsts py net rest_api_version
                    (_rest_request apiconsts py net rest_api_version fuel) w =
      (Raise (LinstorApiCallError
                ("Client doesn't support Controller rest api version: " +:+ ver +:+
                 "; Minimal version needed: " +:+ API_VERSION_MIN)),
       log (call_close c2)
           {| self := set_ctrl_version (Some v) (self w2); history := history w2 |}).
Proof.
  intros apiconsts py net rav fuel w w0 w2 c c2 v ver
         Hcurl Hsel Hc Hconn Hv Hver Hdigit Hc2.
  apply (Linstor_connect_handshake_raises apiconsts py net rav _ w w0 _ _ Hcurl Hsel);
    [|reflexivity].
  rewrite (handshake_after_version_reply apiconsts net rav _ w0 w2 c v ver Hc Hconn Hv Hver).
  rewrite (other_leading_digit_unsupported ver Hdigit), Hc2. reflexivity.
Qed.

(** C5, as amended: when a username is set, insecure mode is not allowed,
    the scheme of the URI is not a TLS scheme and the probe of the
    plaintext port finds no TLS port, [connect] raises a
    [LinstorNetworkError] without constructing or opening the client's
    transport: the object is as it was, and the only calls made are those
    of the probe, on the probe's own connection and without any header,
    hence without the credentials. *)
Theorem plaintext_credentials_are_refused_after_the_probe :
  forall (apiconsts : sharedconsts) (py : pylib) (net : network)
         (rest_api_version : RESTMessageResponse -> outcome string)
         (rr : rest_request_t) (w w1 : world) (https_port : option Z),
    _mode_curl (self w) = false ->
    truthy_str (_username (self w)) = true ->
    _allow_insecure (self w) = false ->
    String.eqb (urlparse_scheme py (_ctrl_host (self w))) "linstor+ssl"
      || String.eqb (urlparse_scheme py (_ctrl_host (self w))) "https" = false ->
    has_linstor_https py net (urlparse_hostname py (_ctrl_host (self w)))
      (if truthy_int (urlparse_port py (_ctrl_host (self w)))
       then default 0 (urlparse_port py (_ctrl_host (self w))) else REST_PORT) w
      = (Ok https_port, w1) ->
    truthy_int https_port = false ->
    Linstor_connect apiconsts py net rest_api_version rr w =
      (Raise (LinstorNetworkError
                "Password authentication with HTTP not allowed, until explicitly enabled." []),
       w1) /\
    self w1 = self w /\
    exists calls,
      history w1 = (calls ++ history w)%list /\
      Forall (probe_call
                {| is_HTTPSConnection := false;
                   host := urlparse_hostname py (_ctrl_host (self w));
                   port := if truthy_int (urlparse_port py (_ctrl_host (self w)))
                           then default 0 (urlparse_port py (_ctrl_host (self w)))
                           else REST_PORT;
                   timeout := 3 |}) calls.
Proof.
  intros apiconsts py net rav rr w w1 https_port Hcurl Huser Hins Hscheme Hprobe Hport.
  split; [|split].
  - rewrite (Linstor_connect_not_curl apiconsts py net rav rr w Hcurl).
    erewrite bind_raise; [reflexivity|].
    rewrite (select_transport_plaintext py net w w1 https_port Hscheme Hprobe Hport).
    rewrite Huser, Hins. reflexivity.
  - exact (has_linstor_https_keeps_self _ _ _ _ _ _ _ Hprobe).
  - exact (has_linstor_https_calls py net _ _ _ _ _ Hprobe).
Qed.

Lemma lower_version_is_refused_and_transport_closed_witness :
  let net := Sample.scripted (Sample.connect_script "{'rest_api_version': '1.0.3'}") in
  let rr := _rest_request Sample.apiconsts Sample.py net Sample.rest_api_version 1 in
  let w := Sample.start (Sample.client class_Linstor ["linstor://alpha"] false None) in
  let w0 := snd (select_transport Sample.py net w) in
  let w2 := snd (controller_version Sample.apiconsts rr
                   (log (call_connect (Sample.plain "alpha")) w0)) in
  let v := new ControllerVersion (JDict [("rest_api_version", JStr "1.0.3")]) in
  let w3 := log (call_close (Sample.plain "alpha"))
              {| self := set_ctrl_version (Some v) (self w2); history := history w2 |} in
  Linstor_connect Sample.apiconsts Sample.py net Sample.rest_api_version rr w =
    (Raise (LinstorApiCallError
              ("Client doesn't support Controller rest api version: " +:+ "1.0.3" +:+
               "; Minimal version needed: " +:+ API_VERSION_MIN)), w3) /\
  _connected (self w3) = _connected (self w2) /\
  (_keep_alive (self w) = false ->
   Sample.plain "alpha" = Sample.plain "alpha" /\ _connected (self w3) = _connected (self w)).
Proof.
  intros net rr w w0 w2 v w3.
  apply (lower_version_is_refused_and_transport_closed Sample.apiconsts Sample.py net
           Sample.rest_api_version 1 w w0 w2 (Sample.plain "alpha") (Sample.plain "alpha")
           v "1.0.3");
    vm_compute; reflexivity.
Defined.

(** C3, as stated, fails: a client that is connected and connects again
    to a controller that now advertises 1.0.3 gets the
    version-incompatibility error, its transport is closed, and its
    connected flag is still True. *)
Lemma refused_reconnect_leaves_connected_flag_set :
  let run := connect Sample.apiconsts Sample.py
               (Sample.scripted (Sample.connect_script "{'rest_api_version': '1.0.3'}"))
               Sample.rest_api_version 1
               (Sample.start (Sample.connected_client false)) in
  fst run = Raise (LinstorApiCallError
                     "Client doesn't support Controller rest api version: 1.0.3; Minimal version needed: 1.0.4") /\
  hd_error (history (snd run)) = Some (call_close (Sample.plain "alpha")) /\
  _connected (self (snd run)) = true /\
  _connected (self (snd run)) <> false.
Proof.
  intros run.
  assert (E : _connected (self (snd run)) = true) by (vm_compute; reflexivity).
  repeat split; try (vm_compute; reflexivity).
  rewrite E. discriminate.
Qed.

Lemma other_major_version_is_refused_witness :
  let net := Sample.scripted (Sample.connect_script "{'rest_api_version': '2.0.0'}") in
  let rr := _rest_request Sample.apiconsts Sample.py net Sample.rest_api_version 1 in
  let w := Sample.start (Sample.client class_Linstor ["linstor://alpha"] false None) in
  let w0 := snd (select_transport Sample.py net w) in
  let w2 := snd (controller_version Sample.apiconsts rr
                   (log (call_connect (Sample.plain "alpha")) w0)) in
  let v := new ControllerVersion (JDict [("rest_api_version", JStr "2.0.0")]) in
  StrictVersion.gt API_VERSION_MIN "2.0.0" = Ok false /\
  Linstor_connect Sample.apiconsts Sample.py net Sample.rest_api_version rr w =
    (Raise (LinstorApiCallError
              ("Client doesn't support Controller rest api version: " +:+ "2.0.0" +:+
               "; Minimal version needed: " +:+ API_VERSION_MIN)),
     log (call_close (Sample.plain "alpha"))
         {| self := set_ctrl_version (Some v) (self w2); history := history w2 |}).
Proof.
  intros net rr w w0 w2 v.
  split; [vm_compute; reflexivity|].
  apply (other_major_version_is_refused Sample.apiconsts Sample.py net
           Sample.rest_api_version 1 w w0 w2 (Sample.plain "alpha") (Sample.plain "alpha")
           v "2.0.0");
    try (vm_compute; reflexivity).
  vm_compute. discriminate.
Defined.

Lemma plaintext_credentials_are_refused_after_the_probe_witness :
  let net := Sample.scripted (Sample.connect_script "{'rest_api_version': '1.0.7'}") in
  let rr := _rest_request Sample.apiconsts Sample.py net Sample.rest_api_version 1 in
  let w := Sample.start (Sample.client class_Linstor ["linstor://alpha"] false (Some "admin")) in
  let w1 := snd (has_linstor_https Sample.py net (Some "alpha") 3370 w) in
  Linstor_connect Sample.apiconsts Sample.py net Sample.rest_api_version rr w =
    (Raise (LinstorNetworkError
              "Password authentication with HTTP not allowed, until explicitly enabled." []),
     w1) /\
  self w1 = self w /\
  exists calls,
    history w1 = (calls ++ history w)%list /\
    Forall (probe_call (Sample.probe "alpha")) calls.
Proof.
  intros net rr w w1.
  apply (plaintext_credentials_are_refused_after_the_probe Sample.apiconsts Sample.py net
           Sample.rest_api_version rr w w1 (Some 0));
    vm_compute; reflexivity.
Defined.

(** C5, as stated, fails: before the rejection the probe has connected to
    the plaintext port and sent it a request. *)
Lemma probe_request_precedes_the_rejection :
  let run := connect Sample.apiconsts Sample.py
               (Sample.scripted (Sample.connect_script "{'rest_api_version': '1.0.7'}"))
               Sample.rest_api_version 1
               (Sample.start (Sample.client class_Linstor ["linstor://alpha"] false
                                            (Some "admin"))) in
  fst run = Raise (LinstorNetworkError
                     "Password authentication with HTTP not allowed, until explicitly enabled." []) /\
  rev (history (snd run)) =
    [call_connect (Sample.probe "alpha");
     call_request (Sample.probe "alpha") "GET" "/v1/controller/version" None [];
     call_getresponse (Sample.probe "alpha")] /\
  ~ (forall (c : HTTPConnection) (m u : string) (b : option string)
            (h : list (string * string)),
        ~ In (call_request c m u b h) (history (snd run))).
Proof.
  intros run.
  assert (E : rev (history (snd run)) =
              [call_connect (Sample.probe "alpha");
               call_request (Sample.probe "alpha") "GET" "/v1/controller/version" None [];
               call_getresponse (Sample.probe "alpha")]) by (vm_compute; reflexivity).
  split; [vm_compute; reflexivity|]. split; [exact E|].
  intros H. apply (H (Sample.probe "alpha") "GET" "/v1/controller/version" None []).
  apply in_rev. rewrite E. right. left. reflexivity.
Qed.

(** ** The failover wrapper *)

Section Ensures.

Variable Q : Linstor -> Prop.

Lemma ensures_raise {A} (e : exn) : ensures Q (@raise A e).
Proof. intros w a w' H. discriminate. Qed.

Lemma ensures_bind {A B} (m : M A) (k : A -> M B) :
  (forall a, ensures Q (k a)) -> ensures Q (m ≫= k).
Proof.
  intros Hk w b w' H. unfold mbind, M_bind in H.
  destruct (m w) as [[a|e|] w1]; try discriminate. exact (Hk a _ _ _ H).
Qed.

Lemma ensures_then_ret {A B} (m : M A) (b : B) :
  ensures Q m -> ensures Q (m;; mret b).
Proof.
  intros Hm w b' w' H. unfold mbind, M_bind, mret, M_ret in H.
  destruct (m w) as [[a|e|] w1] eqn:E; try discriminate.
  injection H as _ <-. exact (Hm _ _ _ E).
Qed.

Lemma ensures_try_except {A} (m : M A) (h : exn -> M A) :
  ensures Q m -> (forall e, ensures Q (h e)) -> ensures Q (try_except m h).
Proof.
  intros Hm Hh w a w' H. unfold try_except in H.
  destruct (m w) as [[a'|e|] w1] eqn:E; try discriminate.
  - injection H as <- <-. exact (Hm _ _ _ E).
  - exact (Hh e _ _ _ H).
Qed.

Lemma ensures_modify_self (f : Linstor -> Linstor) :
  (forall s, Q (f s)) -> ensures Q (modify_self f).
Proof. intros Hf w a w' H. injection H as _ <-. apply Hf. Qed.

End Ensures.

(** [connect] returns only [True], and only with the connected flag set. *)
Lemma Linstor_connect_returns_connected (apiconsts : sharedconsts) (py : pylib)
    (net : network) (rest_api_version : RESTMessageResponse -> outcome string)
    (rr : rest_request_t) (w w' : world) (v : option bool) :
  Linstor_connect apiconsts py net rest_api_version rr w = (Ok v, w') ->
  v = Some true /\ _connected (self w') = true.
Proof.
  intros H. split.
  - unfold Linstor_connect, mbind, M_bind, mret, M_ret, get_self in H.
    destruct (_mode_curl (self w)).
    + unfold modify_self in H. injection H as <- _. reflexivity.
    + destruct (select_transport py net w) as [[[]|e|] w1]; try discriminate.
      destruct (try_except _ _ w1) as [[[]|e|] w2]; try discriminate.
      injection H as <- _. reflexivity.
  - assert (E : ensures (fun s => _connected s = true)
                       (Linstor_connect apiconsts py net rest_api_version rr)).
    { unfold Linstor_connect. apply ensures_bind. intros s.
      destruct (_mode_curl s).
      - apply ensures_then_ret, ensures_modify_self. reflexivity.
      - apply ensures_bind. intros _. apply ensures_then_ret.
        apply ensures_try_except.
        + unfold handshake. do 6 (apply ensures_bind; intros ?).
          match goal with |- ensures _ (if ?b then _ else _) => destruct b end.
          * repeat (apply ensures_bind; intros ?). apply ensures_raise.
          * apply ensures_modify_self. reflexivity.
        + intros e. destruct (is_socket_error e).
          * apply ensures_bind. intros ?. apply ensures_raise.
          * apply ensures_raise. }
    exact (E _ _ _ H).
Qed.

Section FailoverFacts.

Variable super_connect : M (option bool).

Lemma all_refused_length (hosts : list string) (w w' : world) (errs : list exn) :
  all_refused super_connect hosts w errs w' -> length errs = length hosts.
Proof. induction 1; simpl; congruence. Qed.

Lemma all_refused_settings (hosts : list string) (w w' : world) (errs : list exn) :
  (forall w r w', super_connect w = (r, w') -> same_settings (self w) (self w')) ->
  all_refused super_connect hosts w errs w' -> same_settings (self w) (self w').
Proof.
  intros Hs. induction 1 as [w|h hosts w w1 w2 msg causes errs H1 _ IH].
  - apply same_settings_refl.
  - apply (same_settings_trans _ (self w1)); [|exact IH].
    apply (same_settings_trans _ (self (with_ctrl_host h w))).
    + unfold same_settings. simpl. tauto.
    + exact (Hs _ _ _ H1).
Qed.

Lemma loop_step_refused (h : string) (hosts : list string) (acc : list exn)
    (w w1 : world) (e : exn) :
  super_connect (with_ctrl_host h w) = (Raise e, w1) ->
  is_LinstorNetworkError e = true ->
  MultiLinstor_connect_loop super_connect (h :: hosts) acc w =
  MultiLinstor_connect_loop super_connect hosts (acc ++ [e])%list w1.
Proof.
  intros H He. cbn [MultiLinstor_connect_loop].
  erewrite bind_ok by (unfold modify_self; reflexivity). fold (with_ctrl_host h w).
  erewrite bind_ok.
  2:{ erewrite try_except_raise by (erewrite bind_raise by exact H; reflexivity).
      rewrite He. reflexivity. }
  reflexivity.
Qed.

Lemma loop_step_returns (h : string) (hosts : list string) (acc : list exn)
    (w w1 : world) (v : option bool) :
  super_connect (with_ctrl_host h w) = (Ok v, w1) ->
  MultiLinstor_connect_loop super_connect (h :: hosts) acc w = (Ok (Returned v acc), w1).
Proof.
  intros H. cbn [MultiLinstor_connect_loop].
  erewrite bind_ok by (unfold modify_self; reflexivity). fold (with_ctrl_host h w).
  erewrite bind_ok.
  2:{ erewrite try_except_ok by (erewrite bind_ok by exact H; reflexivity).
      reflexivity. }
  reflexivity.
Qed.

Lemma loop_step_raises (h : string) (hosts : list string) (acc : list exn)
    (w w1 : world) (e : exn) :
  super_connect (with_ctrl_host h w) = (Raise e, w1) ->
  is_LinstorNetworkError e = false ->
  MultiLinstor_connect_loop super_connect (h :: hosts) acc w = (Raise e, w1).
Proof.
  intros H He. cbn [MultiLinstor_connect_loop].
  erewrite bind_ok by (unfold modify_self; reflexivity). fold (with_ctrl_host h w).
  erewrite bind_raise.
  2:{ erewrite try_except_raise by (erewrite bind_raise by exact H; reflexivity).
      rewrite He. reflexivity. }
  reflexivity.
Qed.

(** The loop passes over endpoints that end in a network error, adding
    each error to [conn_errors]. *)
Lemma loop_skips_refused (pre : list string) (w w1 : world) (errs : list exn) :
  all_refused super_connect pre w errs w1 ->
  forall (rest : list string) (acc : list exn),
    MultiLinstor_connect_loop super_connect (pre ++ rest) acc w =
    MultiLinstor_connect_loop super_connect rest (acc ++ errs)%list w1.
Proof.
  induction 1 as [w|h hosts w w1 w2 msg causes errs H1 _ IH]; intros rest acc.
  - rewrite app_nil_r. reflexivity.
  - change ((h :: hosts) ++ rest)%list with (h :: (hosts ++ rest))%list.
    rewrite (loop_step_refused h _ acc w w1 _ H1 eq_refl).
    rewrite IH. rewrite <- app_assoc. reflexivity.
Qed.

End FailoverFacts.

Section FailoverOnClient.

Variable apiconsts : sharedconsts.
Variable py : pylib.
Variable net : network.
Variable rest_api_version : RESTMessageResponse -> outcome string.
Variable fuel : nat.

Notation dispatch := (_rest_request apiconsts py net rest_api_version fuel).
Notation super_connect := (Linstor_connect apiconsts py net rest_api_version dispatch).

Lemma super_connect_keeps_settings (w w' : world) (r : outcome (option bool)) :
  super_connect w = (r, w') -> same_settings (self w) (self w').
Proof.
  apply (preserves_Linstor_connect apiconsts py net rest_api_version same_settings
           same_settings_refl same_settings_trans);
    try (intros; unfold same_settings; simpl; tauto).
  intros a m p b rc w0 r0 w0'. apply rest_request_keeps_settings.
Qed.

(** With keep-alive off, [Linstor.connect] leaves [_ctrl_host] alone. *)
Lemma super_connect_keeps_host (w w' : world) (r : outcome (option bool)) :
  _keep_alive (self w) = false ->
  super_connect w = (r, w') -> _ctrl_host (self w') = _ctrl_host (self w).
Proof.
  intros Hk H.
  pose (R := fun s s' : Linstor =>
               _keep_alive s = false ->
               _keep_alive s' = false /\ _ctrl_host s' = _ctrl_host s).
  assert (HR : R (self w) (self w')).
  { revert H.
    apply (preserves_Linstor_connect apiconsts py net rest_api_version R).
    - intros s Hs. split; [exact Hs|reflexivity].
    - intros a b c Hab Hbc Ha. destruct (Hab Ha) as [Hb Eb].
      destruct (Hbc Hb) as [Hc Ec]. split; [exact Hc|congruence].
    - intros v s Hs. split; [exact Hs|reflexivity].
    - intros v s Hs. split; [exact Hs|reflexivity].
    - intros v s Hs. split; [exact Hs|reflexivity].
    - intros a m p b rc w0 r0 w0' H0 Hs.
      rewrite (rest_request_without_reconnect_keeps_self apiconsts py net rest_api_version
                 fuel a m p b rc w0 w0' r0); [split; [exact Hs|reflexivity]| |exact H0].
      rewrite Hs. reflexivity. }
  exact (proj2 (HR Hk)).
Qed.

End FailoverOnClient.

(** C6, as amended: [MultiLinstor.connect] tries the endpoints in the
    order of the list.  When the endpoints before [h] each end in a
    network error and [Linstor.connect] returns for [h], the loop stops
    there with one collected error per endpoint before [h], in order,
    the later endpoints are not tried, and the client is connected; with
    keep-alive off the endpoint it is left on is [h].  When every endpoint
    of the list ends in a network error, one [LinstorNetworkError] is
    raised that carries all these errors, one per endpoint, in order. *)
Theorem failover_stops_at_first_endpoint_that_connects :
  forall (apiconsts : sharedconsts) (py : pylib) (net : network)
         (rest_api_version : RESTMessageResponse -> outcome string)
         (fuel : nat) (w : world) (hosts : list string),
    _ctrl_host_list (self w) = hosts ->
    let rr := _rest_request apiconsts py net rest_api_version fuel in
    let super_connect := Linstor_connect apiconsts py net rest_api_version rr in
    (forall (pre post : list string) (h : string) (errs : list exn)
            (w1 w2 : world) (v : option bool),
        hosts = (pre ++ h :: post)%list ->
        all_refused super_connect pre w errs w1 ->
        super_connect (with_ctrl_host h w1) = (Ok v, w2) ->
        MultiLinstor_connect_loop super_connect hosts [] w
          = (Ok (Returned (Some true) errs), w2) /\
        MultiLinstor_connect apiconsts py net rest_api_version rr w = (Ok (Some true), w2) /\
        length errs = length pre /\
        _connected (self w2) = true /\
        (_keep_alive (self w) = false -> _ctrl_host (self w2) = h)) /\
    (forall (errs : list exn) (w1 : world),
        all_refused super_connect hosts w errs w1 ->
        MultiLinstor_connect apiconsts py net rest_api_version rr w =
          (Raise (LinstorNetworkError
                    "Unable to connect to any of the given controller hosts." errs), w1) /\
        length errs = length hosts).
Proof.
  intros apiconsts py net rav fuel w hosts Hhosts rr super_connect. split.
  - intros pre post h errs w1 w2 v -> Hpre Hh.
    destruct (Linstor_connect_returns_connected _ _ _ _ _ _ _ _ Hh) as [-> Hconn].
    assert (Hloop : MultiLinstor_connect_loop super_connect (pre ++ h :: post) [] w
                    = (Ok (Returned (Some true) errs), w2)).
    { rewrite (loop_skips_refused super_connect pre w w1 errs Hpre).
      exact (loop_step_returns super_connect h post _ w1 w2 _ Hh). }
    split; [exact Hloop|]. split; [|split; [|split]].
    + unfold MultiLinstor_connect.
      erewrite bind_ok by (unfold get_self; reflexivity). rewrite Hhosts.
      erewrite bind_ok by exact Hloop. reflexivity.
    + exact (all_refused_length _ _ _ _ _ Hpre).
    + exact Hconn.
    + intros Hk.
      assert (Hs : same_settings (self w) (self w1)).
      { apply (all_refused_settings super_connect pre w w1 errs); [|exact Hpre].
        intros w0 r0 w0'. apply super_connect_keeps_settings. }
      destruct Hs as (_ & _ & Hk1 & _).
      assert (Hkh : _keep_alive (self (with_ctrl_host h w1)) = false)
        by (unfold with_ctrl_host; simpl; congruence).
      rewrite (super_connect_keeps_host apiconsts py net rav fuel _ _ _ Hkh Hh).
      reflexivity.
  - intros errs w1 Hall.
    pose proof (all_refused_length _ _ _ _ _ Hall) as Hlen.
    split; [|exact Hlen].
    assert (Hs : same_settings (self w) (self w1)).
    { apply (all_refused_settings super_connect hosts w w1 errs); [|exact Hall].
      intros w0 r0 w0'. apply super_connect_keeps_settings. }
    destruct Hs as (_ & _ & _ & _ & _ & _ & _ & Hl).
    unfold MultiLinstor_connect.
    erewrite bind_ok by (unfold get_self; reflexivity). rewrite Hhosts.
    erewrite bind_ok.
    2:{ pose proof (loop_skips_refused super_connect hosts w w1 errs Hall [] []) as E.
        rewrite app_nil_r in E. exact E. }
    cbv iota beta.
    erewrite bind_ok by (unfold get_self; reflexivity).
    rewrite Hl, Hhosts. change ([] ++ errs)%list with errs.
    rewrite Hlen, Nat.eqb_refl. reflexivity.
Qed.

Lemma failover_stops_at_first_endpoint_that_connects_witness :
  let hosts := ["linstor://alpha"; "linstor://beta"] in
  let o := Sample.client class_MultiLinstor hosts false None in
  let w := Sample.start o in
  let refusal := LinstorNetworkError "Unable to connect to linstor://alpha: Connection refused" [] in
  (* alpha refuses, beta accepts *)
  let net := Sample.scripted (Sample.refusal_script
                              ++ Sample.connect_script "{'rest_api_version': '1.0.7'}")%list in
  let rr := _rest_request Sample.apiconsts Sample.py net Sample.rest_api_version 1 in
  let super_connect := Linstor_connect Sample.apiconsts Sample.py net Sample.rest_api_version rr in
  let w1 := snd (super_connect (with_ctrl_host "linstor://alpha" w)) in
  let w2 := snd (super_connect (with_ctrl_host "linstor://beta" w1)) in
  (* both refuse *)
  let net' := Sample.scripted (Sample.refusal_script ++ Sample.refusal_script)%list in
  let rr' := _rest_request Sample.apiconsts Sample.py net' Sample.rest_api_version 1 in
  let super_connect' :=
    Linstor_connect Sample.apiconsts Sample.py net' Sample.rest_api_version rr' in
  let v1 := snd (super_connect' (with_ctrl_host "linstor://alpha" w)) in
  let v2 := snd (super_connect' (with_ctrl_host "linstor://beta" v1)) in
  (MultiLinstor_connect_loop super_connect hosts [] w
     = (Ok (Returned (Some true) [refusal]), w2) /\
   MultiLinstor_connect Sample.apiconsts Sample.py net Sample.rest_api_version rr w
     = (Ok (Some true), w2) /\
   length [refusal] = length ["linstor://alpha"] /\
   _connected (self w2) = true /\
   (_keep_alive (self w) = false -> _ctrl_host (self w2) = "linstor://beta")) /\
  (MultiLinstor_connect Sample.apiconsts Sample.py net' Sample.rest_api_version rr' w =
     (Raise (LinstorNetworkError
               "Unable to connect to any of the given controller hosts."
               [refusal;
                LinstorNetworkError
                  "Unable to connect to linstor://beta: Connection refused" []]), v2) /\
   length [refusal;
           LinstorNetworkError "Unable to connect to linstor://beta: Connection refused" []]
     = length hosts).
Proof.
  intros hosts o w refusal net rr super_connect w1 w2 net' rr' super_connect' v1 v2.
  split.
  - apply (proj1 (failover_stops_at_first_endpoint_that_connects Sample.apiconsts Sample.py
                    net Sample.rest_api_version 1 w hosts eq_refl)
                 ["linstor://alpha"] [] "linstor://beta" [refusal] w1 w2 (Some true)).
    + reflexivity.
    + apply (refused_cons super_connect "linstor://alpha" [] w w1 w1
               "Unable to connect to linstor://alpha: Connection refused" [] []);
        [vm_compute; reflexivity|apply refused_nil].
    + vm_compute. reflexivity.
  - apply (proj2 (failover_stops_at_first_endpoint_that_connects Sample.apiconsts Sample.py
                    net' Sample.rest_api_version 1 w hosts eq_refl)).
    apply (refused_cons super_connect' "linstor://alpha" ["linstor://beta"] w v1 v2
             "Unable to connect to linstor://alpha: Connection refused" []
             [LinstorNetworkError "Unable to connect to linstor://beta: Connection refused" []]);
      [vm_compute; reflexivity|].
    apply (refused_cons super_connect' "linstor://beta" [] v1 v2 v2
             "Unable to connect to linstor://beta: Connection refused" [] []);
      [vm_compute; reflexivity|apply refused_nil].
Defined.

(** C6, as stated, fails for a keep-alive client: the first endpoint of
    the list accepts the connection and resets it when asked for its
    version; the reconnect that follows is the failover itself, finds the
    first endpoint refusing and the second accepting, and the repeated
    version request is answered by the second.  The attempt for the first
    endpoint then returns: the loop stops at it with no error collected,
    and the client is connected to the second endpoint. *)
Lemma keep_alive_failover_ends_on_another_endpoint :
  let hosts := ["linstor://alpha"; "linstor://beta"] in
  let net := Sample.scripted Sample.reset_script in
  let rr := _rest_request Sample.apiconsts Sample.py net Sample.rest_api_version 3 in
  let super_connect := Linstor_connect Sample.apiconsts Sample.py net Sample.rest_api_version rr in
  let w := Sample.start (Sample.client class_MultiLinstor hosts true None) in
  let run := MultiLinstor_connect_loop super_connect hosts [] w in
  fst (super_connect (with_ctrl_host "linstor://alpha" w)) = Ok (Some true) /\
  fst run = Ok (Returned (Some true) []) /\
  _connected (self (snd run)) = true /\
  _ctrl_host (self (snd run)) = "linstor://beta" /\
  _rest_conn (self (snd run)) = Some (Sample.plain "beta") /\
  _ctrl_host (self (snd run)) <> "linstor://alpha".
Proof.
  intros hosts net rr super_connect w run.
  assert (E : _ctrl_host (self (snd run)) = "linstor://beta") by (vm_compute; reflexivity).
  repeat split; try (vm_compute; reflexivity).
  rewrite E. discriminate.
Qed.

(** C10, as amended: in the failover loop an attempt that ends in a
    [LinstorNetworkError] has its error added to the collected ones and
    the next endpoint is tried; an attempt that ends in any other
    exception ends [MultiLinstor.connect] with that exception, in the
    world the attempt left, the remaining endpoints untried.  The
    version-incompatibility error is of the second kind; the rejection of
    credentials over plaintext is a [LinstorNetworkError], of the first
    kind. *)
Theorem only_network_errors_are_collected :
  forall (apiconsts : sharedconsts) (py : pylib) (net : network)
         (rest_api_version : RESTMessageResponse -> outcome string)
         (fuel : nat) (w w1 w2 : world) (pre post : list string) (h : string)
         (errs : list exn) (e : exn),
    let rr := _rest_request apiconsts py net rest_api_version fuel in
    let super_connect := Linstor_connect apiconsts py net rest_api_version rr in
    _ctrl_host_list (self w) = (pre ++ h :: post)%list ->
    all_refused super_connect pre w errs w1 ->
    super_connect (with_ctrl_host h w1) = (Raise e, w2) ->
    (if is_LinstorNetworkError e then
       MultiLinstor_connect_loop super_connect (pre ++ h :: post) [] w =
       MultiLinstor_connect_loop super_connect post (errs ++ [e])%list w2
     else
       MultiLinstor_connect apiconsts py net rest_api_version rr w = (Raise e, w2)) /\
    (forall msg, is_LinstorNetworkError (LinstorApiCallError msg) = false) /\
    is_LinstorNetworkError
      (LinstorNetworkError
         "Password authentication with HTTP not allowed, until explicitly enabled." []) = true.
Proof.
  intros apiconsts py net rav fuel w w1 w2 pre post h errs e rr super_connect
         Hhosts Hpre Hh.
  split; [|split; [intros msg|]; reflexivity].
  destruct (is_LinstorNetworkError e) eqn:He.
  - rewrite (loop_skips_refused super_connect pre w w1 errs Hpre).
    exact (loop_step_refused super_connect h post _ w1 w2 e Hh He).
  - unfold MultiLinstor_connect.
    erewrite bind_ok by (unfold get_self; reflexivity). rewrite Hhosts.
    erewrite bind_raise; [reflexivity|].
    rewrite (loop_skips_refused super_connect pre w w1 errs Hpre).
    exact (loop_step_raises super_connect h post _ w1 w2 e Hh He).
Qed.

Lemma only_network_errors_are_collected_witness :
  let hosts := ["linstor://alpha"; "linstor://beta"; "linstor://gamma"] in
  let w := Sample.start (Sample.client class_MultiLinstor hosts false None) in
  let net := Sample.scripted (Sample.refusal_script
                              ++ Sample.connect_script "{'rest_api_version': '1.0.3'}")%list in
  let rr := _rest_request Sample.apiconsts Sample.py net Sample.rest_api_version 1 in
  let super_connect := Linstor_connect Sample.apiconsts Sample.py net Sample.rest_api_version rr in
  let w1 := snd (super_connect (with_ctrl_host "linstor://alpha" w)) in
  let w2 := snd (super_connect (with_ctrl_host "linstor://beta" w1)) in
  let e := LinstorApiCallError
             "Client doesn't support Controller rest api version: 1.0.3; Minimal version needed: 1.0.4" in
  (if is_LinstorNetworkError e then
     MultiLinstor_connect_loop super_connect (["linstor://alpha"] ++ "linstor://beta" :: ["linstor://gamma"]) [] w =
     MultiLinstor_connect_loop super_connect ["linstor://gamma"]
       ([LinstorNetworkError "Unable to connect to linstor://alpha: Connection refused" []] ++ [e])%list w2
   else
     MultiLinstor_connect Sample.apiconsts Sample.py net Sample.rest_api_version rr w
       = (Raise e, w2)) /\
  (forall msg, is_LinstorNetworkError (LinstorApiCallError msg) = false) /\
  is_LinstorNetworkError
    (LinstorNetworkError
       "Password authentication with HTTP not allowed, until explicitly enabled." []) = true.
Proof.
  intros hosts w net rr super_connect w1 w2 e.
  apply (only_network_errors_are_collected Sample.apiconsts Sample.py net
           Sample.rest_api_version 1 w w1 w2 ["linstor://alpha"] ["linstor://gamma"]
           "linstor://beta"
           [LinstorNetworkError "Unable to connect to linstor://alpha: Connection refused" []] e).
  - reflexivity.
  - apply (refused_cons super_connect "linstor://alpha" [] w w1 w1
             "Unable to connect to linstor://alpha: Connection refused" [] []);
      [vm_compute; reflexivity|apply refused_nil].
  - vm_compute. reflexivity.
Defined.

(** C10, as stated, fails in its example: the rejection of credentials
    over plaintext does not propagate.  It is a [LinstorNetworkError], so
    the loop collects it and goes on to the next endpoint, here a TLS
    endpoint to which the client then connects. *)
Lemma plaintext_rejection_does_not_end_the_failover :
  let hosts := ["linstor://alpha"; "linstor+ssl://beta"] in
  let net := Sample.scripted (Sample.connect_script "{'rest_api_version': '1.0.7'}") in
  let rr := _rest_request Sample.apiconsts Sample.py net Sample.rest_api_version 1 in
  let super_connect := Linstor_connect Sample.apiconsts Sample.py net Sample.rest_api_version rr in
  let w := Sample.start (Sample.client class_MultiLinstor hosts false (Some "admin")) in
  let rejection := LinstorNetworkError
                     "Password authentication with HTTP not allowed, until explicitly enabled." [] in
  let run := MultiLinstor_connect Sample.apiconsts Sample.py net Sample.rest_api_version rr w in
  fst (super_connect (with_ctrl_host "linstor://alpha" w)) = Raise rejection /\
  fst (MultiLinstor_connect_loop super_connect hosts [] w)
    = Ok (Returned (Some true) [rejection]) /\
  fst run = Ok (Some true) /\
  fst run <> Raise rejection /\
  _ctrl_host (self (snd run)) = "linstor+ssl://beta".
Proof.
  intros hosts net rr super_connect w rejection run.
  assert (E : fst run = Ok (Some true)) by (vm_compute; reflexivity).
  repeat split; try (vm_compute; reflexivity).
  rewrite E. discriminate.
Qed.

(** ** Reconnecting inside the reconnect *)

(** On an object of class [Linstor], [self.connect] is [Linstor.connect]. *)
Lemma connect_on_Linstor (apiconsts : sharedconsts) (py : pylib) (net : network)
    (rest_api_version : RESTMessageResponse -> outcome string) (fuel : nat) (w : world) :
  __class__ (self w) = class_Linstor ->
  connect apiconsts py net rest_api_version fuel w =
  Linstor_connect apiconsts py net rest_api_version
                  (_rest_request apiconsts py net rest_api_version fuel) w.
Proof.
  intros H. unfold connect, self_connect.
  erewrite bind_ok by (unfold get_self; reflexivity). rewrite H. reflexivity.
Qed.

(** [connect] asks for the version of the controller through
    [_rest_request] with its default [reconnect=True].  Against a peer
    that resets every connection when a response is read, a dispatched
    call of a keep-alive client therefore never ends: the reconnect of the
    first attempt fails at reading the version and reconnects in turn,
    and so on, at every depth. *)
Lemma reconnect_never_ends_when_every_read_is_reset
    (apiconsts : sharedconsts) (rest_api_version : RESTMessageResponse -> outcome string) :
  forall (fuel : nat) (apicall method path : string) (w : world),
    keep_alive_client (self w) ->
    fst (_rest_request apiconsts Sample.py Sample.resetting rest_api_version fuel
                       apicall method path None true w) = Diverge.
Proof.
  induction fuel as [|fuel IH]; intros apicall method path w Hw; [reflexivity|].
  destruct Hw as (Hcls & Hka & Hcurl & Huser & Hhost & c & Hc).
  set (w1 := log (call_request c method path None (_http_headers ++ [])%list) w).
  assert (Hsend : send_request Sample.py Sample.resetting method path None w = (Ok tt, w1)).
  { unfold send_request.
    erewrite try_except_ok; [reflexivity|].
    erewrite bind_ok by (unfold get_self; reflexivity). rewrite Huser.
    erewrite bind_ok by reflexivity.
    erewrite bind_ok by (apply the_rest_conn_some; exact Hc).
    reflexivity. }
  rewrite (rest_request_after_send apiconsts Sample.py Sample.resetting rest_api_version
             fuel apicall method path None true w w1 Hcurl Hsend).
  set (w2 := log (call_getresponse c) w1).
  assert (Hrecv : receive_response apiconsts Sample.py Sample.resetting apicall method path w1
                  = (Raise (socket_error "Connection reset by peer"), w2)).
  { unfold receive_response.
    erewrite bind_ok by (apply the_rest_conn_some; exact Hc).
    erewrite bind_raise by (apply conn_getresponse_raises; reflexivity).
    reflexivity. }
  rewrite Hrecv. change (_keep_alive (self w2)) with (_keep_alive (self w)).
  rewrite Hka. cbn [andb].
  (* the reconnect *)
  assert (Hconn : fst (connect apiconsts Sample.py Sample.resetting rest_api_version fuel w2)
                  = Diverge).
  { rewrite (connect_on_Linstor _ _ _ _ _ w2 Hcls).
    rewrite (Linstor_connect_not_curl _ _ _ _ _ w2 Hcurl).
    set (p := {| is_HTTPSConnection := false; host := Some "alpha";
                 port := 3370; timeout := 3 |}).
    set (w3 := log (call_getresponse p)
                 (log (call_request p "GET" "/v1/controller/version" None [])
                    (log (call_connect p) w2))).
    set (c' := {| is_HTTPSConnection := false; host := Some "alpha";
                  port := 3370; timeout := _timeout (self w) |}).
    set (w4 := {| self := set_rest_conn (Some c') (self w); history := history w3 |}).
    assert (Hsel : select_transport Sample.py Sample.resetting w2 = (Ok tt, w4)).
    { rewrite (select_transport_plaintext Sample.py Sample.resetting w2 w3 (Some 0)).
      - change (self w2) with (self w). rewrite Huser, Hhost. reflexivity.
      - change (self w2) with (self w). rewrite Hhost. reflexivity.
      - change (self w2) with (self w). rewrite Hhost. reflexivity.
      - reflexivity. }
    erewrite bind_ok by exact Hsel.
    set (w5 := log (call_connect c') w4).
    destruct (_rest_request apiconsts Sample.py Sample.resetting rest_api_version fuel
                (API_VERSION apiconsts) "GET" "/v1/controller/version" None true w5)
      as [r w6] eqn:Erun.
    assert (Hr : r = Diverge).
    { change r with (fst (r, w6)). rewrite <- Erun. apply IH.
      unfold keep_alive_client. simpl. repeat split; try assumption.
      exists c'. reflexivity. }
    subst r.
    assert (Hhs : handshake apiconsts Sample.resetting rest_api_version
                    (_rest_request apiconsts Sample.py Sample.resetting rest_api_version fuel)
                    w4 = (Diverge, w6)).
    { unfold handshake.
      erewrite bind_ok by (apply the_rest_conn_some; reflexivity).
      erewrite bind_ok by reflexivity.
      erewrite bind_diverge; [reflexivity|].
      unfold controller_version. erewrite bind_diverge by exact Erun. reflexivity. }
    erewrite bind_diverge; [reflexivity|].
    erewrite try_except_diverge by exact Hhs. reflexivity. }
  destruct (connect apiconsts Sample.py Sample.resetting rest_api_version fuel w2)
    as [r w3] eqn:E.
  simpl in Hconn. subst r.
  erewrite bind_diverge by exact E. reflexivity.
Qed.

(** * Further properties *)

(** ** The list of controller URIs *)

Lemma split_on_not_nil (sep : ascii) (s : string) : split_on sep s <> [].
Proof.
  induction s as [|c s IH]; simpl; [discriminate|].
  destruct (Ascii.eqb c sep); [discriminate|].
  destruct (split_on sep s); [congruence|discriminate].
Qed.

Lemma split_on_comma_free (s : string) :
  comma_free s -> split_on "," s = [s].
Proof.
  unfold comma_free. induction s as [|c s IH]; simpl; intros H; [reflexivity|].
  apply andb_true_iff in H as [Hc Hs]. apply negb_true_iff in Hc.
  rewrite Hc, (IH Hs). reflexivity.
Qed.

Lemma split_on_app (x r : string) :
  comma_free x -> split_on "," (x +:+ "," +:+ r) = x :: split_on "," r.
Proof.
  unfold comma_free. induction x as [|c x IH]; simpl; intros H; [reflexivity|].
  apply andb_true_iff in H as [Hc Hx]. apply negb_true_iff in Hc.
  rewrite Hc, (IH Hx). reflexivity.
Qed.

Lemma split_on_concat (l : list string) :
  l <> [] -> Forall comma_free l -> split_on "," (String.concat "," l) = l.
Proof.
  induction l as [|x l IH]; intros Hne Hall; [congruence|].
  apply Forall_cons in Hall as [Hx Hl].
  destruct l as [|y l].
  - simpl. apply split_on_comma_free, Hx.
  - change (String.concat "," (x :: y :: l))
      with (x +:+ "," +:+ String.concat "," (y :: l)).
    rewrite (split_on_app x _ Hx). f_equal. apply IH; [discriminate|exact Hl].
Qed.

Lemma split_on_segments_comma_free (s : string) : Forall comma_free (split_on "," s).
Proof.
  induction s as [|c s IH]; simpl.
  - repeat constructor.
  - destruct (Ascii.eqb c ",") eqn:E.
    + constructor; [reflexivity|exact IH].
    + pose proof (split_on_not_nil "," s) as Hne.
      destruct (split_on "," s) as [|hp hps]; [congruence|].
      apply Forall_cons in IH as [Hhp Hhps]. constructor; [|exact Hhps].
      unfold comma_free in *. simpl. rewrite E, Hhp. reflexivity.
Qed.

Lemma controller_uri_list_loop_flat_map (hps servers : list string) :
  controller_uri_list_loop hps servers = (servers ++ flat_map uri_of_segment hps)%list.
Proof.
  revert servers. induction hps as [|hp hps IH]; intros servers; simpl.
  - rewrite app_nil_r. reflexivity.
  - rewrite IH. unfold uri_of_segment.
    destruct (negb (String.eqb hp "")); [|reflexivity].
    destruct (str_contains "://" hp); rewrite <- app_assoc; reflexivity.
Qed.

Lemma controller_uri_list_flat_map (s : string) :
  controller_uri_list s = flat_map uri_of_segment (split_on "," s).
Proof. unfold controller_uri_list. apply controller_uri_list_loop_flat_map. Qed.

Lemma linstor_prefix_has_scheme (hp : string) :
  str_contains "://" ("linstor://" +:+ hp) = true.
Proof. destruct hp; reflexivity. Qed.

Lemma uri_of_segment_entries (hp : string) :
  comma_free hp -> Forall uri_entry (uri_of_segment hp).
Proof.
  intros Hc. unfold uri_of_segment.
  destruct (String.eqb hp "") eqn:E; simpl; [constructor|].
  apply String.eqb_neq in E.
  destruct (str_contains "://" hp) eqn:Es; repeat constructor; try assumption.
  - discriminate.
  - apply linstor_prefix_has_scheme.
Qed.

Lemma uri_of_segment_entry (u : string) : uri_entry u -> uri_of_segment u = [u].
Proof.
  intros (Hne & _ & Hs). unfold uri_of_segment.
  apply String.eqb_neq in Hne. rewrite Hne, Hs. reflexivity.
Qed.

Lemma flat_map_uri_entries (l : list string) :
  Forall uri_entry l -> flat_map uri_of_segment l = l.
Proof.
  induction 1 as [|u l Hu _ IH]; simpl; [reflexivity|].
  rewrite (uri_of_segment_entry u Hu), IH. reflexivity.
Qed.

Lemma controller_uri_list_entries (s : string) : Forall uri_entry (controller_uri_list s).
Proof.
  rewrite controller_uri_list_flat_map.
  pose proof (split_on_segments_comma_free s) as H.
  induction H as [|hp hps Hhp _ IH]; simpl; [constructor|].
  apply Forall_app. split; [apply uri_of_segment_entries, Hhp|exact IH].
Qed.

(** X1: a comma-separated list of hosts that are not empty and carry no
    scheme becomes the list of these hosts, in order, each with the
    scheme [linstor://] in front; no host gives the empty list. *)
Theorem controller_uri_list_of_plain_hosts :
  forall hosts : list string,
    Forall plain_host hosts ->
    controller_uri_list (String.concat "," hosts)
      = map (fun hp => "linstor://" +:+ hp) hosts.
Proof.
  intros hosts Hall. rewrite controller_uri_list_flat_map.
  destruct hosts as [|h hosts]; [reflexivity|].
  rewrite split_on_concat;
    [|discriminate|eapply Forall_impl; [exact Hall|intros hp (_ & Hc & _); exact Hc]].
  induction Hall as [|hp hps (Hne & _ & Hs) _ IH]; [reflexivity|].
  cbn [flat_map map]. rewrite IH.
  unfold uri_of_segment. apply String.eqb_neq in Hne. rewrite Hne, Hs. reflexivity.
Qed.

Lemma controller_uri_list_of_plain_hosts_witness :
  controller_uri_list (String.concat "," ["10.0.0.1"; "10.0.0.2"])
    = map (fun hp => "linstor://" +:+ hp) ["10.0.0.1"; "10.0.0.2"].
Proof.
  apply (controller_uri_list_of_plain_hosts ["10.0.0.1"; "10.0.0.2"]).
  repeat constructor; discriminate.
Defined.

(** X2: every entry of the list [controller_uri_list] returns is not
    empty and has a scheme separator, whatever the input, and the
    function is idempotent: joining its result with commas and converting
    again gives the same list. *)
Theorem controller_uri_list_is_idempotent :
  forall controller_list : string,
    Forall uri_entry (controller_uri_list controller_list) /\
    controller_uri_list (String.concat "," (controller_uri_list controller_list))
      = controller_uri_list controller_list.
Proof.
  intros s. pose proof (controller_uri_list_entries s) as H.
  split; [exact H|].
  destruct (controller_uri_list s) as [|u l] eqn:E; [reflexivity|].
  rewrite controller_uri_list_flat_map.
  rewrite split_on_concat;
    [|discriminate|eapply Forall_impl; [exact H|intros hp (_ & Hc & _); exact Hc]].
  apply flat_map_uri_entries, H.
Qed.

(** ** Property keys and property dicts *)

Lemma substring_whole (s : string) : String.substring 0 (String.length s) s = s.
Proof. induction s as [|a s IH]; simpl; [reflexivity|]. rewrite IH. reflexivity. Qed.

Lemma rfind_char_split (c : ascii) (s : string) (n : nat) :
  rfind_char c s = Some n ->
  s = String.substring 0 n s
      +:+ String c (String.substring (S n) (String.length s - S n) s) /\
  rfind_char c (String.substring (S n) (String.length s - S n) s) = None.
Proof.
  revert n. induction s as [|a s IH]; intros n H; simpl in H; [discriminate|].
  destruct (rfind_char c s) as [j|] eqn:E.
  - injection H as <-. destruct (IH j eq_refl) as [Hs Hnone].
    split.
    + change (String a s =
              String a (String.substring 0 j s
                        +:+ String c (String.substring (S j) (String.length s - S j) s))).
      f_equal. exact Hs.
    + exact Hnone.
  - destruct (Ascii.eqb a c) eqn:Ea; [|discriminate].
    injection H as <-. apply Ascii.eqb_eq in Ea. subst a.
    simpl. rewrite Nat.sub_0_r, substring_whole. split; [reflexivity|exact E].
Qed.

(** X3: [_split_prop_key] cuts a key at its last slash: the key it
    returns has no slash, and namespace, slash and key put together give
    the full key again; a full key without a slash is returned whole,
    without a namespace. *)
Theorem split_prop_key_round_trip :
  forall fkey : string,
    rfind "/" (fst (_split_prop_key fkey)) = -1 /\
    match snd (_split_prop_key fkey) with
    | Some namespace =>
        fkey = namespace +:+ "/" +:+ fst (_split_prop_key fkey) /\ 0 <= rfind "/" fkey
    | None => fkey = fst (_split_prop_key fkey) /\ rfind "/" fkey = -1
    end.
Proof.
  intros fkey. unfold _split_prop_key, rfind.
  destruct (rfind_char "/" fkey) as [n|] eqn:E.
  - destruct (rfind_char_split "/" fkey n E) as [Hs Hnone].
    replace (0 <=? Z.of_nat n) with true by (symmetry; apply Z.leb_le; lia).
    unfold slice_from, slice_to. cbn [fst snd].
    replace (Z.to_nat (Z.of_nat n + 1)) with (S n) by lia.
    rewrite Nat2Z.id, Hnone. split; [reflexivity|]. split; [exact Hs|lia].
  - cbn [fst snd Z.leb Z.compare]. rewrite E. split; [reflexivity|]. split; reflexivity.
Qed.

Lemma prefix_empty (s : string) : String.prefix "" s = true.
Proof. destruct s; reflexivity. Qed.

Lemma prefix_trans (a b c : string) :
  String.prefix a b = true -> String.prefix b c = true -> String.prefix a c = true.
Proof.
  revert b c. induction a as [|x a IH]; intros b c Hab Hbc; [apply prefix_empty|].
  destruct b as [|y b]; [discriminate|]. destruct c as [|z c]; [discriminate|].
  cbn [String.prefix] in *.
  destruct (ascii_dec x y) as [->|]; [|discriminate].
  destruct (ascii_dec y z) as [->|]; [|discriminate].
  exact (IH b c Hab Hbc).
Qed.

(** X4: filtering a property dict by the empty namespace returns it
    whole; filtering by a namespace and then by a longer one that begins
    with it gives what filtering by the longer one alone gives; and a key
    is kept with its value exactly when it begins with the namespace. *)
Theorem filter_props_by_nested_namespaces :
  forall (A : Type) (props : gmap string A) (outer inner : string),
    startswith inner outer = true ->
    _filter_props props "" = props /\
    _filter_props (_filter_props props outer) inner = _filter_props props inner /\
    (forall key : string,
        _filter_props props inner !! key =
          if startswith key inner then props !! key else None).
Proof.
  intros A props outer inner Hnest. unfold _filter_props, startswith in *.
  split; [|split].
  - apply map_filter_id. intros k x _. apply prefix_empty.
  - apply map_eq. intros k. apply option_eq. intros x.
    rewrite !map_lookup_filter_Some. cbn [fst].
    split.
    + intros [[Hx _] Hi]. split; assumption.
    + intros [Hx Hi]. repeat split; try assumption.
      exact (prefix_trans outer inner k Hnest Hi).
  - intros k. apply option_eq. intros x.
    rewrite map_lookup_filter_Some. cbn [fst].
    destruct (String.prefix inner k); split.
    + intros [Hx _]. exact Hx.
    + intros Hx. split; [exact Hx|reflexivity].
    + intros [_ Hf]. discriminate.
    + discriminate.
Qed.

Lemma filter_props_by_nested_namespaces_witness :
  let props : gmap string Z := <["Aux/site" := 1]> (<["DrbdOptions/auto" := 2]> ∅) in
  _filter_props props "" = props /\
  _filter_props (_filter_props props "Aux") "Aux/" = _filter_props props "Aux/" /\
  (forall key : string,
      _filter_props props "Aux/" !! key =
        if startswith key "Aux/" then props !! key else None).
Proof.
  intros props.
  apply (filter_props_by_nested_namespaces Z props "Aux" "Aux/").
  reflexivity.
Defined.

(** ** Calls built on the dispatcher *)

(** X5: [storage_pool_list] hands back the replies of the dispatcher as
    they are, in the same world, whether the first is a storage pool list
    or not, and its outcome when it raises; the path has a query string
    only when a filter is given and not empty, node filters first. *)
Theorem storage_pool_list_returns_the_replies_unchanged :
  forall (apiconsts : sharedconsts) (rr : rest_request_t)
         (filter_by_nodes filter_by_stor_pools : option (list string)) (w : world),
    storage_pool_list apiconsts rr filter_by_nodes filter_by_stor_pools w =
    rr (API_LST_STOR_POOL apiconsts) "GET"
       (match (map (fun x => "nodes=" +:+ x) (given filter_by_nodes)
               ++ map (fun x => "storage_pools=" +:+ x) (given filter_by_stor_pools))%list
        with
        | [] => "/v1/view/storage-pools"
        | query_params =>
            "/v1/view/storage-pools" +:+ "?" +:+ String.concat "&" query_params
        end)
       None true w.
Proof.
  intros apiconsts rr nodes pools w. unfold storage_pool_list.
  set (qn := map (fun x => "nodes=" +:+ x) (given nodes)).
  set (qp := map (fun x => "storage_pools=" +:+ x) (given pools)).
  assert (Hn : match given nodes with [] => [] | _ => ([] ++ qn)%list end = qn)
    by (subst qn; destruct (given nodes); reflexivity).
  rewrite Hn.
  assert (Hp : match given pools with [] => qn | _ => (qn ++ qp)%list end = (qn ++ qp)%list)
    by (subst qp; destruct (given pools); [rewrite app_nil_r|]; reflexivity).
  rewrite Hp. cbv zeta.
  destruct (qn ++ qp)%list as [|q qs];
    unfold mbind, M_bind, mret, M_ret;
    (destruct (rr _ _ _ _ _ w) as [[l|e|] w']; try reflexivity);
    f_equal; f_equal;
    (destruct l as [|x l]; [reflexivity|]);
    (destruct (bool_decide (py_class x = StoragePoolListResponse)); simpl;
     [rewrite app_nil_r|]; reflexivity).
Qed.

Lemma node_reconnect_loop_replies (consts : nodeconsts) (rr : rest_request_t)
    (names : list string) (replies : list RESTMessageResponse) (w : world) :
  node_reconnect_loop consts rr names replies w =
  (node_reconnect_loop consts rr names [] ≫= fun l => mret (replies ++ l)%list) w.
Proof.
  revert replies w. induction names as [|n names IH]; intros replies w.
  - simpl. unfold mbind, M_bind, mret, M_ret. rewrite app_nil_r. reflexivity.
  - cbn [node_reconnect_loop]. unfold mbind, M_bind.
    destruct (rr (API_NODE_RECONNECT consts) "PUT" ("/v1/nodes/" +:+ n +:+ "/reconnect")
                 None true w) as [[l|e|] w']; try reflexivity.
    rewrite (IH (replies ++ l)%list w'), (IH ([] ++ l)%list w').
    unfold mbind, M_bind, mret, M_ret.
    destruct (node_reconnect_loop consts rr names [] w') as [[l'|e|] w'']; try reflexivity.
    rewrite <- app_assoc. reflexivity.
Qed.

(** X6: [node_reconnect] over the concatenation of two lists of nodes is
    [node_reconnect] over the first, then over the second from the world
    the first left, the replies of the first followed by those of the
    second; if the first raises, the second is not started.  Over no node
    it returns no reply and makes no call. *)
Theorem node_reconnect_goes_through_the_nodes_in_order :
  forall (consts : nodeconsts) (rr : rest_request_t) (xs ys : list string) (w : world),
    node_reconnect consts rr (xs ++ ys) w =
      (node_reconnect consts rr xs ≫= fun l1 =>
       node_reconnect consts rr ys ≫= fun l2 => mret (l1 ++ l2)%list) w /\
    node_reconnect consts rr [] w = (Ok [], w).
Proof.
  intros consts rr xs ys w. split; [|reflexivity].
  unfold node_reconnect.
  assert (G : forall acc w,
             node_reconnect_loop consts rr (xs ++ ys) acc w =
             (node_reconnect_loop consts rr xs acc ≫= fun l1 =>
              node_reconnect_loop consts rr ys [] ≫= fun l2 => mret (l1 ++ l2)%list) w).
  { clear w. induction xs as [|x xs IH]; intros acc w.
    - change ([] ++ ys)%list with ys. rewrite node_reconnect_loop_replies. reflexivity.
    - change ((x :: xs) ++ ys)%list with (x :: (xs ++ ys))%list.
      cbn [node_reconnect_loop]. unfold mbind, M_bind.
      destruct (rr (API_NODE_RECONNECT consts) "PUT" ("/v1/nodes/" +:+ x +:+ "/reconnect")
                   None true w) as [[l|e|] w']; try reflexivity.
      rewrite IH. unfold mbind, M_bind. reflexivity. }
  apply G.
Qed.

(** X7: the TLS-discovery probe never diverts a socket error to its
    caller: an exception it raises is not a socket error.  And it returns
    a port that counts as true only when a response with status 302 was
    read, the port being that of its [Location] header. *)
Theorem has_linstor_https_swallows_socket_errors :
  forall (py : pylib) (net : network) (hostname : option string) (p : Z)
         (w w' : world) (r : outcome (option Z)),
    has_linstor_https py net hostname p w = (r, w') ->
    (forall e, r = Raise e -> is_socket_error e = false) /\
    (forall https_port,
        r = Ok https_port -> truthy_int https_port = true ->
        exists h response,
          getresponse_does net h = inr response /\ status response = 302 /\
          https_port = header_Location response ≫= urlparse_port py).
Proof.
  intros py net hostname p w w' r H. unfold has_linstor_https in H.
  unfold try_except, mbind at 1 2 3, M_bind at 1 2 3, conn_connect, conn_request,
         conn_getresponse, mret, M_ret, raise, log in H.
  simpl in H.
  destruct (connect_raises net _) as [e1|].
  { destruct (is_socket_error e1) eqn:E1; injection H as <- _; split;
      try (intros e [= <-]; exact E1); try discriminate.
    intros hp [= <-] Ht. discriminate. }
  destruct (request_raises net _) as [e2|].
  { destruct (is_socket_error e2) eqn:E2; injection H as <- _; split;
      try (intros e [= <-]; exact E2); try discriminate.
    intros hp [= <-] Ht. discriminate. }
  destruct (getresponse_does net _) as [e3|resp] eqn:Eg.
  { destruct (is_socket_error e3) eqn:E3; injection H as <- _; split;
      try (intros e [= <-]; exact E3); try discriminate.
    intros hp [= <-] Ht. discriminate. }
  destruct (status resp =? 302) eqn:Es; injection H as <- _; split; try discriminate.
  - intros hp [= <-] Ht. eexists _, resp. split; [exact Eg|].
    split; [apply Z.eqb_eq, Es|reflexivity].
  - intros hp [= <-] Ht. discriminate.
Qed.

Lemma has_linstor_https_swallows_socket_errors_witness :
  let redirect := {| status := 302; header_Content_Encoding := None;
                     header_Location := Some "https://alpha:3371"; read := Ok "" |} in
  let net := Sample.scripted [Sample.fine; Sample.fine; Sample.responds redirect] in
  (forall e, Ok (Some 3371) = Raise e -> is_socket_error e = false) /\
  (forall https_port,
      Ok (Some 3371) = Ok https_port -> truthy_int https_port = true ->
      exists h response,
        getresponse_does net h = inr response /\ status response = 302 /\
        https_port = header_Location response ≫= urlparse_port Sample.py).
Proof.
  intros redirect net.
  apply (has_linstor_https_swallows_socket_errors Sample.py net (Some "alpha") 3370
           (Sample.start (Sample.client class_Linstor ["linstor://alpha"] false None))
           (snd (has_linstor_https Sample.py net (Some "alpha") 3370
                   (Sample.start (Sample.client class_Linstor ["linstor://alpha"] false None))))).
  vm_compute. reflexivity.
Defined.

(** ** Dry runs, disconnecting, compressed bodies, argument checks *)

(** X8: in curl mode nothing is called on a connection.  A dispatched
    call prints one line and returns no reply, or raises [TypeError]
    before printing when the URI has no host name; [connect] sets the
    connected flag, returns True and calls nothing. *)
Theorem curl_mode_makes_no_network_call :
  forall (apiconsts : sharedconsts) (py : pylib) (net : network)
         (rest_api_version : RESTMessageResponse -> outcome string)
         (rr : rest_request_t) (fuel : nat) (apicall method path : string)
         (body : option json) (reconnect : bool) (w : world),
    _mode_curl (self w) = true ->
    (exists r w',
        _rest_request apiconsts py net rest_api_version (S fuel)
                      apicall method path body reconnect w = (r, w') /\
        self w' = self w /\
        match urlparse_hostname py (_ctrl_host (self w)) with
        | Some _ => r = Ok [] /\ exists line, history w' = call_print line :: history w
        | None => r = Raise TypeError /\ history w' = history w
        end) /\
    Linstor_connect apiconsts py net rest_api_version rr w =
      (Ok (Some true), {| self := set_connected true (self w); history := history w |}).
Proof.
  intros apiconsts py net rav rr fuel apicall method path body reconnect w Hcurl.
  split.
  - cbn [_rest_request]. unfold _rest_request_body.
    erewrite bind_ok by (unfold get_self; reflexivity). rewrite Hcurl.
    unfold __output_curl_command.
    unfold mbind, M_bind, get_self, print, raise, mret, M_ret, log.
    destruct (urlparse_hostname py (_ctrl_host (self w))) as [hostname|].
    + eexists _, _. split; [reflexivity|]. split; [reflexivity|].
      split; [reflexivity|]. eexists. reflexivity.
    + eexists _, _. split; [reflexivity|]. repeat split; reflexivity.
  - unfold Linstor_connect.
    erewrite bind_ok by (unfold get_self; reflexivity). rewrite Hcurl. reflexivity.
Qed.

Lemma curl_mode_makes_no_network_call_witness :
  let o := Sample.client class_Linstor ["linstor://alpha"] false None in
  let w := Sample.start
             {| __class__ := __class__ o; _ctrl_host := _ctrl_host o; _timeout := _timeout o;
                _keep_alive := _keep_alive o; _rest_conn := _rest_conn o;
                _connected := _connected o; _mode_curl := true;
                _ctrl_version := _ctrl_version o; _username := _username o;
                _password := _password o; _allow_insecure := _allow_insecure o;
                _ctrl_host_list := _ctrl_host_list o |} in
  let net := Sample.scripted [] in
  let rr := _rest_request Sample.apiconsts Sample.py net Sample.rest_api_version 1 in
  (exists r w',
      _rest_request Sample.apiconsts Sample.py net Sample.rest_api_version 1
                    "LstNode" "GET" "/v1/nodes" None true w = (r, w') /\
      self w' = self w /\
      match urlparse_hostname Sample.py (_ctrl_host (self w)) with
      | Some _ => r = Ok [] /\ exists line, history w' = call_print line :: history w
      | None => r = Raise TypeError /\ history w' = history w
      end) /\
  Linstor_connect Sample.apiconsts Sample.py net Sample.rest_api_version rr w =
    (Ok (Some true), {| self := set_connected true (self w); history := history w |}).
Proof.
  intros o w net rr.
  apply (curl_mode_makes_no_network_call Sample.apiconsts Sample.py net
           Sample.rest_api_version rr 0 "LstNode" "GET" "/v1/nodes" None true w).
  reflexivity.
Defined.

(** X9: [disconnect] never raises and leaves the connected flag False
    and everything else of the object as it was; it calls [close()] on the
    transport when there is one, and nothing otherwise.  Called again it
    leaves the same object. *)
Theorem disconnect_is_idempotent :
  forall w : world,
    exists w1 w2,
      disconnect w = (Ok tt, w1) /\
      disconnect w1 = (Ok tt, w2) /\
      self w1 = set_connected false (self w) /\
      self w2 = self w1 /\
      history w1 = match _rest_conn (self w) with
                   | Some c => call_close c :: history w
                   | None => history w
                   end.
Proof.
  intros w.
  set (closing := fun (s : Linstor) (h : list event) =>
                    match _rest_conn s with
                    | Some c => call_close c :: h
                    | None => h
                    end).
  assert (H : forall v, disconnect v =
                        (Ok tt, {| self := set_connected false (self v);
                                   history := closing (self v) (history v) |})).
  { intros v. unfold disconnect, mbind, M_bind, modify_self, get_self, conn_close,
                     mret, M_ret, log, closing.
    cbn [self history _rest_conn set_connected].
    destruct (_rest_conn (self v)); reflexivity. }
  exists {| self := set_connected false (self w); history := closing (self w) (history w) |}.
  eexists. split; [apply H|]. split; [apply H|].
  split; [reflexivity|]. split; reflexivity.
Qed.

(** X10: compression of the body is invisible to the classifier: a
    response marked [gzip] whose body decompresses to some data is
    classified like the response with the same status carrying that data
    uncompressed; and a body under any other content encoding is taken as
    it is. *)
Theorem gzip_is_transparent_to_the_classifier :
  forall (apiconsts : sharedconsts) (py : pylib) (apicall path : string)
         (code : Z) (location encoding : option string) (compressed data : string),
    zlib_decompress py compressed = Some data ->
    encoding <> Some "gzip" ->
    __convert_rest_response apiconsts py apicall
      {| status := code; header_Content_Encoding := Some "gzip";
         header_Location := location; read := Ok compressed |} path =
    __convert_rest_response apiconsts py apicall
      {| status := code; header_Content_Encoding := encoding;
         header_Location := location; read := Ok data |} path /\
    _decode_response_data py
      {| status := code; header_Content_Encoding := encoding;
         header_Location := location; read := Ok compressed |} = Ok compressed.
Proof.
  intros apiconsts py apicall path code location encoding compressed data Hz Henc.
  assert (Hplain : forall d,
             _decode_response_data py
               {| status := code; header_Content_Encoding := encoding;
                  header_Location := location; read := Ok d |} = Ok d).
  { intros d. unfold _decode_response_data. cbn [read obind header_Content_Encoding].
    rewrite bool_decide_eq_false_2; [reflexivity|].
    destruct encoding as [enc|]; simpl.
    - intros ->. apply Henc. reflexivity.
    - discriminate. }
  split; [|apply Hplain].
  unfold __convert_rest_response. rewrite Hplain.
  unfold _decode_response_data at 1. cbn [read obind header_Content_Encoding default].
  rewrite bool_decide_eq_true_2 by reflexivity. rewrite Hz. reflexivity.
Qed.

Lemma gzip_is_transparent_to_the_classifier_witness :
  __convert_rest_response Sample.apiconsts Sample2.py "LstNode"
    (Sample2.gzipped 200 "gzip:[{'name': 'alpha'}, {'name': 'beta'}]") "/v1/nodes" =
  __convert_rest_response Sample.apiconsts Sample2.py "LstNode"
    (Sample.http 200 "[{'name': 'alpha'}, {'name': 'beta'}]") "/v1/nodes" /\
  _decode_response_data Sample2.py
    (Sample.http 200 "gzip:[{'name': 'alpha'}, {'name': 'beta'}]")
    = Ok "gzip:[{'name': 'alpha'}, {'name': 'beta'}]".
Proof.
  apply (gzip_is_transparent_to_the_classifier Sample.apiconsts Sample2.py "LstNode"
           "/v1/nodes" 200 None None
           "gzip:[{'name': 'alpha'}, {'name': 'beta'}]"
           "[{'name': 'alpha'}, {'name': 'beta'}]").
  - reflexivity.
  - discriminate.
Defined.

(** X11: [node_create] checks its arguments before anything is sent: a
    node type that is not one of the four known types, and a missing port
    with a communication type that is neither plain nor SSL, each end in
    a [LinstorError] in the world the call started in. *)
Theorem node_create_rejects_bad_arguments_before_any_call :
  forall (consts : nodeconsts)
         (rest_api_version : RESTMessageResponse -> outcome string)
         (response_truthy : RESTMessageResponse -> bool) (rr : rest_request_t)
         (node_name node_type ip com_type netif_name : string) (port : option Z)
         (w : world),
    existsb (String.eqb node_type) (_node_types consts) = false \/
    (port = None /\
     String.eqb com_type (VAL_NETCOM_TYPE_PLAIN consts) = false /\
     String.eqb com_type (VAL_NETCOM_TYPE_SSL consts) = false) ->
    exists msg,
      node_create consts rest_api_version response_truthy rr
                  node_name node_type ip com_type port netif_name w
        = (Raise (LinstorError msg), w).
Proof.
  intros consts rav truthy rr node_name node_type ip com_type netif_name port w H.
  unfold node_create.
  destruct (existsb (String.eqb node_type) (_node_types consts)) eqn:E; cbn [negb].
  - destruct H as [H|(-> & Hp & Hs)]; [discriminate|].
    rewrite Hp, Hs. eexists. reflexivity.
  - eexists. reflexivity.
Qed.

Lemma node_create_rejects_bad_arguments_before_any_call_witness :
  exists msg,
    node_create Sample2.consts Sample.rest_api_version Sample2.response_truthy
      (_rest_request Sample.apiconsts Sample.py (Sample.scripted []) Sample.rest_api_version 1)
      "alpha" "STORAGE" "10.0.0.1" "PLAIN" None "default"
      (Sample.start (Sample.connected_client false))
    = (Raise (LinstorError msg), Sample.start (Sample.connected_client false)).
Proof.
  apply (node_create_rejects_bad_arguments_before_any_call Sample2.consts).
  left. reflexivity.
Defined.

(** ** The version the client holds after connecting *)

Lemma cmp_tuple_antisym (a b : Z * Z * Z) :
  StrictVersion.cmp_tuple b a = CompOpp (StrictVersion.cmp_tuple a b).
Proof.
  destruct a as [[a1 a2] a3], b as [[b1 b2] b3]. unfold StrictVersion.cmp_tuple.
  rewrite (Z.compare_antisym a1 b1), (Z.compare_antisym a2 b2), (Z.compare_antisym a3 b3).
  destruct (a1 ?= b1), (a2 ?= b2), (a3 ?= b3); reflexivity.
Qed.

Lemma cmp_prerelease_antisym (a b : ascii * Z) :
  StrictVersion.cmp_prerelease b a = CompOpp (StrictVersion.cmp_prerelease a b).
Proof.
  unfold StrictVersion.cmp_prerelease.
  rewrite (Nat.compare_antisym (nat_of_ascii (fst a)) (nat_of_ascii (fst b))).
  rewrite (Z.compare_antisym (snd a) (snd b)).
  destruct (nat_of_ascii (fst a) ?= nat_of_ascii (fst b))%nat, (snd a ?= snd b);
    reflexivity.
Qed.

Lemma cmp_antisym (a b : StrictVersion.t) :
  StrictVersion.cmp b a = CompOpp (StrictVersion.cmp a b).
Proof.
  unfold StrictVersion.cmp. rewrite (cmp_tuple_antisym (StrictVersion.version a)).
  destruct (StrictVersion.cmp_tuple (StrictVersion.version a) (StrictVersion.version b));
    try reflexivity.
  destruct (StrictVersion.prerelease a) as [p|], (StrictVersion.prerelease b) as [q|];
    try reflexivity.
  apply cmp_prerelease_antisym.
Qed.

(** A version that the minimum does not exceed is not lower than it. *)
Lemma not_exceeded_is_not_lower (a b : string) :
  StrictVersion.gt a b = Ok false -> StrictVersion_lt b a = Ok false.
Proof.
  unfold StrictVersion.gt, StrictVersion_lt, obind.
  destruct (StrictVersion.parse a) as [va|e|]; try discriminate.
  destruct (StrictVersion.parse b) as [vb|e|]; try discriminate.
  rewrite (cmp_antisym va vb).
  destruct (StrictVersion.cmp va vb); [reflexivity|reflexivity|discriminate].
Qed.

(** When the handshake returns, the version it stored has passed the
    version test. *)
Lemma handshake_returns_with_supported_version (apiconsts : sharedconsts) (net : network)
    (rest_api_version : RESTMessageResponse -> outcome string) (rr : rest_request_t)
    (w w' : world) (u : unit) :
  handshake apiconsts net rest_api_version rr w = (Ok u, w') ->
  exists v ver,
    _ctrl_version (self w') = Some v /\ rest_api_version v = Ok ver /\
    version_unsupported ver = Ok false.
Proof.
  intros H. unfold handshake in H. unfold mbind at 1, M_bind at 1 in H.
  destruct (the_rest_conn w) as [[c|e|] w1]; try discriminate.
  unfold mbind at 1, M_bind at 1 in H.
  destruct (conn_connect net c w1) as [[[]|e|] w2]; try discriminate.
  unfold mbind at 1, M_bind at 1 in H.
  destruct (controller_version apiconsts rr w2) as [[v|e|] w3]; try discriminate.
  unfold mbind at 1, M_bind at 1, modify_self at 1 in H.
  unfold mbind at 1, M_bind at 1 in H.
  unfold ctrl_rest_api_version at 1, mbind at 1, M_bind at 1, get_self at 1, lift at 1 in H.
  cbn [self _ctrl_version set_ctrl_version] in H.
  destruct (rest_api_version v) as [ver|e|] eqn:Ev; try discriminate.
  unfold mbind at 1, M_bind at 1, lift at 1 in H.
  destruct (version_unsupported ver) as [[|]|e|] eqn:Eu; try discriminate.
  - exfalso. unfold mbind at 1, M_bind at 1 in H.
    destruct (the_rest_conn _) as [[c'|e|] w4]; try discriminate.
    unfold mbind at 1, M_bind at 1, conn_close at 1 in H.
    unfold mbind at 1, M_bind at 1 in H.
    destruct (ctrl_rest_api_version _ _) as [[ver'|e|] w5]; discriminate.
  - unfold modify_self in H. injection H as _ <-.
    exists v, ver. cbn [self _ctrl_version set_connected set_ctrl_version].
    repeat split; assumption.
Qed.

Lemma Linstor_connect_returns_after_handshake (apiconsts : sharedconsts) (py : pylib)
    (net : network) (rest_api_version : RESTMessageResponse -> outcome string)
    (rr : rest_request_t) (w w' : world) (x : option bool) :
  _mode_curl (self w) = false ->
  Linstor_connect apiconsts py net rest_api_version rr w = (Ok x, w') ->
  exists w0, handshake apiconsts net rest_api_version rr w0 = (Ok tt, w').
Proof.
  intros Hcurl H. rewrite (Linstor_connect_not_curl apiconsts py net _ rr w Hcurl) in H.
  unfold mbind at 1, M_bind at 1 in H.
  destruct (select_transport py net w) as [[[]|e|] w0]; try discriminate.
  unfold mbind at 1, M_bind at 1, try_except in H.
  destruct (handshake apiconsts net rest_api_version rr w0) as [[[]|e|] w1] eqn:Eh.
  - injection H as _ <-. exists w0. exact Eh.
  - exfalso. destruct (is_socket_error e);
      unfold mbind, M_bind, get_self, raise in H; discriminate.
  - discriminate.
Qed.

(** X12: after [connect] has returned outside curl mode, the client holds
    a controller version that begins with [1] and that the minimum
    version does not exceed, and [_require_version] of the minimum version
    passes without raising and without changing anything. *)
Theorem connected_client_meets_the_minimum_version :
  forall (apiconsts : sharedconsts) (py : pylib) (net : network)
         (rest_api_version : RESTMessageResponse -> outcome string)
         (response_truthy : RESTMessageResponse -> bool)
         (rr : rest_request_t) (w w' : world) (x : option bool),
    _mode_curl (self w) = false ->
    Linstor_connect apiconsts py net rest_api_version rr w = (Ok x, w') ->
    (exists v ver,
        _ctrl_version (self w') = Some v /\ rest_api_version v = Ok ver /\
        startswith ver "1" = true /\
        StrictVersion.gt API_VERSION_MIN ver = Ok false) /\
    _require_version rest_api_version response_truthy API_VERSION_MIN w' = (Ok tt, w').
Proof.
  intros apiconsts py net rav truthy rr w w' x Hcurl H.
  destruct (Linstor_connect_returns_after_handshake _ _ _ _ _ _ _ _ Hcurl H) as [w0 Hh].
  destruct (handshake_returns_with_supported_version _ _ _ _ _ _ _ Hh)
    as (v & ver & Hv & Hver & Hsup).
  assert (Hs : startswith ver "1" = true /\ StrictVersion.gt API_VERSION_MIN ver = Ok false).
  { unfold version_unsupported in Hsup.
    destruct (startswith ver "1"); cbn [negb] in Hsup; [split; [reflexivity|exact Hsup]|].
    discriminate. }
  destruct Hs as [Hone Hgt].
  split; [exists v, ver; repeat split; assumption|].
  unfold _require_version, ctrl_version_test, mbind, M_bind, get_self, lift, mret, M_ret.
  rewrite Hv. destruct (truthy v); [|reflexivity].
  rewrite Hver, (not_exceeded_is_not_lower _ _ Hgt). reflexivity.
Qed.

Lemma connected_client_meets_the_minimum_version_witness :
  let net := Sample.scripted (Sample.connect_script "{'rest_api_version': '1.0.7'}") in
  let rr := _rest_request Sample.apiconsts Sample.py net Sample.rest_api_version 1 in
  let w := Sample.start (Sample.client class_Linstor ["linstor://alpha"] false None) in
  let w' := snd (Linstor_connect Sample.apiconsts Sample.py net Sample.rest_api_version rr w) in
  (exists v ver,
      _ctrl_version (self w') = Some v /\ Sample.rest_api_version v = Ok ver /\
      startswith ver "1" = true /\
      StrictVersion.gt API_VERSION_MIN ver = Ok false) /\
  _require_version Sample.rest_api_version Sample2.response_truthy API_VERSION_MIN w'
    = (Ok tt, w').
Proof.
  intros net rr w w'.
  apply (connected_client_meets_the_minimum_version Sample.apiconsts Sample.py net
           Sample.rest_api_version Sample2.response_truthy rr w w' (Some true)).
  - reflexivity.
  - vm_compute. reflexivity.
Defined.

(** ** Failures of the transport inside one dispatched call *)

(** What [send_request] does: it never fails with a raw socket error, and
    at most the request itself goes out, on the transport of the client. *)
Lemma send_request_calls (py : pylib) (net : network) (method path : string)
    (body : option json) (w w1 : world) (r : outcome unit) :
  send_request py net method path body w = (r, w1) ->
  r <> Diverge /\
  (forall e, r = Raise e -> is_socket_error e = false) /\
  (history w1 = history w \/
   exists c headers,
     _rest_conn (self w) = Some c /\
     history w1 = call_request c method path (json_dumps py <$> body) headers :: history w).
Proof.
  intros H. unfold send_request, try_except in H.
  unfold mbind at 1, M_bind at 1, get_self at 1 in H.
  unfold mbind at 1, M_bind at 1 in H.
  assert (Hfin : forall (a : list (string * string)) (w0 : world) (r0 : outcome unit) (w2 : world),
             self w0 = self w -> history w0 = history w ->
             (the_rest_conn ≫= fun c : HTTPConnection =>
                conn_request net c method path (json_dumps py <$> body)
                  (_http_headers ++ a)%list) w0 = (r0, w2) ->
             r0 <> Diverge /\
             (history w2 = history w \/
              exists c headers,
                _rest_conn (self w) = Some c /\
                history w2 =
                  call_request c method path (json_dumps py <$> body) headers :: history w)).
  { intros a w0 r0 w2 Hs Hh E. destruct (_rest_conn (self w)) as [c|] eqn:Ec.
    - erewrite bind_ok in E by (apply the_rest_conn_some; rewrite Hs; exact Ec).
      unfold conn_request in E. cbn [history log] in E.
      destruct (request_raises net _); injection E as <- <-;
        (split; [discriminate|]); right; exists c, (_http_headers ++ a)%list;
        cbn [history log]; rewrite Hh; split; reflexivity.
    - erewrite bind_raise in E by (apply the_rest_conn_none; rewrite Hs; exact Ec).
      injection E as <- <-. split; [discriminate|]. left. exact Hh. }
  assert (Hhandler : forall (r0 : outcome unit) (w2 : world),
             r0 <> Diverge ->
             match r0 with
             | Ok a => (Ok a, w2)
             | Raise e =>
                 (if is_socket_error e
                  then get_self ≫= fun s : Linstor =>
                         raise (LinstorNetworkError
                                  ("Unable to connect to " +:+ _ctrl_host s +:+ ": " +:+
                                   str_exn e) [])
                  else raise e) w2
             | Diverge => (Diverge, w2)
             end = (r, w1) ->
             r <> Diverge /\ (forall e, r = Raise e -> is_socket_error e = false) /\
             history w1 = history w2).
  { intros r0 w2 Hd E. destruct r0 as [[]|e|]; [| |contradiction].
    - injection E as <- <-. repeat split; [discriminate|discriminate].
    - destruct (is_socket_error e) eqn:Ee;
        unfold mbind, M_bind, get_self, raise in E; injection E as <- <-;
        (repeat split; [discriminate|]); intros e' [= <-]; [reflexivity|exact Ee]. }
  destruct (truthy_str (_username (self w)));
    [destruct (_username (self w)) as [u|]; [destruct (_password (self w)) as [pw|]|]|].
  - unfold mret at 1, M_ret at 1 in H.
    destruct ((the_rest_conn ≫= _) w) as [r0 w2] eqn:E.
    destruct (Hfin _ _ _ _ eq_refl eq_refl E) as [Hd Hc].
    destruct (Hhandler r0 w2 Hd H) as (H1 & H2 & H3).
    rewrite H3. repeat split; assumption.
  - unfold raise at 1 in H.
    destruct (Hhandler (Raise TypeError) w ltac:(discriminate) H) as (H1 & H2 & H3).
    rewrite H3. repeat split; try assumption. left; reflexivity.
  - unfold raise at 1 in H.
    destruct (Hhandler (Raise TypeError) w ltac:(discriminate) H) as (H1 & H2 & H3).
    rewrite H3. repeat split; try assumption. left; reflexivity.
  - unfold mret at 1, M_ret at 1 in H.
    destruct ((the_rest_conn ≫= _) w) as [r0 w2] eqn:E.
    destruct (Hfin _ _ _ _ eq_refl eq_refl E) as [Hd Hc].
    destruct (Hhandler r0 w2 Hd H) as (H1 & H2 & H3).
    rewrite H3. repeat split; assumption.
Qed.

(** What [receive_response] does: at most one reading, on the transport
    of the client. *)
Lemma receive_response_calls (apiconsts : sharedconsts) (py : pylib) (net : network)
    (apicall method path : string) (w w2 : world) (r : outcome (list RESTMessageResponse)) :
  receive_response apiconsts py net apicall method path w = (r, w2) ->
  history w2 = history w \/
  exists c, _rest_conn (self w) = Some c /\ history w2 = call_getresponse c :: history w.
Proof.
  intros H. unfold receive_response in H.
  destruct (_rest_conn (self w)) as [c|] eqn:Ec.
  - right. exists c. split; [reflexivity|].
    erewrite bind_ok in H by (apply the_rest_conn_some; exact Ec).
    unfold mbind at 1, M_bind at 1, conn_getresponse in H. cbn [history log] in H.
    destruct (getresponse_does net _) as [e|response].
    { injection H as _ <-. reflexivity. }
    destruct (status response <? 400).
    { unfold lift in H. injection H as _ <-. reflexivity. }
    unfold mbind at 1, M_bind at 1, lift at 1 in H.
    destruct (_decode_response_data py response) as [raw|e|];
      try (injection H as _ <-; reflexivity).
    destruct (negb (String.eqb raw "")).
    + destruct (json_loads py raw) as [ve|data].
      * unfold raise in H. injection H as _ <-. reflexivity.
      * unfold mbind, M_bind, lift, mret, M_ret in H.
        destruct (py_iter data); injection H as _ <-; reflexivity.
    + unfold raise in H. injection H as _ <-. reflexivity.
  - left. erewrite bind_raise in H by (apply the_rest_conn_none; exact Ec).
    injection H as _ <-. reflexivity.
Qed.

(** One activation of the dispatcher, outside curl mode, when sending
    the request fails. *)
Lemma rest_request_send_raises (apiconsts : sharedconsts) (py : pylib) (net : network)
    (rest_api_version : RESTMessageResponse -> outcome string)
    (fuel : nat) (apicall method path : string) (body : option json)
    (reconnect : bool) (w w1 : world) (e : exn) :
  _mode_curl (self w) = false ->
  send_request py net method path body w = (Raise e, w1) ->
  _rest_request apiconsts py net rest_api_version (S fuel)
                apicall method path body reconnect w = (Raise e, w1).
Proof.
  intros Hcurl Hsend. simpl. unfold _rest_request_body.
  erewrite bind_ok by (unfold get_self; reflexivity). rewrite Hcurl.
  erewrite bind_raise by exact Hsend. reflexivity.
Qed.

(** X13: a failure while the request is sent ends the dispatched call, also
    for a keep-alive client with [reconnect=True]: the call raises what
    the first [try] statement raised, which is never a raw socket error,
    no response is read and nothing is reconnected; at most the request
    itself went out. *)
Theorem failure_while_sending_is_final :
  forall (apiconsts : sharedconsts) (py : pylib) (net : network)
         (rest_api_version : RESTMessageResponse -> outcome string)
         (fuel : nat) (apicall method path : string) (body : option json)
         (reconnect : bool) (w w1 : world) (e : exn),
    _mode_curl (self w) = false ->
    send_request py net method path body w = (Raise e, w1) ->
    _rest_request apiconsts py net rest_api_version (S fuel)
                  apicall method path body reconnect w = (Raise e, w1) /\
    is_socket_error e = false /\
    self w1 = self w /\
    (history w1 = history w \/
     exists c headers,
       _rest_conn (self w) = Some c /\
       history w1 = call_request c method path (json_dumps py <$> body) headers :: history w).
Proof.
  intros apiconsts py net rav fuel apicall method path body reconnect w w1 e Hcurl Hsend.
  destruct (send_request_calls _ _ _ _ _ _ _ _ Hsend) as (_ & Hsock & Hcalls).
  repeat split.
  - exact (rest_request_send_raises _ _ _ _ _ _ _ _ _ _ _ _ _ Hcurl Hsend).
  - apply Hsock. reflexivity.
  - exact (send_request_keeps_self _ _ _ _ _ _ _ _ Hsend).
  - exact Hcalls.
Qed.

Lemma failure_while_sending_is_final_witness :
  let net := Sample.scripted [Sample.fails (socket_error "Broken pipe")] in
  let w := Sample.start (Sample.connected_client true) in
  let e := LinstorNetworkError
             ("Unable to connect to linstor://alpha: " +:+
              str_exn (socket_error "Broken pipe")) [] in
  let w1 := log (call_request (Sample.plain "alpha") "GET" "/v1/nodes" None
                   (_http_headers ++ [])%list) w in
  _rest_request Sample.apiconsts Sample.py net Sample.rest_api_version 1
                "LstNode" "GET" "/v1/nodes" None true w = (Raise e, w1) /\
  is_socket_error e = false /\
  self w1 = self w /\
  (history w1 = history w \/
   exists c headers,
     _rest_conn (self w) = Some c /\
     history w1 =
       call_request c "GET" "/v1/nodes" (json_dumps Sample.py <$> None) headers :: history w).
Proof.
  intros net w e w1.
  apply (failure_while_sending_is_final Sample.apiconsts Sample.py net
           Sample.rest_api_version 0 "LstNode" "GET" "/v1/nodes" None true w w1 e).
  - reflexivity.
  - vm_compute. reflexivity.
Defined.

(** X14: a timeout while the response is read is never retried, although
    [socket.timeout] is a socket error: whatever keep-alive and
    [reconnect] are, the call raises [LinstorTimeoutError] with the
    timeout of the client in its message, right after the one reading. *)
Theorem read_timeout_is_never_retried :
  forall (apiconsts : sharedconsts) (py : pylib) (net : network)
         (rest_api_version : RESTMessageResponse -> outcome string)
         (fuel : nat) (apicall method path : string) (body : option json)
         (reconnect : bool) (w w1 : world) (c : HTTPConnection),
    _mode_curl (self w) = false ->
    send_request py net method path body w = (Ok tt, w1) ->
    _rest_conn (self w) = Some c ->
    getresponse_does net (call_getresponse c :: history w1) = inl socket_timeout ->
    _rest_request apiconsts py net rest_api_version (S fuel)
                  apicall method path body reconnect w =
      (Raise (LinstorTimeoutError
                ("Socket timeout, no data received for more than " +:+
                 str_int (_timeout (self w)) +:+ "s.")),
       log (call_getresponse c) w1).
Proof.
  intros apiconsts py net rav fuel apicall method path body reconnect w w1 c
         Hcurl Hsend Hc Hread.
  pose proof (send_request_keeps_self _ _ _ _ _ _ _ _ Hsend) as Hself.
  rewrite (rest_request_after_send apiconsts py net rav fuel apicall method path
             body reconnect w w1 Hcurl Hsend).
  assert (Hrecv : receive_response apiconsts py net apicall method path w1 =
                  (Raise socket_timeout, log (call_getresponse c) w1)).
  { unfold receive_response.
    erewrite bind_ok by (apply the_rest_conn_some; rewrite Hself; exact Hc).
    erewrite bind_raise by (apply conn_getresponse_raises; exact Hread).
    reflexivity. }
  rewrite Hrecv. cbn [self log]. rewrite Hself. reflexivity.
Qed.

Lemma read_timeout_is_never_retried_witness :
  let net := Sample.scripted [Sample.fine; Sample.fails socket_timeout] in
  let w := Sample.start (Sample.connected_client true) in
  let c := Sample.plain "alpha" in
  let w1 := log (call_request c "GET" "/v1/nodes" None (_http_headers ++ [])%list) w in
  _rest_request Sample.apiconsts Sample.py net Sample.rest_api_version 1
                "LstNode" "GET" "/v1/nodes" None true w =
    (Raise (LinstorTimeoutError
              ("Socket timeout, no data received for more than " +:+
               str_int (_timeout (self w)) +:+ "s.")),
     log (call_getresponse c) w1).
Proof.
  intros net w c w1.
  apply (read_timeout_is_never_retried Sample.apiconsts Sample.py net
           Sample.rest_api_version 0 "LstNode" "GET" "/v1/nodes" None true w w1 c).
  - reflexivity.
  - vm_compute. reflexivity.
  - reflexivity.
  - vm_compute. reflexivity.
Defined.

(** X15: a dispatched call that may not reconnect, because keep-alive is
    off or [reconnect] is false, leaves the client object as it was and
    uses only the transport the client had: one request, followed by at
    most one reading. *)
Theorem call_without_reconnect_uses_only_its_transport :
  forall (apiconsts : sharedconsts) (py : pylib) (net : network)
         (rest_api_version : RESTMessageResponse -> outcome string)
         (fuel : nat) (apicall method path : string) (body : option json)
         (reconnect : bool) (w w' : world) (r : outcome (list RESTMessageResponse)),
    _mode_curl (self w) = false ->
    _keep_alive (self w) && reconnect = false ->
    _rest_request apiconsts py net rest_api_version (S fuel)
                  apicall method path body reconnect w = (r, w') ->
    self w' = self w /\
    (history w' = history w \/
     exists c headers,
       _rest_conn (self w) = Some c /\
       (history w' =
          call_request c method path (json_dumps py <$> body) headers :: history w \/
        history w' =
          call_getresponse c ::
          call_request c method path (json_dumps py <$> body) headers :: history w)).
Proof.
  intros apiconsts py net rav fuel apicall method path body reconnect w w' r Hcurl Hk H.
  split; [exact (rest_request_without_reconnect_keeps_self _ _ _ _ _ _ _ _ _ _ _ _ _ Hk H)|].
  destruct (send_request py net method path body w) as [[[]|e|] w1] eqn:Es.
  - pose proof (send_request_keeps_self _ _ _ _ _ _ _ _ Es) as Hs.
    destruct (send_request_calls _ _ _ _ _ _ _ _ Es) as (_ & _ & Hcalls).
    rewrite (rest_request_after_send apiconsts py net rav fuel apicall method path
               body reconnect w w1 Hcurl Es) in H.
    destruct (receive_response apiconsts py net apicall method path w1)
      as [r2 w2] eqn:Er.
    pose proof (receive_response_keeps_self _ _ _ _ _ _ _ _ _ Er) as Hr.
    assert (Hw : w' = w2).
    { rewrite Hr, Hs, Hk in H. destruct r2 as [l|e|]; [congruence| |congruence].
      destruct e; congruence. }
    subst w'.
    destruct (receive_response_calls _ _ _ _ _ _ _ _ _ Er) as [Hh | (c & Hc & Hh)].
    + rewrite Hh. destruct Hcalls as [Hn | (c & hs & Hc & Hn)]; [left; exact Hn|].
      right. exists c, hs. split; [exact Hc|]. left. exact Hn.
    + rewrite Hs in Hc.
      destruct Hcalls as [Hn | (c' & hs & Hc' & Hn)].
      * (* a request was sent, since the transport is there *)
        exfalso. clear - Es Hc Hn.
        unfold send_request, try_except in Es.
        unfold mbind at 1, M_bind at 1, get_self at 1 in Es.
        unfold mbind at 1, M_bind at 1 in Es.
        destruct (truthy_str (_username (self w)));
          [destruct (_username (self w)); [destruct (_password (self w))|]|];
          try (unfold raise in Es; discriminate).
        -- unfold mret at 1, M_ret at 1 in Es.
           erewrite bind_ok in Es by (apply the_rest_conn_some; exact Hc).
           unfold conn_request in Es. cbn [history log] in Es.
           destruct (request_raises net _) as [e|].
           ++ destruct (is_socket_error e); unfold mbind, M_bind, get_self, raise in Es;
                discriminate.
           ++ injection Es as <-. cbn [history log] in Hn.
              apply (f_equal (@length event)) in Hn. simpl in Hn. lia.
        -- unfold mret at 1, M_ret at 1 in Es.
           erewrite bind_ok in Es by (apply the_rest_conn_some; exact Hc).
           unfold conn_request in Es. cbn [history log] in Es.
           destruct (request_raises net _) as [e|].
           ++ destruct (is_socket_error e); unfold mbind, M_bind, get_self, raise in Es;
                discriminate.
           ++ injection Es as <-. cbn [history log] in Hn.
              apply (f_equal (@length event)) in Hn. simpl in Hn. lia.
      * assert (c' = c) by congruence. subst c'.
        right. exists c, hs. split; [exact Hc|]. right.
        rewrite Hh, Hn. reflexivity.
  - rewrite (rest_request_send_raises apiconsts py net rav fuel apicall method path body
               reconnect w w1 e Hcurl Es) in H.
    injection H as _ <-.
    destruct (send_request_calls _ _ _ _ _ _ _ _ Es) as (_ & _ & Hcalls).
    destruct Hcalls as [Hn | (c & hs & Hc & Hn)]; [left; exact Hn|].
    right. exists c, hs. split; [exact Hc|]. left. exact Hn.
  - destruct (send_request_calls _ _ _ _ _ _ _ _ Es) as (Hd & _). contradiction.
Qed.

Lemma call_without_reconnect_uses_only_its_transport_witness :
  let net := Sample.scripted [Sample.fine;
                              Sample.fails (socket_error "Connection reset by peer")] in
  let w := Sample.start (Sample.connected_client false) in
  let w' := snd (_rest_request Sample.apiconsts Sample.py net Sample.rest_api_version 1
                               "LstNode" "GET" "/v1/nodes" None true w) in
  self w' = self w /\
  (history w' = history w \/
   exists c headers,
     _rest_conn (self w) = Some c /\
     (history w' =
        call_request c "GET" "/v1/nodes" (json_dumps Sample.py <$> None) headers
        :: history w \/
      history w' =
        call_getresponse c ::
        call_request c "GET" "/v1/nodes" (json_dumps Sample.py <$> None) headers
        :: history w)).
Proof.
  intros net w w'.
  apply (call_without_reconnect_uses_only_its_transport Sample.apiconsts Sample.py net
           Sample.rest_api_version 0 "LstNode" "GET" "/v1/nodes" None true w w'
           (fst (_rest_request Sample.apiconsts Sample.py net Sample.rest_api_version 1
                               "LstNode" "GET" "/v1/nodes" None true w))).
  - reflexivity.
  - reflexivity.
  - vm_compute. reflexivity.
Defined.

(** ** Credentials and plaintext connections *)

Lemma protected_log (e : event) (w : world) :
  credentials_protected w ->
  (carries_credentials e = true -> on_tls e = true) ->
  credentials_protected (log e w).
Proof.
  intros (Hu & Ha & Hc & Hh) He. repeat split; try assumption.
  cbn [history log]. constructor; assumption.
Qed.

Lemma protected_history (w w' : world) :
  credentials_protected w -> self w' = self w -> history w' = history w ->
  credentials_protected w'.
Proof.
  intros (Hu & Ha & Hc & Hh) Hs Hhist. unfold credentials_protected.
  rewrite Hs, Hhist. repeat split; assumption.
Qed.

Section Credentials.

Variable apiconsts : sharedconsts.
Variable py : pylib.
Variable net : network.
Variable rest_api_version : RESTMessageResponse -> outcome string.

Lemma kp_ret {A} (a : A) : keeps_protected (mret a).
Proof. intros w r w' Hw H. injection H as _ <-. exact Hw. Qed.

Lemma kp_raise {A} (e : exn) : keeps_protected (@raise A e).
Proof. intros w r w' Hw H. injection H as _ <-. exact Hw. Qed.

Lemma kp_diverge {A} : keeps_protected (@diverge A).
Proof. intros w r w' Hw H. injection H as _ <-. exact Hw. Qed.

Lemma kp_lift {A} (o : outcome A) : keeps_protected (lift o).
Proof. intros w r w' Hw H. injection H as _ <-. exact Hw. Qed.

Lemma kp_get_self : keeps_protected get_self.
Proof. intros w r w' Hw H. injection H as _ <-. exact Hw. Qed.

Lemma kp_bind {A B} (m : M A) (k : A -> M B) :
  keeps_protected m -> (forall a, keeps_protected (k a)) -> keeps_protected (m ≫= k).
Proof.
  intros Hm Hk w r w' Hw H. unfold mbind, M_bind in H.
  destruct (m w) as [[a|e|] w1] eqn:E; pose proof (Hm _ _ _ Hw E) as H1.
  - exact (Hk a _ _ _ H1 H).
  - injection H as _ <-. exact H1.
  - injection H as _ <-. exact H1.
Qed.

Lemma kp_try_except {A} (m : M A) (h : exn -> M A) :
  keeps_protected m -> (forall e, keeps_protected (h e)) -> keeps_protected (try_except m h).
Proof.
  intros Hm Hh w r w' Hw H. unfold try_except in H.
  destruct (m w) as [[a|e|] w1] eqn:E; pose proof (Hm _ _ _ Hw E) as H1.
  - injection H as _ <-. exact H1.
  - exact (Hh e _ _ _ H1 H).
  - injection H as _ <-. exact H1.
Qed.

Lemma kp_modify_self (f : Linstor -> Linstor) :
  (forall s, _username (f s) = _username s /\ _allow_insecure (f s) = _allow_insecure s /\
             _rest_conn (f s) = _rest_conn s) ->
  keeps_protected (modify_self f).
Proof.
  intros Hf w r w' (Hu & Ha & Hc & Hh) H. unfold modify_self in H. injection H as _ <-.
  destruct (Hf (self w)) as (F1 & F2 & F3).
  unfold credentials_protected. cbn [self history]. rewrite F1, F2, F3.
  repeat split; assumption.
Qed.

Lemma kp_set_tls_conn (c : HTTPConnection) :
  is_HTTPSConnection c = true ->
  keeps_protected (modify_self (set_rest_conn (Some c))).
Proof.
  intros Hc w r w' (Hu & Ha & _ & Hh) H. unfold modify_self in H. injection H as _ <-.
  repeat split; try assumption.
  cbn [self _rest_conn set_rest_conn]. intros c' [= <-]. exact Hc.
Qed.

Lemma kp_conn_connect (c : HTTPConnection) : keeps_protected (conn_connect net c).
Proof.
  intros w r w' Hw H. unfold conn_connect in H.
  destruct (connect_raises net _); injection H as _ <-;
    (apply protected_log; [exact Hw|discriminate]).
Qed.

Lemma kp_conn_request (c : HTTPConnection) (method url : string)
    (body : option string) (headers : list (string * string)) :
  (existsb (fun h => String.eqb (fst h) "Authorization") headers = true ->
   is_HTTPSConnection c = true) ->
  keeps_protected (conn_request net c method url body headers).
Proof.
  intros Hc w r w' Hw H. unfold conn_request in H.
  destruct (request_raises net _); injection H as _ <-;
    (apply protected_log; [exact Hw|exact Hc]).
Qed.

Lemma kp_conn_getresponse (c : HTTPConnection) : keeps_protected (conn_getresponse net c).
Proof.
  intros w r w' Hw H. unfold conn_getresponse in H.
  destruct (getresponse_does net _); injection H as _ <-;
    (apply protected_log; [exact Hw|discriminate]).
Qed.

Lemma kp_conn_close (c : HTTPConnection) : keeps_protected (conn_close c).
Proof.
  intros w r w' Hw H. unfold conn_close in H. injection H as _ <-.
  apply protected_log; [exact Hw|discriminate].
Qed.

Lemma kp_print (line : string) : keeps_protected (print line).
Proof.
  intros w r w' Hw H. unfold print in H. injection H as _ <-.
  apply protected_log; [exact Hw|discriminate].
Qed.

Ltac protect :=
  repeat first
    [ assumption
    | apply kp_ret | apply kp_raise | apply kp_diverge
    | apply kp_lift | apply kp_get_self
    | apply kp_conn_connect | apply kp_conn_getresponse | apply kp_conn_close
    | apply kp_print
    | apply kp_conn_request; discriminate
    | apply kp_modify_self; intros ?; repeat split; reflexivity
    | apply kp_bind; [|intros ?]
    | apply kp_try_except; [|intros ?]
    | match goal with
      | |- keeps_protected (if ?b then _ else _) => destruct b
      | |- keeps_protected (match ?x with _ => _ end) => destruct x
      end ].

Lemma kp_the_rest_conn : keeps_protected the_rest_conn.
Proof. unfold the_rest_conn. protect. Qed.

Lemma kp_output_curl_command (method path : string) (body : option json) :
  keeps_protected (__output_curl_command py method path body).
Proof. unfold __output_curl_command. protect. Qed.

(** The request goes to the transport of the client, which is a TLS
    connection. *)
Lemma kp_send_request (method path : string) (body : option json) :
  keeps_protected (send_request py net method path body).
Proof.
  intros w r w' Hw H.
  pose proof (send_request_keeps_self _ _ _ _ _ _ _ _ H) as Hs.
  destruct (send_request_calls _ _ _ _ _ _ _ _ H) as (_ & _ & [Hh | (c & hs & Hc & Hh)]).
  - exact (protected_history _ _ Hw Hs Hh).
  - apply (protected_history
             (log (call_request c method path (json_dumps py <$> body) hs) w) w');
      [|exact Hs|exact Hh].
    apply protected_log; [exact Hw|]. intros _.
    destruct Hw as (_ & _ & Htls & _). exact (Htls c Hc).
Qed.

Lemma kp_receive_response (apicall method path : string) :
  keeps_protected (receive_response apiconsts py net apicall method path).
Proof.
  intros w r w' Hw H.
  pose proof (receive_response_keeps_self _ _ _ _ _ _ _ _ _ H) as Hs.
  destruct (receive_response_calls _ _ _ _ _ _ _ _ _ H) as [Hh | (c & Hc & Hh)].
  - exact (protected_history _ _ Hw Hs Hh).
  - apply (protected_history (log (call_getresponse c) w) w'); [|exact Hs|exact Hh].
    apply protected_log; [exact Hw|discriminate].
Qed.

(** The probe sends no header. *)
Lemma kp_has_linstor_https (hostname : option string) (p : Z) :
  keeps_protected (has_linstor_https py net hostname p).
Proof. unfold has_linstor_https. protect. Qed.

Lemma kp_rest_request_body (connect : M (option bool)) (retry : rest_request_t)
    (apicall method path : string) (body : option json) (reconnect : bool) :
  keeps_protected connect ->
  (forall a m p b r, keeps_protected (retry a m p b r)) ->
  keeps_protected (_rest_request_body apiconsts py net connect retry
                                      apicall method path body reconnect).
Proof.
  intros Hc Hr. unfold _rest_request_body.
  pose proof (kp_output_curl_command method path body).
  pose proof (kp_send_request method path body).
  pose proof (kp_receive_response apicall method path).
  pose proof (Hr apicall method path body false).
  protect.
Qed.

(** With a user name and without [allow_insecure], the transport that
    [connect] constructs is a TLS connection, or none. *)
Lemma kp_select_transport : keeps_protected (select_transport py net).
Proof.
  unfold select_transport.
  apply kp_bind; [protect|intros s].
  apply kp_bind.
  - destruct (_ || _); [protect|].
    apply kp_bind; [apply kp_has_linstor_https|intros hp]. protect.
  - intros t w r w' Hw H.
    erewrite bind_ok in H by (unfold get_self; reflexivity).
    destruct (fst t : bool).
    + revert H. apply kp_set_tls_conn; [reflexivity|exact Hw].
    + destruct Hw as (Hu & Ha & Hc & Hh). rewrite Hu, Ha in H.
      cbn [andb negb] in H. unfold raise in H. injection H as _ <-.
      repeat split; assumption.
Qed.

Lemma kp_handshake (rr : rest_request_t) :
  (forall a m p b r, keeps_protected (rr a m p b r)) ->
  keeps_protected (handshake apiconsts net rest_api_version rr).
Proof.
  intros Hr. unfold handshake, controller_version, ctrl_rest_api_version.
  pose proof kp_the_rest_conn.
  pose proof (Hr (API_VERSION apiconsts) "GET" "/v1/controller/version" None true).
  protect.
Qed.

Lemma kp_Linstor_connect (rr : rest_request_t) :
  (forall a m p b r, keeps_protected (rr a m p b r)) ->
  keeps_protected (Linstor_connect apiconsts py net rest_api_version rr).
Proof.
  intros Hr. unfold Linstor_connect.
  pose proof kp_select_transport.
  pose proof (kp_handshake rr Hr).
  protect.
Qed.

Lemma kp_MultiLinstor_connect_loop (super_connect : M (option bool))
    (hosts : list string) (conn_errors : list exn) :
  keeps_protected super_connect ->
  keeps_protected (MultiLinstor_connect_loop super_connect hosts conn_errors).
Proof.
  intros Hs. revert conn_errors.
  induction hosts as [|h hosts IH]; intros conn_errors; simpl; [protect|].
  apply kp_bind; [protect|intros _].
  apply kp_bind; [protect|intros [v|lne]]; [protect|apply IH].
Qed.

Lemma kp_self_connect (rr : rest_request_t) :
  (forall a m p b r, keeps_protected (rr a m p b r)) ->
  keeps_protected (self_connect apiconsts py net rest_api_version rr).
Proof.
  intros Hr. unfold self_connect, MultiLinstor_connect.
  pose proof (kp_Linstor_connect rr Hr).
  apply kp_bind; [protect|intros s].
  destruct (__class__ s); [assumption|].
  apply kp_bind; [protect|intros s'].
  apply kp_bind; [apply kp_MultiLinstor_connect_loop; assumption|].
  intros e. protect.
Qed.

Lemma kp_rest_request (fuel : nat) :
  forall a m p b r,
    keeps_protected (_rest_request apiconsts py net rest_api_version fuel a m p b r).
Proof.
  induction fuel as [|fuel IH]; intros a m p b r; simpl.
  - apply kp_diverge.
  - apply kp_rest_request_body; [|exact IH].
    apply kp_self_connect. exact IH.
Qed.

End Credentials.

(** X16: a client with a user name that was not allowed insecure
    connections never sends its credentials in the clear.  Starting
    without a plaintext transport, whatever the peer does and however
    [connect] and the dispatched calls end, at whatever depth of
    reconnecting and on whichever endpoint of a [MultiLinstor], every
    request that carried an [Authorization] header went to an
    [HTTPSConnection], and the transport the client is left with is a TLS
    connection or none. *)
Theorem credentials_never_leave_in_the_clear :
  forall (apiconsts : sharedconsts) (py : pylib) (net : network)
         (rest_api_version : RESTMessageResponse -> outcome string)
         (fuel : nat) (apicall method path : string) (body : option json)
         (reconnect : bool) (w : world),
    credentials_protected w ->
    credentials_protected
      (snd (connect apiconsts py net rest_api_version fuel w)) /\
    credentials_protected
      (snd (_rest_request apiconsts py net rest_api_version fuel
                          apicall method path body reconnect w)).
Proof.
  intros apiconsts py net rav fuel apicall method path body reconnect w Hw. split.
  - destruct (connect apiconsts py net rav fuel w) as [r w'] eqn:E.
    exact (kp_self_connect apiconsts py net rav _ (kp_rest_request apiconsts py net rav fuel)
             _ _ _ Hw E).
  - destruct (_rest_request apiconsts py net rav fuel apicall method path body reconnect w)
      as [r w'] eqn:E.
    exact (kp_rest_request apiconsts py net rav fuel _ _ _ _ _ _ _ _ Hw E).
Qed.

Lemma credentials_never_leave_in_the_clear_witness :
  let net := Sample.scripted [Sample.fine; Sample.fine;
                              Sample.responds (Sample.http 200 "{'rest_api_version': '1.0.7'}")] in
  let w := Sample.start (Sample.client class_Linstor ["linstor+ssl://alpha"] true
                                       (Some "admin")) in
  credentials_protected
    (snd (connect Sample.apiconsts Sample.py net Sample.rest_api_version 2 w)) /\
  credentials_protected
    (snd (_rest_request Sample.apiconsts Sample.py net Sample.rest_api_version 2
                        "LstNode" "GET" "/v1/nodes" None true w)).
Proof.
  intros net w.
  apply (credentials_never_leave_in_the_clear Sample.apiconsts Sample.py net
           Sample.rest_api_version 2 "LstNode" "GET" "/v1/nodes" None true w).
  repeat split; [discriminate|constructor].
Defined.

(** ** Reconnecting inside the reconnect, for any peer that resets every read *)

Lemma probe_when_reads_are_reset (py : pylib) (net : network)
    (hostname : option string) (p : Z) (w : world) :
  resets_every_read net ->
  exists w1, has_linstor_https py net hostname p w = (Ok (Some 0), w1) /\ self w1 = self w.
Proof.
  intros (Hc & Hq & Hr). unfold has_linstor_https.
  unfold try_except, mbind, M_bind, conn_connect, conn_request, conn_getresponse.
  cbn [history log]. rewrite Hc, Hq.
  match goal with
  | |- context [getresponse_does net ?h] => destruct (Hr h) as [err ->]
  end.
  cbn [is_socket_error]. eexists. split; reflexivity.
Qed.

Lemma select_transport_when_reads_are_reset (py : pylib) (net : network) (w : world) :
  resets_every_read net ->
  truthy_str (_username (self w)) = false ->
  exists c w1,
    select_transport py net w = (Ok tt, w1) /\ self w1 = set_rest_conn (Some c) (self w).
Proof.
  intros Hnet Hu.
  destruct (String.eqb (urlparse_scheme py (_ctrl_host (self w))) "linstor+ssl"
            || String.eqb (urlparse_scheme py (_ctrl_host (self w))) "https") eqn:Es.
  - unfold select_transport.
    erewrite bind_ok by (unfold get_self; reflexivity). rewrite Es.
    erewrite bind_ok by reflexivity.
    erewrite bind_ok by (unfold get_self; reflexivity).
    cbn [fst snd]. unfold modify_self. eexists _, _. split; reflexivity.
  - destruct (probe_when_reads_are_reset py net
                (urlparse_hostname py (_ctrl_host (self w)))
                (if truthy_int (urlparse_port py (_ctrl_host (self w)))
                 then default 0 (urlparse_port py (_ctrl_host (self w))) else REST_PORT)
                w Hnet) as (w1 & Hprobe & Hself).
    rewrite (select_transport_plaintext py net w w1 (Some 0) Es Hprobe eq_refl).
    rewrite Hu. cbn [andb]. eexists _, _. split; reflexivity.
Qed.

(** X17: [connect] asks for the version of the controller through
    [_rest_request] with its default [reconnect=True].  Against a peer
    that accepts every connection and every request and fails every
    reading of a response with a socket error, a dispatched call of a
    keep-alive client therefore nests reconnects without bound: at no
    depth of nesting does the call return or raise. *)
Theorem reconnect_nests_without_bound :
  forall (apiconsts : sharedconsts) (py : pylib) (net : network)
         (rest_api_version : RESTMessageResponse -> outcome string)
         (fuel : nat) (apicall method path : string) (body : option json) (w : world),
    resets_every_read net ->
    reconnecting_client (self w) ->
    fst (_rest_request apiconsts py net rest_api_version fuel
                       apicall method path body true w) = Diverge.
Proof.
  intros apiconsts py net rav fuel apicall method path body w Hnet.
  revert apicall method path body w.
  induction fuel as [|fuel IH]; intros apicall method path body w Hw; [reflexivity|].
  destruct Hw as (Hcls & Hka & Hcurl & Huser & c & Hc).
  pose proof Hnet as (Hnc & Hnq & Hnr).
  set (w1 := log (call_request c method path (json_dumps py <$> body)
                    (_http_headers ++ [])%list) w).
  assert (Hsend : send_request py net method path body w = (Ok tt, w1)).
  { unfold send_request.
    erewrite try_except_ok; [reflexivity|].
    erewrite bind_ok by (unfold get_self; reflexivity). rewrite Huser.
    erewrite bind_ok by reflexivity.
    erewrite bind_ok by (apply the_rest_conn_some; exact Hc).
    unfold conn_request. cbn [history log]. rewrite Hnq. reflexivity. }
  rewrite (rest_request_after_send apiconsts py net rav fuel apicall method path body
             true w w1 Hcurl Hsend).
  set (w2 := log (call_getresponse c) w1).
  destruct (Hnr (call_getresponse c :: history w1)) as [err Herr].
  assert (Hrecv : receive_response apiconsts py net apicall method path w1
                  = (Raise (socket_error err), w2)).
  { unfold receive_response.
    erewrite bind_ok by (apply the_rest_conn_some; exact Hc).
    erewrite bind_raise by (apply conn_getresponse_raises; exact Herr).
    reflexivity. }
  rewrite Hrecv. change (_keep_alive (self w2)) with (_keep_alive (self w)).
  rewrite Hka. cbn [andb].
  assert (Hconn : fst (connect apiconsts py net rav fuel w2) = Diverge).
  { rewrite (connect_on_Linstor _ _ _ _ _ w2 Hcls).
    rewrite (Linstor_connect_not_curl _ _ _ _ _ w2 Hcurl).
    destruct (select_transport_when_reads_are_reset py net w2 Hnet Huser)
      as (c' & w4 & Hsel & Hself).
    erewrite bind_ok by exact Hsel.
    set (w5 := log (call_connect c') w4).
    destruct (_rest_request apiconsts py net rav fuel
                (API_VERSION apiconsts) "GET" "/v1/controller/version" None true w5)
      as [r w6] eqn:Erun.
    assert (Hr : r = Diverge).
    { change r with (fst (r, w6)). rewrite <- Erun. apply IH.
      unfold reconnecting_client. change (self w5) with (self w4). rewrite Hself.
      cbn [__class__ _keep_alive _mode_curl _username _rest_conn set_rest_conn].
      change (self w2) with (self w).
      repeat split; try assumption. exists c'. reflexivity. }
    subst r.
    assert (Hhs : handshake apiconsts net rav (_rest_request apiconsts py net rav fuel) w4
                  = (Diverge, w6)).
    { unfold handshake.
      erewrite bind_ok by (apply the_rest_conn_some; rewrite Hself; reflexivity).
      erewrite bind_ok
        by (unfold conn_connect; cbn [history log]; rewrite Hnc; reflexivity).
      erewrite bind_diverge; [reflexivity|].
      unfold controller_version. erewrite bind_diverge by exact Erun. reflexivity. }
    erewrite bind_diverge; [reflexivity|].
    erewrite try_except_diverge by exact Hhs. reflexivity. }
  destruct (connect apiconsts py net rav fuel w2) as [r w3] eqn:E.
  simpl in Hconn. subst r.
  erewrite bind_diverge by exact E. reflexivity.
Qed.

Lemma reconnect_nests_without_bound_witness :
  resets_every_read Sample.resetting /\
  reconnecting_client (self (Sample.start (Sample.connected_client true))) /\
  fst (_rest_request Sample.apiconsts Sample.py Sample.resetting Sample.rest_api_version 7
                     "LstNode" "GET" "/v1/nodes" None true
                     (Sample.start (Sample.connected_client true))) = Diverge.
Proof.
  assert (Hnet : resets_every_read Sample.resetting).
  { split; [|split]; intros h; [reflexivity|reflexivity|eexists; reflexivity]. }
  assert (Hw : reconnecting_client (self (Sample.start (Sample.connected_client true)))).
  { repeat split; try reflexivity. eexists. reflexivity. }
  split; [exact Hnet|]. split; [exact Hw|].
  apply (reconnect_nests_without_bound Sample.apiconsts Sample.py Sample.resetting
           Sample.rest_api_version 7 "LstNode" "GET" "/v1/nodes" None
           (Sample.start (Sample.connected_client true)) Hnet Hw).
Defined.

(** ** The volume-size parser on text after the unit *)

Lemma span_stops (p : ascii -> bool) (a : string) (c : ascii) (r : string) :
  all_chars p a = true -> p c = false ->
  span p (a +:+ String c r) = (a, String c r).
Proof.
  intros Ha Hc. induction a as [|x a IH]; simpl in *.
  - rewrite Hc. reflexivity.
  - apply andb_true_iff in Ha as [Hx Ha]. rewrite Hx, (IH Ha). reflexivity.
Qed.

(** X18: the pattern is matched at the start of the string only, so what
    follows the unit is ignored: a number, a unit and then anything that
    begins with a digit parses as the number and the unit alone, to the
    same size or the same error, for any [SizeCalc]. *)
Theorem parse_volume_size_to_kib_ignores_what_follows_the_unit :
  forall (sc : SizeCalc) (digits suffix : string) (c : ascii) (tail : string),
    digits <> EmptyString ->
    all_chars is_digit digits = true ->
    suffix <> EmptyString ->
    all_chars not_digit suffix = true ->
    is_digit c = true ->
    parse_volume_size_to_kib sc (digits +:+ suffix +:+ String c tail) =
    parse_volume_size_to_kib sc (digits +:+ suffix).
Proof.
  intros sc digits suffix c tail Hne Hd Hsne Hs Hc.
  assert (Hm : match_size (digits +:+ suffix +:+ String c tail) = Some (digits, suffix)).
  { unfold match_size.
    destruct suffix as [|x suffix]; [congruence|].
    simpl in Hs. apply andb_true_iff in Hs as [Hx Hs].
    change (String x suffix +:+ String c tail) with (String x (suffix +:+ String c tail)).
    rewrite (span_stops is_digit digits x (suffix +:+ String c tail) Hd).
    2:{ unfold not_digit in Hx. destruct (is_digit x); [discriminate|reflexivity]. }
    destruct digits as [|d digits]; [congruence|].
    change (fun c0 => negb (is_digit c0)) with not_digit.
    change (String x (suffix +:+ String c tail))
      with (String x suffix +:+ String c tail).
    rewrite (span_stops not_digit (String x suffix) c tail).
    - reflexivity.
    - simpl. rewrite Hx, Hs. reflexivity.
    - unfold not_digit. rewrite Hc. reflexivity. }
  unfold parse_volume_size_to_kib.
  rewrite Hm, (match_size_split digits suffix Hne Hd Hs). reflexivity.
Qed.

Lemma parse_volume_size_to_kib_ignores_what_follows_the_unit_witness :
  parse_volume_size_to_kib SizeCalcModel.model ("10" +:+ "k" +:+ String "5" "m") =
  parse_volume_size_to_kib SizeCalcModel.model ("10" +:+ "k").
Proof.
  apply (parse_volume_size_to_kib_ignores_what_follows_the_unit
           SizeCalcModel.model "10" "k" "5" "m").
  - discriminate.
  - reflexivity.
  - discriminate.
  - reflexivity.
  - reflexivity.
Defined.
